(** * Web3FormsHandler: the contact-form submission handler of js/web3forms.js

    A shallow embedding of the class [Web3FormsHandler] and of the part of
    the browser it talks to: the document (form, status region, token
    input, submit button), the timer queue, and the three external
    services (reCAPTCHA provider, Web3Forms endpoint, gtag).

    The handler's methods are state transformers on [Document].  What the
    outside world answers during one submission (is [grecaptcha] defined
    at the k-th poll, what does the provider return, what does [fetch]
    return, ...) is an [Env] record, so every method is an executable
    function.  An [await] that never settles is the outcome [Pending]. *)

From stdpp Require Import gmap strings list.

Open Scope string_scope.
Open Scope nat_scope.
Open Scope list_scope.

(** ** The document *)

(** The submit button.  [btnText] and [btnLoader] hold [style.display] of
    the children [.btn-text] and [.btn-loader]; [None] is a [querySelector]
    that returns null. *)
Record Button := mkButton {
  disabled : bool;
  btnText : option string;
  btnLoader : option string
}.

(** What the user can change in a form and what [reset()] restores:
    the field values, the [checked] state of [input[name="botcheck"]]
    ([None]: no such input), and the answer of [checkValidity()]. *)
Record Controls := mkControls {
  fields : list (string * string);
  botcheck : option bool;
  checkValidity : bool
}.

Record FormEl := mkForm {
  controls : Controls;
  defaults : Controls;
  button : option Button   (* querySelector('button[type="submit"]') *)
}.

Record StatusDiv := mkStatus {
  textContent : string;
  className : string;
  display : string          (* style.display *)
}.

Record Script := mkScript { src : string; async : bool; defer : bool }.

Inductive TimerCb := CheckRecaptchaCb | HideStatusCb.

Record Timer := mkTimer { due : N; callback : TimerCb }.

Record Error := mkError { message : string }.

(** What a [throw] or a rejected promise carries.  JavaScript lets any
    value be thrown, and the handler's [catch] reads [error.message] of
    what it caught: that is the message of an [Error] object, [undefined]
    for a value without one, and a TypeError for null and undefined. *)
Inductive Thrown :=
| Raised (e : Error)             (* an object with a string [message] *)
| Messageless                    (* a string, a number, an object without [message] *)
| Nullish.                       (* null or undefined *)

Coercion Raised : Error >-> Thrown.

(** Calls that leave the handler, in the order they are made. *)
Inductive Effect :=
| PreventDefault
| SetLoadingState (isLoading : bool)
| ShowStatus (msg type : string)
| HideStatus
| FormReset
| GetRecaptchaToken
| SetTimeout (cb : TimerCb) (ms : N)
| GrecaptchaReady
| GrecaptchaExecute (siteKey action : string)
| Fetch (url method : string) (body : list (string * string))
| ResponseJson
| Gtag (command eventName category label : string)
| Console (level text : string).

(** The page.  [forms] are the elements [getElementById] can return for a
    form id; the elements with the ids [formStatus] and
    [recaptchaResponse] are nodes of their own. *)
Record Document := mkDocument {
  forms : gmap string FormEl;
  formStatus : option StatusDiv;
  recaptchaResponse : option string;     (* its [value] *)
  headScripts : list Script;
  submitListeners : list string;         (* ids of forms with a listener *)
  timers : list Timer;
  now : N;                               (* clock, in ms *)
  log : list Effect
}.

Definition set_forms (m : gmap string FormEl) (d : Document) : Document :=
  mkDocument m (formStatus d) (recaptchaResponse d) (headScripts d)
             (submitListeners d) (timers d) (now d) (log d).
Definition set_formStatus (s : option StatusDiv) (d : Document) : Document :=
  mkDocument (forms d) s (recaptchaResponse d) (headScripts d)
             (submitListeners d) (timers d) (now d) (log d).
Definition set_recaptchaResponse (v : option string) (d : Document) : Document :=
  mkDocument (forms d) (formStatus d) v (headScripts d)
             (submitListeners d) (timers d) (now d) (log d).
Definition set_headScripts (l : list Script) (d : Document) : Document :=
  mkDocument (forms d) (formStatus d) (recaptchaResponse d) l
             (submitListeners d) (timers d) (now d) (log d).
Definition set_submitListeners (l : list string) (d : Document) : Document :=
  mkDocument (forms d) (formStatus d) (recaptchaResponse d) (headScripts d)
             l (timers d) (now d) (log d).
Definition set_timers (l : list Timer) (d : Document) : Document :=
  mkDocument (forms d) (formStatus d) (recaptchaResponse d) (headScripts d)
             (submitListeners d) l (now d) (log d).
Definition set_now (t : N) (d : Document) : Document :=
  mkDocument (forms d) (formStatus d) (recaptchaResponse d) (headScripts d)
             (submitListeners d) (timers d) t (log d).
Definition emit (e : Effect) (d : Document) : Document :=
  mkDocument (forms d) (formStatus d) (recaptchaResponse d) (headScripts d)
             (submitListeners d) (timers d) (now d) (log d ++ [e]).

(** [setTimeout(cb, ms)] *)
Definition setTimeout (cb : TimerCb) (ms : N) (d : Document) : Document :=
  emit (SetTimeout cb ms) (set_timers (timers d ++ [mkTimer (now d + ms) cb]) d).

(** [form.reset()] on the form with id [id]. *)
Definition reset (f : FormEl) : FormEl :=
  mkForm (defaults f) (defaults f) (button f).

(** ** The handler object

    Its fields are references into the document: [form] is the id of the
    bound form, [submitButton] the id of the form whose submit button it
    is, [statusDiv] the node with id [formStatus]; [None] is null. *)
Record Handler := mkHandler {
  form : option string;
  recaptchaSiteKey : string;
  submitButton : option string;
  statusDiv : option unit
}.

(** A synchronous call returns or throws. *)
Inductive Completion :=
| Normal (d : Document)
| Throw (e : Thrown) (d : Document).

(** The TypeError the engine throws for a property access on null or
    undefined.  The text of its message is the engine's; the name stands
    for it here. *)
Definition TypeError : Error := mkError "TypeError".

Definition theForm (this : Handler) (d : Document) : option FormEl :=
  id ← form this; forms d !! id.

Definition theButton (this : Handler) (d : Document) : option Button :=
  id ← submitButton this; f ← forms d !! id; button f.

Definition storeButton (this : Handler) (b : Button) (d : Document) : Document :=
  match submitButton this with
  | Some id =>
      match forms d !! id with
      | Some f => set_forms (<[id := mkForm (controls f) (defaults f) (Some b)]> (forms d)) d
      | None => d
      end
  | None => d
  end.

(** ** What the outside world answers during one submission *)

(** What [grecaptcha] does once it is defined.  The handler calls
    [grecaptcha.ready(callback)], and only the callback calls
    [grecaptcha.execute(...)], whose promise gives the token.
    - [ReadySilent]: [ready] returns and never runs the callback;
    - [ReadyThrows v executed]: the call of [ready] throws [v], by itself
      ([executed = false]: [ready] is no function, say) or because it ran
      the callback at once and [execute] threw in it ([executed = true]);
    - [TokenIssued], [ProviderFails], [ProviderSilent]: the callback ran
      and [execute] returned a promise that resolves, rejects with a
      value of the provider's choice, or never settles.  A callback that
      runs later and throws looks like [ProviderSilent]: [execute] was
      called and neither [resolve] nor [reject] ever is. *)
Inductive ProviderOutcome :=
| ReadySilent
| ReadyThrows (v : Thrown) (executed : bool)
| TokenIssued (token : string)
| ProviderFails (v : Thrown)
| ProviderSilent.

Record Json := mkJson { success : bool; data_message : option string }.

Inductive FetchOutcome :=
| Responds
| FetchFails (e : Error)
| FetchSilent.

Inductive JsonOutcome :=
| Parsed (data : Json)
| ParseFails (e : Error)         (* also a body that is no object: [data.success] throws *)
| JsonSilent.

Inductive GtagGlobal :=
| GtagUndefined
| GtagReturns
| GtagThrows (v : Thrown).        (* [gtag] is any global of the page *)

Record Env := mkEnv {
  grecaptchaDefined : nat -> bool;  (* typeof grecaptcha !== 'undefined' at the check with [attempts = k] *)
  provider : ProviderOutcome;
  fetchOutcome : FetchOutcome;
  jsonOutcome : JsonOutcome;
  gtag : GtagGlobal
}.

(** What becomes of a promise: resolved with a value, rejected with a
    value, or never settled. *)
Inductive Settle (A : Type) :=
| Resolves (a : A) (d : Document)
| Rejects (e : Thrown) (d : Document)
| Pending (d : Document).
Arguments Resolves {A} a d.
Arguments Rejects {A} e d.
Arguments Pending {A} d.

Definition finalDocument {A} (s : Settle A) : Document :=
  match s with Resolves _ d | Rejects _ d | Pending d => d end.

Module Web3FormsHandler.

Definition loadRecaptcha (this : Handler) (d : Document) : Document :=
  let script :=
    mkScript ("https://www.google.com/recaptcha/api.js?render=" +:+ recaptchaSiteKey this)
             true true in
  set_headScripts (headScripts d ++ [script]) d.

Definition init (this : Handler) (d : Document) : Handler * Document :=
  match form this with
  | None => (this, d)            (* init is only called with a form *)
  | Some id =>
      let this :=
        mkHandler (form this) (recaptchaSiteKey this)
                  (_ ← (f ← forms d !! id; button f); Some id)
                  (_ ← formStatus d; Some ()) in
      let d := loadRecaptcha this d in
      (this, set_submitListeners (submitListeners d ++ [id]) d)
  end.

Definition constructor (formId recaptchaSiteKey : string) (d : Document)
  : Handler * Document :=
  let this :=
    mkHandler (_ ← forms d !! formId; Some formId) recaptchaSiteKey None None in
  match form this with
  | Some _ => init this d
  | None => (this, d)
  end.

Definition setLoadingState (this : Handler) (isLoading : bool) (d : Document)
  : Completion :=
  let d := emit (SetLoadingState isLoading) d in
  match theButton this d with
  | None => Throw TypeError d    (* this.submitButton is null *)
  | Some b =>
      if isLoading then
        Normal (storeButton this
                  (mkButton true
                            ((λ _, "none") <$> btnText b)
                            ((λ _, "inline-block") <$> btnLoader b)) d)
      else
        Normal (storeButton this
                  (mkButton false
                            ((λ _, "inline") <$> btnText b)
                            ((λ _, "none") <$> btnLoader b)) d)
  end.

Definition hideStatus (this : Handler) (d : Document) : Document :=
  let d := emit HideStatus d in
  match statusDiv this with
  | Some _ =>
      set_formStatus
        ((λ s, mkStatus (textContent s) (className s) "none") <$> formStatus d) d
  | None => d
  end.

Definition showStatus (this : Handler) (msg type : string) (d : Document)
  : Document :=
  let d := emit (ShowStatus msg type) d in
  match statusDiv this with
  | None => d
  | Some _ =>
      let d :=
        set_formStatus
          ((λ _, mkStatus msg ("form-status " +:+ type) "block") <$> formStatus d) d in
      (* Auto-hide success messages after 5 seconds *)
      if decide (type = "success") then setTimeout HideStatusCb 5000 d else d
  end.

Definition resetForm (this : Handler) (d : Document) : Document :=
  let d := emit FormReset d in
  match form this with
  | Some id => set_forms (alter reset id (forms d)) d
  | None => d
  end.

Definition maxAttempts : nat := 20.

(** A timer that is set and has fired when the model goes on: the poll
    of [getRecaptchaToken] waits for its own 500 ms timer.  The clock
    [now] of a run of the handler counts these waits of the poll and
    nothing else.  The time the provider or the server takes to answer,
    and the firing of the queue's timers that come due meanwhile, belong
    to the event loop below: a [Tick] between two segments of the run
    moves the clock and fires them ([advance]). *)
Definition afterTimeout (cb : TimerCb) (ms : N) (d : Document) : Document :=
  set_now (now d + ms) (emit (SetTimeout cb ms) d).

(** The closure [checkRecaptcha] with its captured counter [attempts].
    [fuel] bounds the number of timer callbacks; [getRecaptchaToken]
    gives it [maxAttempts], which is never used up
    ([getRecaptchaToken_total]).

    The first call ([attempts = 0]) is made by the executor of the
    promise, the later ones by timers.  An exception that leaves
    [checkRecaptcha] rejects the promise in the first case; in a timer
    callback it is nobody's, and the promise stays pending. *)
Fixpoint checkRecaptcha (fuel : nat) (this : Handler) (env : Env)
    (attempts : nat) (d : Document) : option (Settle string) :=
  if grecaptchaDefined env attempts then
    let d := emit (Console "log" "reCAPTCHA loaded successfully") d in
    let d := emit GrecaptchaReady d in
    let execute := GrecaptchaExecute (recaptchaSiteKey this) "submit" in
    match provider env with
    | ReadySilent => Some (Pending d)
    | ReadyThrows v executed =>
        let d := if executed then emit execute d else d in
        Some (if decide (attempts = 0) then Rejects v d else Pending d)
    | TokenIssued token =>
        let d := emit execute d in
        Some (Resolves token (emit (Console "log" "reCAPTCHA token received") d))
    | ProviderFails v => Some (Rejects v (emit execute d))
    | ProviderSilent => Some (Pending (emit execute d))
    end
  else
    let attempts := S attempts in
    if attempts <? maxAttempts then
      match fuel with
      | O => None
      | S fuel =>
          checkRecaptcha fuel this env attempts
                         (afterTimeout CheckRecaptchaCb 500 d)
      end
    else
      let d := emit (Console "warn" "reCAPTCHA failed to load, continuing without it") d in
      Some (Resolves "" d).

Definition getRecaptchaToken (this : Handler) (env : Env) (d : Document)
  : option (Settle string) :=
  checkRecaptcha maxAttempts this env 0 (emit GetRecaptchaToken d).

(** Modelled from the spec: the page markup is not part of the sources;
    by the spec the request body holds all form fields, the honeypot
    field [botcheck] (a checkbox: sent only when checked) and the token
    field [recaptchaResponse]. *)
Definition FormData (f : FormEl) (d : Document) : list (string * string) :=
  fields (controls f)
  ++ (if default false (botcheck (controls f)) then [("botcheck", "on")] else [])
  ++ match recaptchaResponse d with
     | Some v => [("recaptchaResponse", v)]
     | None => []
     end.

(** *** [handleSubmit], cut at its two suspension points

    [begin] is the synchronous part before [try]; [dispatch] runs from
    [try] to the call of [fetch]; [receive] from the answer of [fetch] to
    the end of the [try] block; [conclude] is [catch] and [finally]. *)

Inductive Begun :=
| Returned (s : Settle unit)     (* the function is over *)
| Loading (d : Document).        (* at [try], in the loading state *)

Definition begin (this : Handler) (d : Document) : Begun :=
  let d := emit PreventDefault d in
  match theForm this d with
  | None => Returned (Rejects TypeError d)
  | Some f =>
      (* Client-side validation *)
      if negb (checkValidity (controls f)) then
        Returned (Resolves () (showStatus this "Please fill in all required fields." "error" d))
      else
        (* Honeypot check (bot detection) *)
        let honeypot := botcheck (controls f) in
        if match honeypot with Some checked => checked | None => false end then
          let d := showStatus this "Thank you! Your message has been sent." "success" d in
          Returned (Resolves () (resetForm this d))
        else
          match setLoadingState this true d with
          | Throw e d => Returned (Rejects e d)
          | Normal d => Loading (hideStatus this d)
          end
  end.

Inductive Dispatched :=
| Sent (d : Document)            (* [fetch] has been called *)
| NotSent (s : Settle unit).     (* thrown, or stuck, before [fetch] *)

Definition dispatch (this : Handler) (env : Env) (d : Document)
  : option Dispatched :=
  r ← getRecaptchaToken this env d;
  Some match r with
       | Pending d => NotSent (Pending d)
       | Rejects e d => NotSent (Rejects e d)
       | Resolves token d =>
           match recaptchaResponse d with
           | None => NotSent (Rejects TypeError d)   (* getElementById(...) is null *)
           | Some _ =>
               let d := set_recaptchaResponse (Some token) d in
               match theForm this d with
               | None => NotSent (Rejects TypeError d)
               | Some f =>
                   let formData := FormData f d in
                   Sent (emit (Fetch "https://api.web3forms.com/submit" "POST" formData) d)
               end
           end
       end.

Definition gtagCall : Effect :=
  Gtag "event" "form_submit" "Contact Form" "Success".

Definition receive (this : Handler) (env : Env) (d : Document) : Settle unit :=
  match fetchOutcome env with
  | FetchSilent => Pending d
  | FetchFails e => Rejects e d
  | Responds =>
      let d := emit ResponseJson d in
      match jsonOutcome env with
      | JsonSilent => Pending d
      | ParseFails e => Rejects e d
      | Parsed data =>
          if success data then
            let d := showStatus this "Thank you! Your message has been sent successfully." "success" d in
            let d := resetForm this d in
            (* Optional: Analytics tracking *)
            match gtag env with
            | GtagUndefined => Resolves () d
            | GtagReturns => Resolves () (emit gtagCall d)
            | GtagThrows e => Rejects e (emit gtagCall d)
            end
          else
            let m := match data_message data with
                     | Some m => if decide (m = "") then "Submission failed" else m
                     | None => "Submission failed"
                     end in
            Rejects (mkError m) d
      end
  end.

Definition genericError : string :=
  "Sorry, there was an error sending your message. Please try again or email us directly.".

(** The [catch] block.  Its second statement reads [error.message]:
    for null and undefined that throws, and the block is left before
    [showStatus]. *)
Definition catch (this : Handler) (error : Thrown) (d : Document) : Completion :=
  let d := emit (Console "error" "Form submission error:") d in
  match error with
  | Nullish => Throw TypeError d
  | Messageless =>
      let d := emit (Console "error" "Error details: undefined") d in
      Normal (showStatus this genericError "error" d)
  | Raised e =>
      let d := emit (Console "error" ("Error details: " +:+ message e)) d in
      let d := showStatus this genericError "error" d in
      Normal (if decide (message e = "") then d
              else emit (Console "error" ("Error message: " +:+ message e)) d)
  end.

Definition finally (this : Handler) (d : Document) : Settle unit :=
  match setLoadingState this false d with
  | Normal d => Resolves () d
  | Throw e d => Rejects e d
  end.

(** [catch] and [finally].  [finally] runs however the [catch] block was
    left; an exception of the [catch] block goes on after it, unless
    [finally] throws one of its own. *)
Definition conclude (this : Handler) (r : Settle unit) : Settle unit :=
  match r with
  | Pending d => Pending d                 (* the await never resumes *)
  | Resolves _ d => finally this d
  | Rejects e d =>
      match catch this e d with
      | Normal d => finally this d
      | Throw e' d =>
          match finally this d with
          | Resolves _ d => Rejects e' d
          | r => r
          end
      end
  end.

Definition tryBlock (this : Handler) (env : Env) (d : Document)
  : option (Settle unit) :=
  r ← dispatch this env d;
  Some match r with
       | NotSent s => s
       | Sent d => receive this env d
       end.

Definition handleSubmit (this : Handler) (env : Env) (d : Document)
  : option (Settle unit) :=
  match begin this d with
  | Returned s => Some s
  | Loading d => conclude this <$> tryBlock this env d
  end.

End Web3FormsHandler.

(** [initWeb3Forms]: [override] is [window.RECAPTCHA_SITE_KEY]. *)
Definition initWeb3Forms (override : option string) (d : Document)
  : Handler * Document :=
  let recaptchaSiteKey :=
    match override with
    | Some k => if decide (k = "") then "6Lf_dvwpAAAAAFmtH33BiSaA2Iu6XKM64Fz9qv5w" else k
    | None => "6Lf_dvwpAAAAAFmtH33BiSaA2Iu6XKM64Fz9qv5w"
    end in
  Web3FormsHandler.constructor "contactForm" recaptchaSiteKey d.

(** ** The browser around the handler *)

(** A timer of the queue fires.  Only [hideStatus] timers wait in the
    queue: the poll's timer is consumed by [afterTimeout]. *)
Definition fire (this : Handler) (t : Timer) (d : Document) : Document :=
  match callback t with
  | HideStatusCb => Web3FormsHandler.hideStatus this d
  | CheckRecaptchaCb => d
  end.

(** The clock moves to [t]: the timers due by then fire, in queue order. *)
Definition advance (this : Handler) (t : N) (d : Document) : Document :=
  let ready := filter (λ x, (due x ≤ t)%N) (timers d) in
  let later := filter (λ x, ¬ (due x ≤ t)%N) (timers d) in
  foldl (λ d x, fire this x d) (set_now (N.max (now d) t) (set_timers later d)) ready.

(** The effects issued between two documents of one run. *)
Definition issued (d d' : Document) : list Effect :=
  drop (length (log d)) (log d').

(** The handler is the one the constructor builds for a form of [d]. *)
Definition attached (this : Handler) (d : Document) : Prop :=
  ∃ id f, form this = Some id ∧ forms d !! id = Some f ∧
          submitButton this = (_ ← button f; Some id) ∧
          statusDiv this = (_ ← formStatus d; Some ()).

(** The enabled, non-loading look of the submit button: enabled, label
    not hidden, spinner hidden. *)
Definition idle (b : Button) : Prop :=
  disabled b = false ∧
  (∀ s, btnText b = Some s → s ≠ "none") ∧
  (∀ s, btnLoader b = Some s → s = "none").

Definition isFetch (e : Effect) : bool :=
  match e with Fetch _ _ _ => true | _ => false end.

Definition isTimer (e : Effect) : bool :=
  match e with SetTimeout _ _ => true | _ => false end.

(** *** The event loop

    One controller and the submissions it has in flight.  An attempt is
    in flight from the moment [begin] reaches [try] until [conclude] has
    run; in between it waits for the token, then for the response. *)
Inductive Phase := AwaitingToken | AwaitingResponse.

#[global] Instance Phase_eq_dec : EqDecision Phase.
Proof. solve_decision. Defined.

Record System := mkSystem { doc : Document; inflight : list Phase }.

Inductive Event :=
| UiSubmit                               (* click on the button, or Enter in a field *)
| UserEdit (c : Controls)                (* the user changes the form's controls *)
| Tick (t : N)                           (* the clock reaches [t] *)
| TokenSettles (i : nat) (env : Env)     (* attempt [i]: getRecaptchaToken is over *)
| ResponseSettles (i : nat) (env : Env). (* attempt [i]: fetch is over *)

(** The browser submits a form through its user interface only when the
    form's submit button is not disabled. *)
Definition uiCanSubmit (this : Handler) (d : Document) : bool :=
  match f ← theForm this d; button f with
  | Some b => negb (disabled b)
  | None => true
  end.

Definition edit (this : Handler) (c : Controls) (d : Document) : Document :=
  match form this with
  | Some id => set_forms (alter (λ f, mkForm c (defaults f) (button f)) id (forms d)) d
  | None => d
  end.

(** An attempt that is over leaves the list; one whose await never
    resumes stays. *)
Definition retire (i : nat) (r : Settle unit) (s : System) : System :=
  match r with
  | Pending _ => s
  | Resolves _ d | Rejects _ d => mkSystem d (delete i (inflight s))
  end.

Definition step (this : Handler) (s : System) (ev : Event) : System :=
  match ev with
  | UiSubmit =>
      if uiCanSubmit this (doc s) then
        match Web3FormsHandler.begin this (doc s) with
        | Web3FormsHandler.Returned r => mkSystem (finalDocument r) (inflight s)
        | Web3FormsHandler.Loading d => mkSystem d (inflight s ++ [AwaitingToken])
        end
      else s
  | UserEdit c => mkSystem (edit this c (doc s)) (inflight s)
  | Tick t => mkSystem (advance this t (doc s)) (inflight s)
  | TokenSettles i env =>
      match inflight s !! i with
      | Some AwaitingToken =>
          match Web3FormsHandler.dispatch this env (doc s) with
          | Some (Web3FormsHandler.Sent d) =>
              mkSystem d (<[i := AwaitingResponse]> (inflight s))
          | Some (Web3FormsHandler.NotSent r) =>
              retire i (Web3FormsHandler.conclude this r) s
          | None => s
          end
      | _ => s
      end
  | ResponseSettles i env =>
      match inflight s !! i with
      | Some AwaitingResponse =>
          retire i (Web3FormsHandler.conclude this
                      (Web3FormsHandler.receive this env (doc s))) s
      | _ => s
      end
  end.

Definition run (this : Handler) (s : System) (evs : list Event) : System :=
  foldl (step this) s evs.

(** Requests sent and not yet answered. *)
Definition openRequests (s : System) : nat :=
  length (filter (λ p, p = AwaitingResponse) (inflight s)).

(** ** A concrete page *)

Definition sampleControls (hp : option bool) (ok : bool) : Controls :=
  mkControls [("name", "Ada"); ("email", "ada@example.org"); ("message", "Hello")] hp ok.

Definition blankControls : Controls :=
  mkControls [("name", ""); ("email", ""); ("message", "")] (Some false) false.

Definition sampleButton : Button := mkButton false (Some "") (Some "none").

Definition samplePage (c : Controls) (token : option string) : Document :=
  mkDocument {[ "contactForm" := mkForm c blankControls (Some sampleButton) ]}
             (Some (mkStatus "" "form-status" "none"))
             token [] [] [] 0 [].

Definition sampleHandler : Handler :=
  mkHandler (Some "contactForm") "site-key" (Some "contactForm") (Some ()).

Definition neverReady : Env :=
  mkEnv (λ _, false) ProviderSilent Responds (Parsed (mkJson true None)) GtagUndefined.

Definition readyEnv (j : JsonOutcome) (g : GtagGlobal) : Env :=
  mkEnv (λ k, 3 <=? k) (TokenIssued "tok") Responds j g.

Import Web3FormsHandler.

(** ** Notions used in the statements *)

(** [n] rounds of the poll's timer. *)
Definition polls (n : nat) (d : Document) : Document :=
  Nat.iter n (afterTimeout CheckRecaptchaCb 500) d.
#[global] Arguments polls : simpl never.

(** What the promise does once [grecaptcha] is there, found by the
    check with the counter at [attempts]. *)
Definition answered (this : Handler) (env : Env) (attempts : nat) (d : Document)
  : Settle string :=
  let d := emit (Console "log" "reCAPTCHA loaded successfully") d in
  let d := emit GrecaptchaReady d in
  let execute := GrecaptchaExecute (recaptchaSiteKey this) "submit" in
  match provider env with
  | ReadySilent => Pending d
  | ReadyThrows v executed =>
      let d := if executed then emit execute d else d in
      if decide (attempts = 0) then Rejects v d else Pending d
  | TokenIssued token =>
      Resolves token (emit (Console "log" "reCAPTCHA token received") (emit execute d))
  | ProviderFails v => Rejects v (emit execute d)
  | ProviderSilent => Pending (emit execute d)
  end.

(** The document [catch] leaves when it has caught an [Error] object. *)
Definition caught (this : Handler) (e : Error) (d : Document) : Document :=
  let d := emit (Console "error" "Form submission error:") d in
  let d := emit (Console "error" ("Error details: " +:+ message e)) d in
  let d := showStatus this genericError "error" d in
  if decide (message e = "") then d
  else emit (Console "error" ("Error message: " +:+ message e)) d.

Definition gaveUp (d : Document) : Settle string :=
  Resolves "" (emit (Console "warn" "reCAPTCHA failed to load, continuing without it") d).

(** The look [setLoadingState] gives the button. *)
Definition loadingLook (isLoading : bool) (b : Button) : Button :=
  if isLoading then
    mkButton true ((λ _, "none") <$> btnText b) ((λ _, "inline-block") <$> btnLoader b)
  else
    mkButton false ((λ _, "inline") <$> btnText b) ((λ _, "none") <$> btnLoader b).

Definition pleaseFill : string := "Please fill in all required fields.".
Definition thankYouBot : string := "Thank you! Your message has been sent.".
Definition thankYou : string := "Thank you! Your message has been sent successfully.".

Definition gaveUpWarning : Effect :=
  Console "warn" "reCAPTCHA failed to load, continuing without it".

Definition submitUrl : string := "https://api.web3forms.com/submit".

(** From [d] to [d'] only effects that satisfy [P] were issued. *)
Definition extends (P : Effect → Prop) (d d' : Document) : Prop :=
  ∃ l, log d' = log d ++ l ∧ Forall P l.

(** The effects of the poll. *)
Definition isPollEffect (e : Effect) : Prop :=
  match e with
  | GetRecaptchaToken | SetTimeout CheckRecaptchaCb 500
  | GrecaptchaReady | GrecaptchaExecute _ _ | Console _ _ => True
  | _ => False
  end.

(** The document at [try]. *)
Definition atTry (this : Handler) (b : Button) (d : Document) : Document :=
  hideStatus this
    (storeButton this (loadingLook true b)
       (emit (SetLoadingState true) (emit PreventDefault d))).

(** The submission is neither invalid nor caught by the honeypot. *)
Definition passes (f : FormEl) : Prop :=
  checkValidity (controls f) = true ∧ botcheck (controls f) ≠ Some true.

(** The request failed: [fetch] rejected, the body was not JSON, or the
    answer says [success: false]. *)
Definition submissionFails (env : Env) : Prop :=
  match fetchOutcome env with
  | FetchFails _ => True
  | Responds =>
      match jsonOutcome env with
      | ParseFails _ => True
      | Parsed data => success data = false
      | JsonSilent => False
      end
  | FetchSilent => False
  end.

Definition notFetch (e : Effect) : Prop := isFetch e = false.
Definition notReset (e : Effect) : Prop := e ≠ FormReset.

(** The statement of the claim C10: without an element
    [recaptchaResponse], every submission that passes validation and the
    honeypot check ends with no request made, the generic error shown and
    the button restored. *)
Definition noTokenFieldClaim : Prop :=
  ∀ this env d f b,
    attached this d → theForm this d = Some f → passes f →
    theButton this d = Some b → recaptchaResponse d = None →
    ∃ d' b', handleSubmit this env d = Some (Resolves () d') ∧
             (∀ e, e ∈ issued d d' → isFetch e = false) ∧
             formStatus d' = (λ _, mkStatus genericError "form-status error" "block")
                               <$> formStatus d ∧
             theButton this d' = Some b' ∧ idle b'.

(** A provider that is there and never answers. *)
Definition silentEnv : Env :=
  mkEnv (λ _, true) ProviderSilent Responds (Parsed (mkJson true None)) GtagUndefined.

Definition failedEnv : Env :=
  readyEnv (Parsed (mkJson false (Some "Invalid access key"))) GtagUndefined.

Definition completionDocument (c : Completion) : Document :=
  match c with Normal d | Throw _ d => d end.

(** For each form whether it has a submit button, and whether the page
    has a status region. *)
Definition shape (d : Document) : gmap string bool * bool :=
  ((λ f, bool_decide (is_Some (button f))) <$> forms d,
   bool_decide (is_Some (formStatus d))).

(** The invariant of the event loop. *)
Definition oneInFlight (this : Handler) (s : System) : Prop :=
  attached this (doc s) ∧ length (inflight s) ≤ 1 ∧
  (inflight s ≠ [] → ∃ b, theButton this (doc s) = Some b ∧ disabled b = true).

(** Between two attempts the submit button has its idle look. *)
Definition idleAtRest (this : Handler) (s : System) : Prop :=
  inflight s = [] → ∀ b, theButton this (doc s) = Some b → idle b.

(** ** The script's top level

    The page around the document: [document.readyState], the global
    [window.RECAPTCHA_SITE_KEY], the listeners of [DOMContentLoaded] that
    call [initWeb3Forms], and the handlers made so far. *)
Inductive ReadyState := RsLoading | RsInteractive | RsComplete.

Record Window := mkWindow {
  readyState : ReadyState;
  RECAPTCHA_SITE_KEY : option string;
  domContentLoadedListeners : nat;
  document : Document;
  handlers : list Handler
}.

(** A call of [initWeb3Forms]: [new Web3FormsHandler('contactForm', key)]. *)
Definition callInitWeb3Forms (w : Window) : Window :=
  let '(h, d) := initWeb3Forms (RECAPTCHA_SITE_KEY w) (document w) in
  mkWindow (readyState w) (RECAPTCHA_SITE_KEY w) (domContentLoadedListeners w)
           d (handlers w ++ [h]).

(** The statement at the end of the file: initialize when DOM is ready. *)
Definition web3formsScript (w : Window) : Window :=
  match readyState w with
  | RsLoading =>
      mkWindow (readyState w) (RECAPTCHA_SITE_KEY w)
               (S (domContentLoadedListeners w)) (document w) (handlers w)
  | _ => callInitWeb3Forms w
  end.

(** The browser has parsed the page: [readyState] leaves 'loading' and
    [DOMContentLoaded] is dispatched to its listeners. *)
Definition fireDOMContentLoaded (w : Window) : Window :=
  Nat.iter (domContentLoadedListeners w) callInitWeb3Forms
           (mkWindow RsInteractive (RECAPTCHA_SITE_KEY w)
                     (domContentLoadedListeners w) (document w) (handlers w)).

Definition defaultSiteKey : string := "6Lf_dvwpAAAAAFmtH33BiSaA2Iu6XKM64Fz9qv5w".

Definition recaptchaScript (key : string) : Script :=
  mkScript ("https://www.google.com/recaptcha/api.js?render=" +:+ key) true true.

Definition isExecute (e : Effect) : bool :=
  match e with GrecaptchaExecute _ _ => true | _ => false end.

(** [grecaptcha] is defined at the check number [k] of the poll and at
    none before. *)
Definition firstDefinedAt (env : Env) (k : nat) : Prop :=
  k < maxAttempts ∧ grecaptchaDefined env k = true ∧
  ∀ j, j < k → grecaptchaDefined env j = false.

(** The token promise resolves with [token] after [k] timers: the
    provider came up at check [k] and issued it, or never came up. *)
Definition tokenAfter (env : Env) (k : nat) (token : string) : Prop :=
  (firstDefinedAt env k ∧ provider env = TokenIssued token) ∨
  (k = 19 ∧ token = "" ∧ ∀ j, j < maxAttempts → grecaptchaDefined env j = false).

(** A page whose form has no [button[type="submit"]], and its handler. *)
Definition noButtonPage (c : Controls) : Document :=
  mkDocument {[ "contactForm" := mkForm c blankControls None ]}
             (Some (mkStatus "" "form-status" "none"))
             (Some "") [] [] [] 0 [].

Definition noButtonHandler : Handler :=
  mkHandler (Some "contactForm") "site-key" None (Some ()).

Definition failingProvider : Env :=
  mkEnv (λ _, true) (ProviderFails (mkError "Invalid site key")) Responds
        (Parsed (mkJson true None)) GtagUndefined.

(** The message of the error thrown for an answer with [success: false]:
    [data.message || 'Submission failed']. *)
Definition failureMessage (data : Json) : string :=
  match data_message data with
  | Some m => if decide (m = "") then "Submission failed" else m
  | None => "Submission failed"
  end.

(** Effects of an attempt that has neither shown a message nor left the
    loading state. *)
Definition stillLoading (e : Effect) : Prop :=
  match e with
  | SetLoadingState false | ShowStatus _ _ | FormReset => False
  | _ => True
  end.

(** Whether [ready] gets to run its callback, which calls [execute]. *)
Definition executes (p : ProviderOutcome) : bool :=
  match p with
  | ReadySilent => false
  | ReadyThrows _ executed => executed
  | TokenIssued _ | ProviderFails _ | ProviderSilent => true
  end.

(** The provider, found by the check number [k] of the poll, never
    settles the token promise: it is silent, or it throws in a timer
    callback. *)
Definition leavesPending (p : ProviderOutcome) (k : nat) : Prop :=
  match p with
  | ReadySilent | ProviderSilent => True
  | ReadyThrows _ _ => k ≠ 0
  | TokenIssued _ | ProviderFails _ => False
  end.

(** Every promise the attempt may wait for is settled in the end: the
    provider's, if the poll finds [grecaptcha]; that of [fetch]; that of
    [response.json()]. *)
Definition settles (env : Env) : Prop :=
  (∀ k, firstDefinedAt env k → ¬ leavesPending (provider env) k) ∧
  fetchOutcome env ≠ FetchSilent ∧ jsonOutcome env ≠ JsonSilent.

(** The statement of the claim C5, for a button that is enabled and
    non-loading at the submit: an attempt that has come to an end leaves
    it enabled and non-loading; and no attempt leaves it disabled, be it
    the state the attempt ends in or the state it stays in for ever. *)
Definition restoresClaim : Prop :=
  ∀ this env d b,
    attached this d → theButton this d = Some b → idle b →
    ∃ r, handleSubmit this env d = Some r ∧
         ((∀ d', r ≠ Pending d') →
          ∃ b', theButton this (finalDocument r) = Some b' ∧ idle b') ∧
         (∃ b', theButton this (finalDocument r) = Some b' ∧ disabled b' = false).

(** A page whose submit button has been left in the loading look. *)
Definition busyButton : Button := mkButton true (Some "none") (Some "inline-block").

Definition busyPage (c : Controls) (token : option string) : Document :=
  mkDocument {[ "contactForm" := mkForm c blankControls (Some busyButton) ]}
             (Some (mkStatus "" "form-status" "none"))
             token [] [] [] 0 [].

(** A provider whose [execute] rejects with null. *)
Definition nullRejection : Env :=
  mkEnv (λ _, true) (ProviderFails Nullish) Responds
        (Parsed (mkJson true None)) GtagUndefined.

(** A provider whose [ready] never runs the callback. *)
Definition neverCalledBack : Env :=
  mkEnv (λ _, true) ReadySilent Responds (Parsed (mkJson true None)) GtagUndefined.

(** What [catch] writes as the details of what it caught. *)
Definition errorDetails (v : Thrown) : string :=
  match v with
  | Raised e => message e
  | Messageless | Nullish => "undefined"
  end.

(** * Properties *)

(** ** Projections of the updated document *)

Lemma now_emit (e : Effect) (d : Document) : now (emit e d) = now d.
Proof. reflexivity. Qed.

Lemma log_emit (e : Effect) (d : Document) : log (emit e d) = log d ++ [e].
Proof. reflexivity. Qed.

Lemma forms_emit (e : Effect) (d : Document) : forms (emit e d) = forms d.
Proof. reflexivity. Qed.

Lemma formStatus_emit (e : Effect) (d : Document) : formStatus (emit e d) = formStatus d.
Proof. reflexivity. Qed.

Lemma recaptchaResponse_emit (e : Effect) (d : Document) :
  recaptchaResponse (emit e d) = recaptchaResponse d.
Proof. reflexivity. Qed.

Lemma timers_emit (e : Effect) (d : Document) : timers (emit e d) = timers d.
Proof. reflexivity. Qed.

Lemma theForm_emit (this : Handler) (e : Effect) (d : Document) :
  theForm this (emit e d) = theForm this d.
Proof. reflexivity. Qed.

Lemma theButton_emit (this : Handler) (e : Effect) (d : Document) :
  theButton this (emit e d) = theButton this d.
Proof. reflexivity. Qed.

Lemma theForm_set_recaptchaResponse (this : Handler) (v : option string) (d : Document) :
  theForm this (set_recaptchaResponse v d) = theForm this d.
Proof. reflexivity. Qed.

Lemma theButton_set_recaptchaResponse (this : Handler) (v : option string) (d : Document) :
  theButton this (set_recaptchaResponse v d) = theButton this d.
Proof. reflexivity. Qed.

Lemma log_set_recaptchaResponse (v : option string) (d : Document) :
  log (set_recaptchaResponse v d) = log d.
Proof. reflexivity. Qed.

Lemma formStatus_set_recaptchaResponse (v : option string) (d : Document) :
  formStatus (set_recaptchaResponse v d) = formStatus d.
Proof. reflexivity. Qed.

Lemma now_set_recaptchaResponse (v : option string) (d : Document) :
  now (set_recaptchaResponse v d) = now d.
Proof. reflexivity. Qed.

Lemma timers_set_recaptchaResponse (v : option string) (d : Document) :
  timers (set_recaptchaResponse v d) = timers d.
Proof. reflexivity. Qed.

Lemma recaptchaResponse_set (v : option string) (d : Document) :
  recaptchaResponse (set_recaptchaResponse v d) = v.
Proof. reflexivity. Qed.

(** ** The log only grows *)

Lemma issued_refl (d : Document) : issued d d = [].
Proof. unfold issued. by rewrite drop_all. Qed.

Lemma issued_app (d d' : Document) (l : list Effect) :
  log d' = log d ++ l → issued d d' = l.
Proof. unfold issued. intros ->. by rewrite drop_app_length. Qed.

Lemma polls_S (n : nat) (d : Document) :
  polls (S n) d = polls n (afterTimeout CheckRecaptchaCb 500 d).
Proof. unfold polls. by rewrite Nat.iter_succ_r. Qed.

Lemma polls_log (n : nat) (d : Document) :
  log (polls n d) = log d ++ replicate n (SetTimeout CheckRecaptchaCb 500).
Proof.
  revert d. induction n as [|n IH]; intros d.
  - unfold polls. simpl. by rewrite app_nil_r.
  - rewrite polls_S, IH. simpl. by rewrite <- app_assoc.
Qed.

Lemma polls_now (n : nat) (d : Document) :
  now (polls n d) = (now d + 500 * N.of_nat n)%N.
Proof.
  revert d. induction n as [|n IH]; intros d.
  - unfold polls. simpl. lia.
  - rewrite polls_S, IH. unfold afterTimeout. cbn [now set_now emit]. lia.
Qed.

Lemma polls_frame (n : nat) (d : Document) :
  forms (polls n d) = forms d ∧ formStatus (polls n d) = formStatus d ∧
  recaptchaResponse (polls n d) = recaptchaResponse d ∧
  timers (polls n d) = timers d ∧ headScripts (polls n d) = headScripts d ∧
  submitListeners (polls n d) = submitListeners d.
Proof.
  revert d. induction n as [|n IH]; intros d; [done|].
  rewrite polls_S. destruct (IH (afterTimeout CheckRecaptchaCb 500 d))
    as (-> & -> & -> & -> & -> & ->). done.
Qed.

(** ** [getRecaptchaToken] *)

Lemma checkRecaptcha_unfold fuel this env attempts d :
  checkRecaptcha fuel this env attempts d =
  if grecaptchaDefined env attempts then Some (answered this env attempts d)
  else if S attempts <? maxAttempts then
         match fuel with
         | O => None
         | S fuel => checkRecaptcha fuel this env (S attempts)
                                    (afterTimeout CheckRecaptchaCb 500 d)
         end
       else Some (gaveUp d).
Proof.
  destruct fuel; simpl; unfold answered, gaveUp;
    destruct (grecaptchaDefined env attempts); try done;
    destruct (provider env) as [|v []| | |]; try done;
    by destruct (decide (attempts = 0)).
Qed.

(** What the hand-over to the provider adds to the log: the call of
    [ready], then nothing, or the call of [execute], or that and the
    note that the token is there.  Nothing else changes. *)
Lemma answered_spec this env attempts d :
  ∃ l, log (finalDocument (answered this env attempts d))
       = log d ++ Console "log" "reCAPTCHA loaded successfully" :: GrecaptchaReady :: l ∧
       (l = [] ∨ l = [GrecaptchaExecute (recaptchaSiteKey this) "submit"] ∨
        l = [GrecaptchaExecute (recaptchaSiteKey this) "submit";
             Console "log" "reCAPTCHA token received"]) ∧
       forms (finalDocument (answered this env attempts d)) = forms d ∧
       formStatus (finalDocument (answered this env attempts d)) = formStatus d ∧
       recaptchaResponse (finalDocument (answered this env attempts d))
       = recaptchaResponse d ∧
       timers (finalDocument (answered this env attempts d)) = timers d ∧
       now (finalDocument (answered this env attempts d)) = now d.
Proof.
  unfold answered.
  destruct (provider env) as [|v []| | |]; try destruct (decide (attempts = 0));
    cbn [finalDocument]; rewrite ?log_emit, <- ?app_assoc;
    eexists; (split; [reflexivity|]); (split; [|done]); auto.
Qed.

Lemma answered_pollEffects this env attempts d :
  extends isPollEffect d (finalDocument (answered this env attempts d)).
Proof.
  destruct (answered_spec this env attempts d) as (l & Hl & Hcase & _).
  eexists. split; [exact Hl|].
  destruct Hcase as [->|[->| ->]]; by repeat constructor.
Qed.

(** The poll found [grecaptcha] at its check number [k] (counted from
    the current one), not before. *)
Lemma checkRecaptcha_found this env k :
  ∀ fuel attempts d,
    k ≤ fuel → attempts + k < maxAttempts →
    (∀ j, j < k → grecaptchaDefined env (attempts + j) = false) →
    grecaptchaDefined env (attempts + k) = true →
    checkRecaptcha fuel this env attempts d
    = Some (answered this env (attempts + k) (polls k d)).
Proof.
  induction k as [|k IH]; intros fuel attempts d Hfuel Hlt Hno Hyes.
  - rewrite checkRecaptcha_unfold. rewrite Nat.add_0_r in *. by rewrite Hyes.
  - rewrite checkRecaptcha_unfold.
    rewrite <- (Nat.add_0_r attempts) at 1. rewrite (Hno 0) by lia.
    destruct (Nat.ltb_spec (S attempts) maxAttempts) as [_|?]; [|lia].
    destruct fuel as [|fuel]; [lia|].
    rewrite polls_S. replace (attempts + S k) with (S attempts + k) by lia.
    apply IH; [lia|lia| |].
    + intros j Hj. replace (S attempts + j) with (attempts + S j) by lia.
      apply Hno. lia.
    + by replace (S attempts + k) with (attempts + S k) by lia.
Qed.

(** The poll never found it. *)
Lemma checkRecaptcha_exhausted this env n :
  ∀ fuel attempts d,
    n ≤ fuel → attempts + S n = maxAttempts →
    (∀ j, j ≤ n → grecaptchaDefined env (attempts + j) = false) →
    checkRecaptcha fuel this env attempts d = Some (gaveUp (polls n d)).
Proof.
  induction n as [|n IH]; intros fuel attempts d Hfuel Hlt Hno.
  - rewrite checkRecaptcha_unfold.
    rewrite <- (Nat.add_0_r attempts) at 1. rewrite (Hno 0) by lia.
    destruct (Nat.ltb_spec (S attempts) maxAttempts) as [?|_]; [lia|]. done.
  - rewrite checkRecaptcha_unfold.
    rewrite <- (Nat.add_0_r attempts) at 1. rewrite (Hno 0) by lia.
    destruct (Nat.ltb_spec (S attempts) maxAttempts) as [_|?]; [|lia].
    destruct fuel as [|fuel]; [lia|].
    rewrite polls_S. apply IH; [lia|lia|].
    intros j Hj. replace (S attempts + j) with (attempts + S j) by lia.
    apply Hno. lia.
Qed.

Lemma first_defined (env : Env) (n : nat) :
  (∀ j, j < n → grecaptchaDefined env j = false) ∨
  (∃ k, k < n ∧ grecaptchaDefined env k = true ∧
        ∀ j, j < k → grecaptchaDefined env j = false).
Proof.
  induction n as [|n [IH|(k & Hk & Hd & Hmin)]].
  - left. intros j Hj. lia.
  - destruct (grecaptchaDefined env n) eqn:Hn.
    + right. exists n. split; [lia|]. split; [done|]. intros j Hj. by apply IH.
    + left. intros j Hj. destruct (decide (j = n)) as [->|]; [done|]. apply IH. lia.
  - right. exists k. split; [lia|]. done.
Qed.

(** The two ways the promise of [getRecaptchaToken] ends. *)
Lemma getRecaptchaToken_cases (this : Handler) (env : Env) (d : Document) :
  (∃ k, k < maxAttempts ∧ grecaptchaDefined env k = true ∧
        getRecaptchaToken this env d =
          Some (answered this env k (polls k (emit GetRecaptchaToken d)))) ∨
  ((∀ j, j < maxAttempts → grecaptchaDefined env j = false) ∧
   getRecaptchaToken this env d =
     Some (gaveUp (polls (maxAttempts - 1) (emit GetRecaptchaToken d)))).
Proof.
  unfold getRecaptchaToken.
  destruct (first_defined env maxAttempts) as [Hno|(k & Hk & Hd & Hmin)].
  - right. split; [done|]. apply checkRecaptcha_exhausted.
    + unfold maxAttempts. lia.
    + unfold maxAttempts. lia.
    + intros j Hj. apply Hno. unfold maxAttempts in *. simpl. lia.
  - left. exists k. split; [done|]. split; [done|].
    apply checkRecaptcha_found; simpl; try done. lia.
Qed.

(** The poll is bounded: with its [maxAttempts] units of fuel
    [getRecaptchaToken] always gives an outcome, after fewer than
    [maxAttempts] timers of 500 ms each. *)
Lemma getRecaptchaToken_returns (this : Handler) (env : Env) (d : Document) :
  ∃ r n, getRecaptchaToken this env d = Some r ∧ n < maxAttempts ∧
         filter (λ e, isTimer e = true) (issued d (finalDocument r))
           = replicate n (SetTimeout CheckRecaptchaCb 500) ∧
         now (finalDocument r) = (now d + 500 * N.of_nat n)%N.
Proof.
  assert (Hfil : ∀ n l, Forall (λ e, isTimer e = false) l →
            filter (λ e, isTimer e = true)
                   (GetRecaptchaToken :: replicate n (SetTimeout CheckRecaptchaCb 500) ++ l)
            = replicate n (SetTimeout CheckRecaptchaCb 500)).
  { intros n l Hl. rewrite filter_cons_False by (simpl; congruence).
    rewrite filter_app.
    assert (filter (λ e, isTimer e = true) l = []) as ->.
    { induction Hl as [|e l He _ IH]; [done|].
      rewrite filter_cons_False by congruence. done. }
    rewrite app_nil_r. induction n as [|n IH]; [done|].
    simpl. rewrite filter_cons_True by done. by rewrite IH. }
  assert (Hlog : ∀ n l d', log d' = (log d ++ [GetRecaptchaToken])
                 ++ replicate n (SetTimeout CheckRecaptchaCb 500) ++ l →
            Forall (λ e, isTimer e = false) l →
            filter (λ e, isTimer e = true) (issued d d')
            = replicate n (SetTimeout CheckRecaptchaCb 500)).
  { intros n l d' Hd' Hl. rewrite <- (Hfil n l Hl). f_equal.
    apply issued_app. rewrite Hd'. by rewrite <- app_assoc. }
  destruct (getRecaptchaToken_cases this env d) as [(k & Hk & _ & ->)|[_ ->]].
  - exists (answered this env k (polls k (emit GetRecaptchaToken d))), k.
    split; [done|]. split; [done|]. cbn [finalDocument].
    destruct (answered_spec this env k (polls k (emit GetRecaptchaToken d)))
      as (l & Hl & Hcase & _ & _ & _ & _ & Hnow).
    split; [|by rewrite Hnow, polls_now, now_emit].
    apply (Hlog k (Console "log" "reCAPTCHA loaded successfully" :: GrecaptchaReady :: l)).
    + rewrite Hl, polls_log, log_emit. by rewrite <- !app_assoc.
    + destruct Hcase as [->|[->| ->]]; by repeat constructor.
  - exists (gaveUp (polls (maxAttempts - 1) (emit GetRecaptchaToken d))), (maxAttempts - 1).
    split; [done|]. split; [unfold maxAttempts; lia|].
    unfold gaveUp. cbn [finalDocument].
    split; [|rewrite now_emit, polls_now, now_emit; done].
    apply (Hlog (maxAttempts - 1) [Console "warn" "reCAPTCHA failed to load, continuing without it"]).
    * rewrite log_emit, polls_log, log_emit. by rewrite <- !app_assoc.
    * repeat constructor.
Qed.

(** ** Frames of the handler's methods *)

Lemma theForm_forms (this : Handler) (d d' : Document) :
  forms d' = forms d → theForm this d' = theForm this d.
Proof. unfold theForm. by intros ->. Qed.

Lemma theButton_forms (this : Handler) (d d' : Document) :
  forms d' = forms d → theButton this d' = theButton this d.
Proof. unfold theButton. by intros ->. Qed.

Lemma showStatus_forms this m t d : forms (showStatus this m t d) = forms d.
Proof.
  unfold showStatus. destruct (statusDiv this); [|done].
  by destruct (decide (t = "success")).
Qed.

Lemma showStatus_recaptchaResponse this m t d :
  recaptchaResponse (showStatus this m t d) = recaptchaResponse d.
Proof.
  unfold showStatus. destruct (statusDiv this); [|done].
  by destruct (decide (t = "success")).
Qed.

Lemma showStatus_now this m t d : now (showStatus this m t d) = now d.
Proof.
  unfold showStatus. destruct (statusDiv this); [|done].
  by destruct (decide (t = "success")).
Qed.

(** The status region after [showStatus], for a handler whose
    [statusDiv] is the region of the page. *)
Lemma showStatus_formStatus this m t d :
  statusDiv this = (_ ← formStatus d; Some ()) →
  formStatus (showStatus this m t d)
  = (λ _, mkStatus m ("form-status " +:+ t) "block") <$> formStatus d.
Proof.
  unfold showStatus. intros ->. destruct (formStatus d) eqn:E; simpl.
  - destruct (decide (t = "success")); simpl; by rewrite E.
  - by rewrite E.
Qed.

Lemma showStatus_error_log this m d :
  log (showStatus this m "error" d) = log d ++ [ShowStatus m "error"].
Proof. unfold showStatus. by destruct (statusDiv this). Qed.

Lemma showStatus_error_timers this m d :
  timers (showStatus this m "error" d) = timers d.
Proof. unfold showStatus. by destruct (statusDiv this). Qed.

Lemma showStatus_success_log this m d :
  log (showStatus this m "success" d)
  = log d ++ ShowStatus m "success" ::
      match statusDiv this with
      | Some _ => [SetTimeout HideStatusCb 5000]
      | None => []
      end.
Proof.
  unfold showStatus. destruct (statusDiv this); [|done].
  simpl. by rewrite <- app_assoc.
Qed.

Lemma showStatus_success_timers this m d :
  timers (showStatus this m "success" d)
  = timers d ++ match statusDiv this with
                | Some _ => [mkTimer (now d + 5000) HideStatusCb]
                | None => []
                end.
Proof.
  unfold showStatus. destruct (statusDiv this); simpl; [done|].
  by rewrite app_nil_r.
Qed.

Lemma showStatus_statusBound this m t d :
  statusDiv this = (_ ← formStatus d; Some ()) →
  statusDiv this = (_ ← formStatus (showStatus this m t d); Some ()).
Proof.
  intros H. rewrite (showStatus_formStatus _ _ _ _ H), H.
  by destruct (formStatus d).
Qed.

Lemma hideStatus_forms this d : forms (hideStatus this d) = forms d.
Proof. unfold hideStatus. by destruct (statusDiv this). Qed.

Lemma hideStatus_log this d : log (hideStatus this d) = log d ++ [HideStatus].
Proof. unfold hideStatus. by destruct (statusDiv this). Qed.

Lemma hideStatus_recaptchaResponse this d :
  recaptchaResponse (hideStatus this d) = recaptchaResponse d.
Proof. unfold hideStatus. by destruct (statusDiv this). Qed.

Lemma hideStatus_now this d : now (hideStatus this d) = now d.
Proof. unfold hideStatus. by destruct (statusDiv this). Qed.

Lemma hideStatus_timers this d : timers (hideStatus this d) = timers d.
Proof. unfold hideStatus. by destruct (statusDiv this). Qed.

Lemma hideStatus_formStatus this d :
  statusDiv this = (_ ← formStatus d; Some ()) →
  formStatus (hideStatus this d)
  = (λ s, mkStatus (textContent s) (className s) "none") <$> formStatus d.
Proof.
  unfold hideStatus. intros ->. destruct (formStatus d) eqn:E; simpl; by rewrite E.
Qed.

Lemma hideStatus_statusBound this d :
  statusDiv this = (_ ← formStatus d; Some ()) →
  statusDiv this = (_ ← formStatus (hideStatus this d); Some ()).
Proof.
  intros H. rewrite (hideStatus_formStatus _ _ H), H. by destruct (formStatus d).
Qed.

Lemma resetForm_theForm this d :
  theForm this (resetForm this d) = reset <$> theForm this d.
Proof.
  unfold resetForm, theForm. destruct (form this) as [id|]; simpl; [|done].
  by rewrite lookup_alter_eq.
Qed.

Lemma resetForm_log this d : log (resetForm this d) = log d ++ [FormReset].
Proof. unfold resetForm. by destruct (form this). Qed.

Lemma resetForm_formStatus this d : formStatus (resetForm this d) = formStatus d.
Proof. unfold resetForm. by destruct (form this). Qed.

Lemma resetForm_timers this d : timers (resetForm this d) = timers d.
Proof. unfold resetForm. by destruct (form this). Qed.

Lemma resetForm_now this d : now (resetForm this d) = now d.
Proof. unfold resetForm. by destruct (form this). Qed.

Lemma resetForm_recaptchaResponse this d :
  recaptchaResponse (resetForm this d) = recaptchaResponse d.
Proof. unfold resetForm. by destruct (form this). Qed.

Lemma resetForm_theButton this d :
  theButton this (resetForm this d) = theButton this d.
Proof.
  unfold resetForm, theButton.
  destruct (submitButton this) as [id'|]; [|done]. simpl.
  destruct (form this) as [id|]; [|done]. simpl.
  destruct (decide (id = id')) as [->|Hne].
  - rewrite lookup_alter_eq. by destruct (forms d !! id').
  - by rewrite lookup_alter_ne.
Qed.

Lemma setLoadingState_button this isLoading d b :
  theButton this d = Some b →
  setLoadingState this isLoading d
  = Normal (storeButton this (loadingLook isLoading b) (emit (SetLoadingState isLoading) d)).
Proof.
  intros Hb. unfold setLoadingState.
  rewrite (theButton_forms this d) by done. rewrite Hb. by destruct isLoading.
Qed.

Lemma setLoadingState_null this isLoading d :
  theButton this d = None →
  setLoadingState this isLoading d = Throw TypeError (emit (SetLoadingState isLoading) d).
Proof.
  intros Hb. unfold setLoadingState.
  rewrite (theButton_forms this d) by done. by rewrite Hb.
Qed.

Lemma storeButton_theButton this b b0 d :
  theButton this d = Some b0 → theButton this (storeButton this b d) = Some b.
Proof.
  unfold theButton, storeButton. destruct (submitButton this) as [id|]; [|done].
  simpl. destruct (forms d !! id) as [f|] eqn:E; [|done]. simpl. intros _.
  by rewrite lookup_insert_eq.
Qed.

Lemma storeButton_controls this b d id :
  controls <$> (forms (storeButton this b d) !! id) = controls <$> (forms d !! id).
Proof.
  unfold storeButton. destruct (submitButton this) as [id'|]; [|done].
  destruct (forms d !! id') as [f|] eqn:E; [|done]. simpl.
  destruct (decide (id' = id)) as [->|Hne].
  - rewrite lookup_insert_eq, E. done.
  - by rewrite lookup_insert_ne.
Qed.

Lemma storeButton_defaults this b d id :
  defaults <$> (forms (storeButton this b d) !! id) = defaults <$> (forms d !! id).
Proof.
  unfold storeButton. destruct (submitButton this) as [id'|]; [|done].
  destruct (forms d !! id') as [f|] eqn:E; [|done]. simpl.
  destruct (decide (id' = id)) as [->|Hne].
  - rewrite lookup_insert_eq, E. done.
  - by rewrite lookup_insert_ne.
Qed.

Lemma storeButton_others this b d :
  formStatus (storeButton this b d) = formStatus d ∧
  recaptchaResponse (storeButton this b d) = recaptchaResponse d ∧
  timers (storeButton this b d) = timers d ∧
  now (storeButton this b d) = now d ∧
  log (storeButton this b d) = log d.
Proof.
  unfold storeButton. destruct (submitButton this) as [id|]; [|done].
  by destruct (forms d !! id).
Qed.

(** [attached] is kept by whatever leaves the form in place, keeps
    whether it has a button, and keeps whether the page has a status
    region. *)
Lemma attached_keep this d d' :
  attached this d →
  (∀ id, is_Some (forms d !! id) → is_Some (forms d' !! id)) →
  (∀ id f f', forms d !! id = Some f → forms d' !! id = Some f' →
              is_Some (button f) ↔ is_Some (button f')) →
  (is_Some (formStatus d) ↔ is_Some (formStatus d')) →
  attached this d'.
Proof.
  intros (id & f & Hform & Hf & Hb & Hs) Hkeep Hbtn Hst.
  destruct (Hkeep id) as [f' Hf']; [by eexists|].
  exists id, f'. split; [done|]. split; [done|]. split.
  - rewrite Hb. specialize (Hbtn id f f' Hf Hf').
    destruct (button f), (button f'); simpl; try done.
    + destruct Hbtn as [H _]. destruct H; [by eexists|done].
    + destruct Hbtn as [_ H]. destruct H; [by eexists|done].
  - rewrite Hs. destruct (formStatus d), (formStatus d'); simpl; try done.
    + destruct Hst as [H _]. destruct H; [by eexists|done].
    + destruct Hst as [_ H]. destruct H; [by eexists|done].
Qed.

Lemma attached_theForm this d :
  attached this d → ∃ f, theForm this d = Some f.
Proof.
  intros (id & f & Hform & Hf & _). exists f. unfold theForm. by rewrite Hform.
Qed.

Lemma attached_theButton this d f :
  attached this d → theForm this d = Some f → theButton this d = button f.
Proof.
  intros (id & f' & Hform & Hf & Hb & _). unfold theForm, theButton.
  rewrite Hform, Hb. simpl. rewrite Hf. intros [= ->].
  destruct (button f) eqn:E; simpl; [|done]. by rewrite Hf.
Qed.

Lemma attached_statusDiv this d :
  attached this d → statusDiv this = (_ ← formStatus d; Some ()).
Proof. by intros (id & f & _ & _ & _ & Hs). Qed.

(** ** The early returns of [handleSubmit] *)

(** C2. When [checkValidity()] is false, [handleSubmit] shows the error
    "Please fill in all required fields." and returns at once: its only
    effects are [preventDefault] and [showStatus]; no token is asked for,
    nothing is fetched, no timer is set, the clock has not moved, and the
    form with its button is untouched (the loading state is not entered). *)
Theorem handleSubmit_invalid (this : Handler) (env : Env) (d : Document) (f : FormEl) :
  attached this d → theForm this d = Some f →
  checkValidity (controls f) = false →
  ∃ d', handleSubmit this env d = Some (Resolves () d') ∧
        issued d d' = [PreventDefault; ShowStatus pleaseFill "error"] ∧
        formStatus d' = (λ _, mkStatus pleaseFill "form-status error" "block") <$> formStatus d ∧
        forms d' = forms d ∧ timers d' = timers d ∧ now d' = now d ∧
        recaptchaResponse d' = recaptchaResponse d.
Proof.
  intros Hatt Hf Hinv.
  exists (showStatus this pleaseFill "error" (emit PreventDefault d)).
  split.
  - unfold handleSubmit, begin. rewrite (theForm_forms this d) by done.
    rewrite Hf, Hinv. done.
  - split.
    { apply issued_app. rewrite showStatus_error_log, log_emit.
      by rewrite <- app_assoc. }
    rewrite showStatus_formStatus by (by apply attached_statusDiv).
    rewrite showStatus_forms, showStatus_error_timers, showStatus_now,
      showStatus_recaptchaResponse. done.
Qed.

(** C1. When the form is valid and the honeypot [botcheck] is there and
    checked, [handleSubmit] shows the success message, resets the form and
    returns: no token is asked for and nothing is fetched. *)
Theorem handleSubmit_honeypot (this : Handler) (env : Env) (d : Document) (f : FormEl) :
  attached this d → theForm this d = Some f →
  checkValidity (controls f) = true → botcheck (controls f) = Some true →
  ∃ d', handleSubmit this env d = Some (Resolves () d') ∧
        formStatus d' = (λ _, mkStatus thankYouBot "form-status success" "block") <$> formStatus d ∧
        theForm this d' = Some (reset f) ∧
        issued d d' = PreventDefault :: ShowStatus thankYouBot "success" ::
                      match formStatus d with
                      | Some _ => [SetTimeout HideStatusCb 5000; FormReset]
                      | None => [FormReset]
                      end ∧
        (GetRecaptchaToken ∉ issued d d') ∧
        (∀ e, e ∈ issued d d' → isFetch e = false) ∧
        recaptchaResponse d' = recaptchaResponse d ∧ now d' = now d.
Proof.
  intros Hatt Hf Hval Hbot.
  pose proof (attached_statusDiv _ _ Hatt) as Hs.
  exists (resetForm this (showStatus this thankYouBot "success" (emit PreventDefault d))).
  assert (Hiss : issued d (resetForm this (showStatus this thankYouBot "success"
                                             (emit PreventDefault d)))
                 = PreventDefault :: ShowStatus thankYouBot "success" ::
                   match formStatus d with
                   | Some _ => [SetTimeout HideStatusCb 5000; FormReset]
                   | None => [FormReset]
                   end).
  { apply issued_app. rewrite resetForm_log, showStatus_success_log, log_emit, Hs.
    destruct (formStatus d); simpl; by rewrite <- !app_assoc. }
  split.
  - unfold handleSubmit, begin. rewrite (theForm_forms this d) by done.
    rewrite Hf, Hval, Hbot. done.
  - rewrite resetForm_formStatus, resetForm_theForm.
    rewrite showStatus_formStatus by done.
    rewrite (theForm_forms this (emit PreventDefault d)) by apply showStatus_forms.
    rewrite (theForm_forms this d) by done. rewrite Hf.
    rewrite resetForm_recaptchaResponse, resetForm_now, showStatus_recaptchaResponse,
      showStatus_now, Hiss.
    repeat split; try done.
    + destruct (formStatus d); intros Hin; repeat (apply elem_of_cons in Hin as [?|Hin]; [done|]);
        by apply elem_of_nil in Hin.
    + intros e Hin. destruct (formStatus d);
        repeat (apply elem_of_cons in Hin as [->|Hin]; [done|]);
        by apply elem_of_nil in Hin.
Qed.

(** ** The poll of [getRecaptchaToken] *)

Lemma getRecaptchaToken_gaveUp (this : Handler) (env : Env) (d : Document) :
  (∀ k, k < maxAttempts → grecaptchaDefined env k = false) →
  getRecaptchaToken this env d
  = Some (Resolves "" (emit gaveUpWarning (polls 19 (emit GetRecaptchaToken d)))).
Proof.
  intros Hno.
  destruct (getRecaptchaToken_cases this env d) as [(k & Hk & Hd & _)|[_ Hget]].
  - rewrite Hno in Hd by done. done.
  - exact Hget.
Qed.

Lemma getRecaptchaToken_found this env d k :
  firstDefinedAt env k →
  getRecaptchaToken this env d
  = Some (answered this env k (polls k (emit GetRecaptchaToken d))).
Proof.
  intros (Hk & Hyes & Hno). unfold getRecaptchaToken.
  apply checkRecaptcha_found; simpl; try done. unfold maxAttempts in *. lia.
Qed.

Lemma tokenAfter_resolves this env d k token :
  tokenAfter env k token →
  ∃ d1, getRecaptchaToken this env d = Some (Resolves token d1) ∧
        now d1 = (now d + 500 * N.of_nat k)%N.
Proof.
  intros [[Hk Hprov]|(-> & -> & Hno)].
  - rewrite (getRecaptchaToken_found this env d k Hk). unfold answered. rewrite Hprov.
    eexists. split; [done|]. by rewrite !now_emit, polls_now, now_emit.
  - rewrite (getRecaptchaToken_gaveUp this env d Hno).
    eexists. split; [done|]. by rewrite now_emit, polls_now, now_emit.
Qed.

(** Every run of the poll is one of the two: [grecaptcha] first shows
    at a check [k], or at none of the [maxAttempts] checks. *)
Lemma getRecaptchaToken_split (this : Handler) (env : Env) (d : Document) :
  (∃ k, firstDefinedAt env k ∧
        getRecaptchaToken this env d
        = Some (answered this env k (polls k (emit GetRecaptchaToken d)))) ∨
  ((∀ j, j < maxAttempts → grecaptchaDefined env j = false) ∧
   getRecaptchaToken this env d
   = Some (Resolves "" (emit gaveUpWarning (polls 19 (emit GetRecaptchaToken d))))).
Proof.
  destruct (first_defined env maxAttempts) as [Hno|(k & Hk & Hd & Hmin)].
  - right. split; [done|]. by apply getRecaptchaToken_gaveUp.
  - left. exists k. split; [done|]. by apply getRecaptchaToken_found.
Qed.

(** [dispatch] once the token is there. *)
Lemma dispatch_resolved this env d token d1 f v :
  getRecaptchaToken this env d = Some (Resolves token d1) →
  recaptchaResponse d1 = Some v → theForm this d1 = Some f →
  dispatch this env d
  = Some (Sent (emit (Fetch submitUrl "POST"
                            (FormData f (set_recaptchaResponse (Some token) d1)))
                     (set_recaptchaResponse (Some token) d1))).
Proof.
  intros Hget Hv Hf. unfold dispatch. rewrite Hget. cbn [mbind option_bind].
  rewrite Hv. rewrite (theForm_forms this d1) by done. by rewrite Hf.
Qed.

(** C4. When [grecaptcha] is undefined at each of the [maxAttempts] = 20
    checks, [getRecaptchaToken] resolves with the empty string: it has set
    19 timers of 500 ms between its 20 checks (9500 ms in all), it does
    not reject and does not stay pending.  The submission goes on with
    the empty token: [dispatch] writes it into [recaptchaResponse] and
    calls [fetch]. *)
Theorem getRecaptchaToken_never_ready (this : Handler) (env : Env) (d : Document) :
  (∀ k, k < maxAttempts → grecaptchaDefined env k = false) →
  maxAttempts = 20 ∧
  ∃ d', getRecaptchaToken this env d = Some (Resolves "" d') ∧
        issued d d' = GetRecaptchaToken
                      :: replicate 19 (SetTimeout CheckRecaptchaCb 500)
                      ++ [gaveUpWarning] ∧
        now d' = (now d + 9500)%N ∧
        ∀ f v, theForm this d = Some f → recaptchaResponse d = Some v →
          ∃ d'', dispatch this env d = Some (Sent d'') ∧
                 recaptchaResponse d'' = Some "" ∧
                 issued d d'' =
                   issued d d' ++
                   [Fetch submitUrl "POST"
                          (fields (controls f)
                           ++ (if default false (botcheck (controls f))
                               then [("botcheck", "on")] else [])
                           ++ [("recaptchaResponse", "")])].
Proof.
  intros Hno. split; [done|].
  pose proof (getRecaptchaToken_gaveUp this env d Hno) as Hget.
  destruct (polls_frame 19 (emit GetRecaptchaToken d)) as (Hforms & _ & Hrr & _).
  remember (emit gaveUpWarning (polls 19 (emit GetRecaptchaToken d))) as d1 eqn:Hd1.
  assert (Hlog : log d1 = log d ++ GetRecaptchaToken
                   :: replicate 19 (SetTimeout CheckRecaptchaCb 500) ++ [gaveUpWarning]).
  { rewrite Hd1, log_emit, polls_log, log_emit. by rewrite <- !app_assoc. }
  assert (Hnow : now d1 = (now d + 9500)%N).
  { rewrite Hd1, now_emit, polls_now, now_emit. lia. }
  assert (Hrr1 : recaptchaResponse d1 = recaptchaResponse d).
  { rewrite Hd1, recaptchaResponse_emit, Hrr. apply recaptchaResponse_emit. }
  assert (Hforms1 : forms d1 = forms d).
  { rewrite Hd1, forms_emit, Hforms. apply forms_emit. }
  clear Hd1 Hforms Hrr.
  exists d1. split; [exact Hget|]. split; [by apply issued_app|]. split; [exact Hnow|].
  intros f v Hf Hv.
  eexists. split.
  - apply (dispatch_resolved this env d "" d1 f v Hget).
    + by rewrite Hrr1.
    + by rewrite (theForm_forms this d).
  - split; [apply recaptchaResponse_emit|]. rewrite (issued_app d d1 _ Hlog).
    apply issued_app. rewrite log_emit, log_set_recaptchaResponse, Hlog.
    rewrite <- app_assoc. unfold FormData. rewrite recaptchaResponse_set. reflexivity.
Qed.

Lemma getRecaptchaToken_never_ready_witness :
  maxAttempts = 20 ∧
  ∃ d', getRecaptchaToken sampleHandler neverReady
          (samplePage (sampleControls (Some false) true) (Some "")) = Some (Resolves "" d') ∧
        now d' = 9500%N.
Proof.
  destruct (getRecaptchaToken_never_ready sampleHandler neverReady
              (samplePage (sampleControls (Some false) true) (Some "")))
    as (Hmax & d' & Hget & _ & Hnow & _).
  - intros k _. reflexivity.
  - split; [exact Hmax|]. exists d'. split; [exact Hget|exact Hnow].
Defined.

(** ** What a run adds to the log *)

Section Extends.
Variable P : Effect → Prop.

Lemma extends_refl d : extends P d d.
Proof. exists []. split; [by rewrite app_nil_r|constructor]. Qed.

Lemma extends_trans d1 d2 d3 :
  extends P d1 d2 → extends P d2 d3 → extends P d1 d3.
Proof.
  intros (l1 & H1 & F1) (l2 & H2 & F2). exists (l1 ++ l2). split.
  - by rewrite H2, H1, app_assoc.
  - by apply Forall_app.
Qed.

Lemma extends_log d d' : log d' = log d → extends P d d'.
Proof. intros H. exists []. split; [by rewrite app_nil_r|constructor]. Qed.

Lemma extends_emit e d : P e → extends P d (emit e d).
Proof. intros HP. exists [e]. split; [apply log_emit|by repeat constructor]. Qed.

Lemma extends_issued d d' : extends P d d' → Forall P (issued d d').
Proof. intros (l & Hl & HF). by rewrite (issued_app _ _ _ Hl). Qed.

Lemma extends_showStatus this m t d :
  P (ShowStatus m t) → P (SetTimeout HideStatusCb 5000) →
  extends P d (showStatus this m t d).
Proof.
  intros H1 H2. unfold showStatus. destruct (statusDiv this).
  - destruct (decide (t = "success")).
    + exists [ShowStatus m t; SetTimeout HideStatusCb 5000]. split.
      * unfold setTimeout. rewrite log_emit. simpl. by rewrite <- app_assoc.
      * by repeat constructor.
    + exists [ShowStatus m t]. split; [done|by repeat constructor].
  - by apply extends_emit.
Qed.

Lemma extends_hideStatus this d : P HideStatus → extends P d (hideStatus this d).
Proof.
  intros H. exists [HideStatus]. split; [apply hideStatus_log|by repeat constructor].
Qed.

Lemma extends_resetForm this d : P FormReset → extends P d (resetForm this d).
Proof.
  intros H. exists [FormReset]. split; [apply resetForm_log|by repeat constructor].
Qed.

Lemma extends_polls n d :
  P (SetTimeout CheckRecaptchaCb 500) → extends P d (polls n d).
Proof.
  intros H. exists (replicate n (SetTimeout CheckRecaptchaCb 500)).
  split; [apply polls_log|]. by apply Forall_replicate.
Qed.
End Extends.

(** [getRecaptchaToken] touches nothing but the clock and the log. *)
Lemma getRecaptchaToken_frame (this : Handler) (env : Env) (d : Document) r :
  getRecaptchaToken this env d = Some r →
  forms (finalDocument r) = forms d ∧
  formStatus (finalDocument r) = formStatus d ∧
  recaptchaResponse (finalDocument r) = recaptchaResponse d ∧
  timers (finalDocument r) = timers d ∧
  extends isPollEffect d (finalDocument r).
Proof.
  intros Hget.
  assert (Hpolls : ∀ n, extends isPollEffect d (polls n (emit GetRecaptchaToken d))).
  { intros n. apply (extends_trans _ d (emit GetRecaptchaToken d));
      [apply extends_emit; exact I|apply extends_polls; exact I]. }
  destruct (getRecaptchaToken_cases this env d) as [(k & _ & _ & Hk)|[_ Hk]];
    rewrite Hk in Hget; injection Hget as <-.
  - destruct (polls_frame k (emit GetRecaptchaToken d)) as (Hf & Hs & Hr & Ht & _).
    destruct (answered_spec this env k (polls k (emit GetRecaptchaToken d)))
      as (_ & _ & _ & -> & -> & -> & -> & _).
    rewrite Hf, Hs, Hr, Ht. repeat split; try done.
    apply (extends_trans _ d (polls k (emit GetRecaptchaToken d)));
      [apply Hpolls|apply answered_pollEffects].
  - change (maxAttempts - 1) with 19.
    destruct (polls_frame 19 (emit GetRecaptchaToken d)) as (Hf & Hs & Hr & Ht & _).
    unfold gaveUp. cbn [finalDocument].
    rewrite ?forms_emit, ?formStatus_emit, ?recaptchaResponse_emit, ?timers_emit,
      Hf, Hs, Hr, Ht.
    repeat split; try done.
    eapply extends_trans; [|apply extends_emit; exact I]. apply Hpolls.
Qed.

Lemma getRecaptchaToken_total (this : Handler) (env : Env) (d : Document) :
  ∃ r, getRecaptchaToken this env d = Some r.
Proof.
  destruct (getRecaptchaToken_cases this env d) as [(k & _ & _ & Hk)|[_ Hk]];
    rewrite Hk; by eexists.
Qed.

(** ** The [try] block, [catch] and [finally] *)

Lemma tryBlock_total (this : Handler) (env : Env) (d : Document) :
  ∃ r, tryBlock this env d = Some r.
Proof.
  unfold tryBlock, dispatch.
  destruct (getRecaptchaToken_total this env d) as [r ->]. by eexists.
Qed.

Lemma handleSubmit_total (this : Handler) (env : Env) (d : Document) :
  ∃ r, handleSubmit this env d = Some r.
Proof.
  unfold handleSubmit. destruct (begin this d) as [s|d0]; [by eexists|].
  destruct (tryBlock_total this env d0) as [r ->]. by eexists.
Qed.

Lemma receive_theButton (this : Handler) (env : Env) (d : Document) :
  theButton this (finalDocument (receive this env d)) = theButton this d.
Proof.
  unfold receive. destruct (fetchOutcome env); try done.
  destruct (jsonOutcome env) as [data| |]; try done.
  destruct (success data); [|done].
  assert (theButton this (resetForm this (showStatus this thankYou "success"
                                            (emit ResponseJson d)))
          = theButton this d) as Hb.
  { rewrite resetForm_theButton.
    rewrite (theButton_forms this (emit ResponseJson d)) by apply showStatus_forms.
    apply theButton_emit. }
  destruct (gtag env); cbn [finalDocument]; rewrite ?theButton_emit; exact Hb.
Qed.

(** Nothing in the [try] block touches the submit button. *)
Lemma tryBlock_theButton (this : Handler) (env : Env) (d : Document) r :
  tryBlock this env d = Some r →
  theButton this (finalDocument r) = theButton this d.
Proof.
  unfold tryBlock, dispatch.
  destruct (getRecaptchaToken this env d) as [r0|] eqn:Hget; [|done].
  destruct (getRecaptchaToken_frame this env d r0 Hget) as (Hforms & _).
  pose proof (theButton_forms this d _ Hforms) as Hb.
  cbn [mbind option_bind]. intros [= <-].
  destruct r0 as [token d1|e d1|d1]; cbn [finalDocument] in *; try exact Hb.
  destruct (recaptchaResponse d1); [|exact Hb].
  destruct (theForm this (set_recaptchaResponse (Some token) d1)); [|exact Hb].
  rewrite receive_theButton, theButton_emit, theButton_set_recaptchaResponse.
  exact Hb.
Qed.

Lemma catch_raised this (e : Error) d : catch this e d = Normal (caught this e d).
Proof. reflexivity. Qed.

Lemma catch_nullish this d :
  catch this Nullish d = Throw TypeError (emit (Console "error" "Form submission error:") d).
Proof. reflexivity. Qed.

(** Only null and undefined make [catch] throw. *)
Lemma catch_normal this v d :
  v ≠ Nullish → ∃ d', catch this v d = Normal d'.
Proof. destruct v as [e| |]; [by eexists..|done]. Qed.

Lemma catch_forms this v d : forms (completionDocument (catch this v d)) = forms d.
Proof.
  destruct v as [e| |]; cbn [catch completionDocument]; [|by rewrite showStatus_forms|done].
  destruct (decide (message e = ""));
    rewrite ?forms_emit, showStatus_forms, !forms_emit; done.
Qed.

Lemma catch_formStatus this v d :
  v ≠ Nullish → statusDiv this = (_ ← formStatus d; Some ()) →
  formStatus (completionDocument (catch this v d))
  = (λ _, mkStatus genericError "form-status error" "block") <$> formStatus d.
Proof.
  intros Hv Hs. destruct v as [e| |]; cbn [catch completionDocument]; [| |done].
  - destruct (decide (message e = ""));
      rewrite ?formStatus_emit, showStatus_formStatus; rewrite ?formStatus_emit; done.
  - rewrite showStatus_formStatus; rewrite ?formStatus_emit; done.
Qed.

Lemma catch_recaptchaResponse this v d :
  recaptchaResponse (completionDocument (catch this v d)) = recaptchaResponse d.
Proof.
  destruct v as [e| |]; cbn [catch completionDocument];
    [|by rewrite showStatus_recaptchaResponse|done].
  destruct (decide (message e = ""));
    rewrite ?recaptchaResponse_emit, showStatus_recaptchaResponse,
      !recaptchaResponse_emit; done.
Qed.

Lemma catch_timers this v d : timers (completionDocument (catch this v d)) = timers d.
Proof.
  destruct v as [e| |]; cbn [catch completionDocument];
    [|by rewrite showStatus_error_timers|done].
  destruct (decide (message e = ""));
    rewrite ?timers_emit, showStatus_error_timers, !timers_emit; done.
Qed.

Lemma catch_log this (e : Error) d :
  log (caught this e d)
  = log d ++ [Console "error" "Form submission error:";
              Console "error" ("Error details: " +:+ message e);
              ShowStatus genericError "error"]
          ++ (if decide (message e = "") then []
              else [Console "error" ("Error message: " +:+ message e)]).
Proof.
  unfold caught. destruct (decide (message e = "")).
  - rewrite showStatus_error_log, !log_emit. by rewrite <- !app_assoc.
  - rewrite log_emit, showStatus_error_log, !log_emit. by rewrite <- !app_assoc.
Qed.

Lemma extends_catch (P : Effect → Prop) this v d :
  (∀ l t, P (Console l t)) → P (ShowStatus genericError "error") →
  extends P d (completionDocument (catch this v d)).
Proof.
  intros HC HS. destruct v as [e| |]; cbn [catch completionDocument].
  - fold (caught this e d). eexists. split; [apply catch_log|].
    destruct (decide (message e = "")); repeat constructor; done.
  - eexists. split; [rewrite showStatus_error_log, !log_emit, <- !app_assoc; reflexivity|].
    repeat constructor; done.
  - by apply extends_emit.
Qed.

(** [finally] with a submit button: the button gets its idle look. *)
Lemma finally_button this d b :
  theButton this d = Some b →
  finally this d
  = Resolves () (storeButton this (loadingLook false b) (emit (SetLoadingState false) d)).
Proof. intros Hb. unfold finally. by rewrite (setLoadingState_button _ _ _ b). Qed.

Lemma loadingLook_idle (b : Button) : idle (loadingLook false b).
Proof.
  unfold idle, loadingLook. simpl. split; [done|]. split.
  - intros s. destruct (btnText b); simpl; [|done]. by intros [= <-].
  - intros s. destruct (btnLoader b); simpl; [|done]. by intros [= <-].
Qed.

Lemma finally_document this d :
  finalDocument (finally this d) = completionDocument (setLoadingState this false d).
Proof. unfold finally. by destruct (setLoadingState this false d). Qed.

(** The document after [catch] and [finally]. *)
Lemma conclude_document this v d :
  finalDocument (conclude this (Rejects v d))
  = completionDocument (setLoadingState this false (completionDocument (catch this v d))).
Proof.
  cbn [conclude]. destruct (catch this v d) as [d1|e1 d1]; cbn [completionDocument];
    unfold finally; by destruct (setLoadingState this false d1).
Qed.

(** After [catch] and [finally] the attempt is over, with the button
    restored, also when [catch] threw (the promise is then rejected); or
    the [try] block never came back. *)
Lemma conclude_button this r b :
  theButton this (finalDocument r) = Some b →
  match conclude this r with
  | Resolves _ d' => theButton this d' = Some (loadingLook false b)
  | Rejects e d' =>
      theButton this d' = Some (loadingLook false b) ∧
      e = TypeError ∧ ∃ d1, r = Rejects Nullish d1
  | Pending d' => r = Pending d'
  end.
Proof.
  intros Hb. destruct r as [[] d1|v d1|d1]; cbn [conclude finalDocument] in *.
  - rewrite (finally_button _ _ b Hb).
    apply (storeButton_theButton _ _ b). by rewrite theButton_emit.
  - assert (theButton this (completionDocument (catch this v d1)) = Some b) as Hc.
    { rewrite <- Hb. apply theButton_forms, catch_forms. }
    destruct v as [e| |]; cbn [catch completionDocument] in *;
      rewrite (finally_button _ _ b Hc);
      try (split; [|split; [done|by eexists]]);
      apply (storeButton_theButton _ _ b); by rewrite theButton_emit.
  - done.
Qed.

(** ** Entering the loading state *)

Lemma begin_passes this d f :
  theForm this d = Some f → passes f →
  begin this d =
  match setLoadingState this true (emit PreventDefault d) with
  | Throw e d => Returned (Rejects e d)
  | Normal d => Loading (hideStatus this d)
  end.
Proof.
  intros Hf [Hval Hbot]. unfold begin. rewrite theForm_emit, Hf, Hval.
  cbn [negb]. destruct (botcheck (controls f)) as [[]|]; done.
Qed.

Lemma begin_loading this d f b :
  theForm this d = Some f → passes f → theButton this d = Some b →
  begin this d = Loading (atTry this b d).
Proof.
  intros Hf Hp Hb. rewrite (begin_passes _ _ _ Hf Hp).
  rewrite (setLoadingState_button _ _ _ b) by (by rewrite theButton_emit). done.
Qed.

Lemma atTry_theButton this b d :
  theButton this d = Some b → theButton this (atTry this b d) = Some (loadingLook true b).
Proof.
  intros Hb. unfold atTry.
  rewrite (theButton_forms this (storeButton this (loadingLook true b)
             (emit (SetLoadingState true) (emit PreventDefault d))))
    by apply hideStatus_forms.
  apply (storeButton_theButton _ _ b). by rewrite !theButton_emit.
Qed.

Lemma atTry_log this b d :
  log (atTry this b d) = log d ++ [PreventDefault; SetLoadingState true; HideStatus].
Proof.
  unfold atTry. rewrite hideStatus_log.
  destruct (storeButton_others this (loadingLook true b)
              (emit (SetLoadingState true) (emit PreventDefault d)))
    as (_ & _ & _ & _ & ->).
  rewrite !log_emit. by rewrite <- !app_assoc.
Qed.

Lemma atTry_others this b d :
  recaptchaResponse (atTry this b d) = recaptchaResponse d ∧
  timers (atTry this b d) = timers d ∧ now (atTry this b d) = now d.
Proof.
  unfold atTry. rewrite hideStatus_recaptchaResponse, hideStatus_timers, hideStatus_now.
  destruct (storeButton_others this (loadingLook true b)
              (emit (SetLoadingState true) (emit PreventDefault d)))
    as (_ & -> & -> & -> & _).
  done.
Qed.

Lemma atTry_formStatus this b d :
  statusDiv this = (_ ← formStatus d; Some ()) →
  formStatus (atTry this b d)
  = (λ s, mkStatus (textContent s) (className s) "none") <$> formStatus d.
Proof.
  intros Hs. unfold atTry.
  destruct (storeButton_others this (loadingLook true b)
              (emit (SetLoadingState true) (emit PreventDefault d)))
    as (HfS & _).
  rewrite hideStatus_formStatus; rewrite HfS, !formStatus_emit; done.
Qed.

(** The user's entries are still in the form at [try]. *)
Lemma atTry_controls this b d id :
  controls <$> (forms (atTry this b d) !! id) = controls <$> (forms d !! id).
Proof.
  unfold atTry. rewrite hideStatus_forms, storeButton_controls, !forms_emit. done.
Qed.

Lemma atTry_defaults this b d id :
  defaults <$> (forms (atTry this b d) !! id) = defaults <$> (forms d !! id).
Proof.
  unfold atTry. rewrite hideStatus_forms, storeButton_defaults, !forms_emit. done.
Qed.

(** [finally], looked at field by field. *)
Lemma finally_spec (P : Effect → Prop) this d b :
  theButton this d = Some b → P (SetLoadingState false) →
  ∃ d', finally this d = Resolves () d' ∧
        theButton this d' = Some (loadingLook false b) ∧
        (∀ id, controls <$> (forms d' !! id) = controls <$> (forms d !! id)) ∧
        formStatus d' = formStatus d ∧
        recaptchaResponse d' = recaptchaResponse d ∧
        timers d' = timers d ∧
        extends P d d'.
Proof.
  intros Hb HP. eexists. split; [by apply finally_button|].
  destruct (storeButton_others this (loadingLook false b) (emit (SetLoadingState false) d))
    as (Hs & Hr & Ht & _ & Hl).
  split; [apply (storeButton_theButton _ _ b); by rewrite theButton_emit|].
  split; [intros id; by rewrite storeButton_controls, forms_emit|].
  rewrite Hs, Hr, Ht, formStatus_emit, recaptchaResponse_emit, timers_emit.
  repeat split; try done.
  exists [SetLoadingState false]. split; [by rewrite Hl, log_emit|by repeat constructor].
Qed.

(** An exception in the [try] block whose value is not null or
    undefined: [catch] shows the generic error, [finally] restores the
    button; the form keeps its entries. *)
Lemma conclude_rejects (P : Effect → Prop) this (v : Thrown) d b :
  v ≠ Nullish →
  theButton this d = Some b → statusDiv this = (_ ← formStatus d; Some ()) →
  (∀ l t, P (Console l t)) → P (ShowStatus genericError "error") →
  P (SetLoadingState false) →
  ∃ d', conclude this (Rejects v d) = Resolves () d' ∧
        theButton this d' = Some (loadingLook false b) ∧
        (∀ id, controls <$> (forms d' !! id) = controls <$> (forms d !! id)) ∧
        formStatus d' = (λ _, mkStatus genericError "form-status error" "block") <$> formStatus d ∧
        recaptchaResponse d' = recaptchaResponse d ∧
        timers d' = timers d ∧
        extends P d d'.
Proof.
  intros Hv Hb Hs HC HS HL. cbn [conclude].
  pose proof (catch_forms this v d) as Hfo.
  pose proof (catch_formStatus this v d Hv Hs) as Hfs.
  pose proof (catch_recaptchaResponse this v d) as Hr.
  pose proof (catch_timers this v d) as Ht.
  pose proof (extends_catch P this v d HC HS) as Hex.
  destruct (catch_normal this v d Hv) as [d1 Hc]. rewrite Hc in *.
  cbn [completionDocument] in *.
  assert (theButton this d1 = Some b) as Hb'.
  { rewrite <- Hb. by apply theButton_forms. }
  destruct (finally_spec P this d1 b Hb' HL)
    as (d' & Hfin & Hbtn & Hctl & Hst & Hrr & Htm & Hext).
  exists d'. split; [done|]. split; [done|].
  split; [intros id; by rewrite Hctl, Hfo|].
  rewrite Hst, Hrr, Htm, Hfs, Hr, Ht.
  repeat split; try done.
  by apply (extends_trans P d d1 d').
Qed.

(** An exception in the [try] block whose value is null or undefined:
    [catch] throws when it reads the message, nothing is shown, [finally]
    restores the button, and the promise is rejected with the TypeError
    of [catch]. *)
Lemma conclude_nullish (P : Effect → Prop) this d b :
  theButton this d = Some b →
  (∀ l t, P (Console l t)) → P (SetLoadingState false) →
  ∃ d', conclude this (Rejects Nullish d) = Rejects TypeError d' ∧
        theButton this d' = Some (loadingLook false b) ∧
        (∀ id, controls <$> (forms d' !! id) = controls <$> (forms d !! id)) ∧
        formStatus d' = formStatus d ∧
        recaptchaResponse d' = recaptchaResponse d ∧
        timers d' = timers d ∧
        extends P d d' ∧
        issued d d' = [Console "error" "Form submission error:"; SetLoadingState false].
Proof.
  intros Hb HC HL. cbn [conclude]. rewrite catch_nullish.
  set (d1 := emit (Console "error" "Form submission error:") d).
  assert (theButton this d1 = Some b) as Hb' by (by rewrite <- Hb).
  destruct (finally_spec P this d1 b Hb' HL)
    as (d' & Hfin & Hbtn & Hctl & Hst & Hrr & Htm & Hext).
  rewrite Hfin. exists d'. split; [done|]. split; [done|]. split; [done|].
  split; [done|]. split; [done|]. split; [done|]. split.
  - apply (extends_trans P d d1 d'); [by apply extends_emit|done].
  - rewrite (finally_button _ _ b Hb') in Hfin. injection Hfin as Hd'.
    apply issued_app. rewrite <- Hd'.
    destruct (storeButton_others this (loadingLook false b) (emit (SetLoadingState false) d1))
      as (_ & _ & _ & _ & Hl).
    etrans; [exact Hl|]. unfold d1. rewrite !log_emit. by rewrite <- app_assoc.
Qed.

(** The [try] block came to its end. *)
Lemma conclude_resolves (P : Effect → Prop) this d b :
  theButton this d = Some b → P (SetLoadingState false) →
  ∃ d', conclude this (Resolves () d) = Resolves () d' ∧
        theButton this d' = Some (loadingLook false b) ∧
        (∀ id, controls <$> (forms d' !! id) = controls <$> (forms d !! id)) ∧
        formStatus d' = formStatus d ∧
        recaptchaResponse d' = recaptchaResponse d ∧
        timers d' = timers d ∧
        extends P d d'.
Proof. intros Hb HL. cbn [conclude]. by apply finally_spec. Qed.

Lemma extends_setLoadingState (P : Effect → Prop) this isLoading d :
  P (SetLoadingState isLoading) →
  extends P d (completionDocument (setLoadingState this isLoading d)).
Proof.
  intros HP. exists [SetLoadingState isLoading]. split; [|by repeat constructor].
  destruct (theButton this d) as [b|] eqn:Hb.
  - rewrite (setLoadingState_button _ _ _ b Hb). cbn [completionDocument].
    destruct (storeButton_others this (loadingLook isLoading b)
                (emit (SetLoadingState isLoading) d)) as (_ & _ & _ & _ & ->).
    apply log_emit.
  - rewrite (setLoadingState_null _ _ _ Hb). apply log_emit.
Qed.

Lemma extends_conclude (P : Effect → Prop) this r :
  (∀ l t, P (Console l t)) → P (ShowStatus genericError "error") →
  P (SetLoadingState false) →
  extends P (finalDocument r) (finalDocument (conclude this r)).
Proof.
  intros HC HS HL. destruct r as [[] d|v d|d].
  - cbn [conclude finalDocument]. rewrite finally_document.
    by apply extends_setLoadingState.
  - rewrite conclude_document. cbn [finalDocument].
    apply (extends_trans P d (completionDocument (catch this v d)));
      [by apply extends_catch|by apply extends_setLoadingState].
  - apply extends_refl.
Qed.

(** [begin], as seen from the log. *)
Lemma extends_atTry (P : Effect → Prop) this b d :
  P PreventDefault → P (SetLoadingState true) → P HideStatus →
  extends P d (atTry this b d).
Proof.
  intros H1 H2 H3. exists [PreventDefault; SetLoadingState true; HideStatus].
  split; [apply atTry_log|by repeat constructor].
Qed.

Lemma atTry_statusBound this b d :
  statusDiv this = (_ ← formStatus d; Some ()) →
  statusDiv this = (_ ← formStatus (atTry this b d); Some ()).
Proof.
  intros Hs. rewrite (atTry_formStatus _ _ _ Hs), Hs. by destruct (formStatus d).
Qed.

(** ** From [try] to the call of [fetch] *)

Lemma isPollEffect_impl (P : Effect → Prop) d d' :
  P GetRecaptchaToken → P (SetTimeout CheckRecaptchaCb 500) →
  P GrecaptchaReady →
  (∀ k a, P (GrecaptchaExecute k a)) → (∀ l t, P (Console l t)) →
  extends isPollEffect d d' → extends P d d'.
Proof.
  intros H1 H2 H0 H3 H4 (l & Hl & HF). exists l. split; [done|].
  eapply Forall_impl; [exact HF|]. intros e He.
  destruct e as [| | | | | |cb ms| | | | | |]; try done.
  destruct cb; [|done].
  destruct (decide (ms = 500%N)) as [->|Hne]; [done|].
  exfalso. revert He. simpl.
  repeat (match goal with |- context [match ?x with _ => _ end] => destruct x end;
          try done).
Qed.

Lemma dispatch_cases this env d r :
  dispatch this env d = Some r →
  match r with
  | NotSent s =>
      (∀ a d', s ≠ Resolves a d') ∧
      forms (finalDocument s) = forms d ∧
      formStatus (finalDocument s) = formStatus d ∧
      timers (finalDocument s) = timers d ∧
      extends isPollEffect d (finalDocument s)
  | Sent d2 =>
      ∃ token d1 f,
        getRecaptchaToken this env d = Some (Resolves token d1) ∧
        is_Some (recaptchaResponse d) ∧ theForm this d = Some f ∧
        d2 = emit (Fetch submitUrl "POST"
                         (FormData f (set_recaptchaResponse (Some token) d1)))
                  (set_recaptchaResponse (Some token) d1) ∧
        forms d2 = forms d ∧ formStatus d2 = formStatus d ∧ timers d2 = timers d ∧
        recaptchaResponse d2 = Some token ∧
        extends isPollEffect d d1
  end.
Proof.
  unfold dispatch.
  destruct (getRecaptchaToken this env d) as [r0|] eqn:Hget; [|done].
  destruct (getRecaptchaToken_frame this env d r0 Hget) as (Hf & Hs & Hr & Ht & He).
  cbn [mbind option_bind]. intros [= <-].
  destruct r0 as [token d1|e d1|d1]; cbn [finalDocument] in *.
  - destruct (recaptchaResponse d1) as [v|] eqn:Hv.
    + rewrite theForm_set_recaptchaResponse.
      destruct (theForm this d1) as [f|] eqn:Hf1.
      * exists token, d1, f. split; [done|]. split; [rewrite <- Hr; by eexists|].
        split; [by rewrite <- (theForm_forms this d d1)|]. split; [done|].
        rewrite forms_emit, formStatus_emit, timers_emit, recaptchaResponse_emit.
        rewrite formStatus_set_recaptchaResponse, timers_set_recaptchaResponse,
          recaptchaResponse_set.
        change (forms (set_recaptchaResponse (Some token) d1)) with (forms d1).
        rewrite Hf, Hs, Ht. done.
      * cbn [finalDocument]. repeat split; done.
    + cbn [finalDocument]. repeat split; done.
  - repeat split; done.
  - repeat split; done.
Qed.

Lemma dispatch_no_token_field this env d r :
  recaptchaResponse d = None → dispatch this env d = Some r →
  ∃ s, r = NotSent s.
Proof.
  intros Hnone Hd. pose proof (dispatch_cases _ _ _ _ Hd) as H.
  destruct r as [d2|s]; [|by eexists].
  destruct H as (token & d1 & f & _ & [v Hv] & _). congruence.
Qed.

(** ** From the answer of [fetch] to the end of [try] *)

Lemma receive_fails (P : Effect → Prop) this env d :
  submissionFails env → P ResponseJson →
  ∃ (e : Error) d', receive this env d = Rejects e d' ∧
          forms d' = forms d ∧ formStatus d' = formStatus d ∧
          recaptchaResponse d' = recaptchaResponse d ∧ timers d' = timers d ∧
          extends P d d'.
Proof.
  unfold submissionFails, receive. intros Hfail HP.
  destruct (fetchOutcome env) as [|e|]; [| |done].
  - destruct (jsonOutcome env) as [data|e|]; [| |done].
    + rewrite Hfail. eexists _, _. split; [done|].
      repeat split; try done. by apply extends_emit.
    + eexists _, _. split; [done|]. repeat split; try done. by apply extends_emit.
  - eexists _, _. split; [done|]. repeat split; try done. apply extends_refl.
Qed.

(** ** Whole attempts *)

Lemma theForm_controls this d d' :
  (∀ id, controls <$> (forms d' !! id) = controls <$> (forms d !! id)) →
  controls <$> theForm this d' = controls <$> theForm this d.
Proof. intros H. unfold theForm. destruct (form this) as [id|]; [apply H|done]. Qed.

Lemma forms_controls d d' :
  forms d' = forms d →
  ∀ id, controls <$> (forms d' !! id) = controls <$> (forms d !! id).
Proof. by intros ->. Qed.

Section Attempt.
Variables (this : Handler) (env : Env) (d : Document) (f : FormEl) (b : Button).
Hypothesis Hatt : attached this d.
Hypothesis Hf : theForm this d = Some f.
Hypothesis Hp : passes f.
Hypothesis Hb : theButton this d = Some b.

Lemma handleSubmit_tryBlock :
  handleSubmit this env d = conclude this <$> tryBlock this env (atTry this b d).
Proof. unfold handleSubmit. by rewrite (begin_loading this d f b). Qed.

(** The run did not get to [fetch]. *)
Lemma notSent_run s :
  dispatch this env (atTry this b d) = Some (NotSent s) →
  handleSubmit this env d = Some (conclude this s) ∧
  extends notFetch d (finalDocument (conclude this s)) ∧
  ((∀ d', s ≠ Pending d') → (∀ d', s ≠ Rejects Nullish d') →
   ∃ d', conclude this s = Resolves () d' ∧
         theButton this d' = Some (loadingLook false (loadingLook true b)) ∧
         controls <$> theForm this d' = Some (controls f) ∧
         formStatus d' = (λ _, mkStatus genericError "form-status error" "block")
                           <$> formStatus d).
Proof.
  intros Hd. pose proof (dispatch_cases _ _ _ _ Hd) as (Hnr & Hfo & Hst & Htm & Hext).
  assert (Hrun : handleSubmit this env d = Some (conclude this s)).
  { rewrite handleSubmit_tryBlock. unfold tryBlock. by rewrite Hd. }
  assert (Hext0 : extends notFetch d (finalDocument s)).
  { eapply extends_trans; [by apply extends_atTry|].
    by apply isPollEffect_impl. }
  assert (Hb1 : theButton this (finalDocument s) = Some (loadingLook true b)).
  { rewrite (theButton_forms this (atTry this b d)) by done.
    by apply atTry_theButton. }
  assert (Hs1 : statusDiv this = (_ ← formStatus (finalDocument s); Some ())).
  { rewrite Hst. apply atTry_statusBound. by apply attached_statusDiv. }
  split; [done|].
  split.
  { apply (extends_trans notFetch d (finalDocument s)); [done|].
    by apply extends_conclude. }
  destruct s as [a d1|v d1|d1]; cbn [finalDocument] in *.
  - by destruct (Hnr a d1).
  - intros _ Hv.
    destruct (conclude_rejects notFetch this v d1 _ (λ E, Hv d1 (f_equal (λ v, Rejects v d1) E))
                Hb1 Hs1)
      as (d' & Hc & Hbtn & Hctl & Hfs & _ & _ & Hex); try done.
    exists d'.
    split; [done|]. split; [done|]. split.
    + rewrite (theForm_controls this d1) by done.
      rewrite (theForm_controls this (atTry this b d)) by (by apply forms_controls).
      rewrite (theForm_controls this d) by apply atTry_controls.
      by rewrite Hf.
    + rewrite Hfs, Hst, atTry_formStatus by (by apply attached_statusDiv).
      by destruct (formStatus d).
  - intros H. by destruct (H d1).
Qed.

(** The run got to [fetch], and the request failed. *)
Lemma sent_fails_run d2 :
  dispatch this env (atTry this b d) = Some (Sent d2) → submissionFails env →
  ∃ d', handleSubmit this env d = Some (Resolves () d') ∧
        theButton this d' = Some (loadingLook false (loadingLook true b)) ∧
        controls <$> theForm this d' = Some (controls f) ∧
        formStatus d' = (λ _, mkStatus genericError "form-status error" "block")
                          <$> formStatus d ∧
        extends notReset d d'.
Proof.
  intros Hd Hfail.
  pose proof (dispatch_cases _ _ _ _ Hd)
    as (token & d1 & f0 & _ & _ & _ & Hd2 & Hfo & Hst & _ & _ & Hext).
  destruct (receive_fails notReset this env d2 Hfail)
    as (e & d3 & Hrec & Hfo3 & Hst3 & _ & _ & Hext3); [done|].
  assert (Hb3 : theButton this d3 = Some (loadingLook true b)).
  { rewrite (theButton_forms this d2) by done.
    rewrite (theButton_forms this (atTry this b d)) by done.
    by apply atTry_theButton. }
  assert (Hs3 : statusDiv this = (_ ← formStatus d3; Some ())).
  { rewrite Hst3, Hst. apply atTry_statusBound. by apply attached_statusDiv. }
  destruct (conclude_rejects notReset this e d3 _ ltac:(done) Hb3 Hs3)
    as (d' & Hc & Hbtn & Hctl & Hfs & _ & _ & Hex); try done.
  exists d'. split.
  { rewrite handleSubmit_tryBlock. unfold tryBlock. rewrite Hd.
    cbn [mbind option_bind fmap option_fmap option_map]. by rewrite Hrec, Hc. }
  split; [done|]. split.
  { rewrite (theForm_controls this d3) by done.
    rewrite (theForm_controls this d2) by (by apply forms_controls).
    rewrite (theForm_controls this (atTry this b d)) by (by apply forms_controls).
    rewrite (theForm_controls this d) by apply atTry_controls.
    by rewrite Hf. }
  split.
  { rewrite Hfs, Hst3, Hst, atTry_formStatus by (by apply attached_statusDiv).
    by destruct (formStatus d). }
  eapply extends_trans; [|exact Hex].
  eapply extends_trans; [|exact Hext3].
  eapply extends_trans; [by apply extends_atTry|].
  rewrite Hd2.
  eapply extends_trans; [by apply (isPollEffect_impl notReset _ d1)|].
  exists [Fetch submitUrl "POST" (FormData f0 (set_recaptchaResponse (Some token) d1))].
  split; [by rewrite log_emit, log_set_recaptchaResponse|by repeat constructor].
Qed.
End Attempt.

Lemma dispatch_total this env d : ∃ r, dispatch this env d = Some r.
Proof.
  unfold dispatch. destruct (getRecaptchaToken_total this env d) as [r ->].
  by eexists.
Qed.

Lemma notFetch_issued d d' e :
  extends notFetch d d' → e ∈ issued d d' → isFetch e = false.
Proof.
  intros Hext Hin. apply extends_issued in Hext.
  by apply (proj1 (Forall_forall _ _) Hext).
Qed.

Lemma notReset_issued d d' : extends notReset d d' → FormReset ∉ issued d d'.
Proof.
  intros Hext Hin. apply extends_issued in Hext.
  by apply (proj1 (Forall_forall _ _) Hext FormReset Hin).
Qed.

(** ** Failed submissions *)

(** C6. When the request was sent and failed (the answer says
    [success: false], its body is not JSON, or [fetch] rejected),
    [handleSubmit] shows the generic error message and does not reset the
    form: the user's entries are as they were. *)
Theorem handleSubmit_failure (this : Handler) (env : Env) (d : Document)
    (f : FormEl) (b : Button) (r : Settle unit) :
  attached this d → theForm this d = Some f → passes f → theButton this d = Some b →
  submissionFails env →
  handleSubmit this env d = Some r →
  (∃ e, e ∈ issued d (finalDocument r) ∧ isFetch e = true) →
  ∃ d', r = Resolves () d' ∧
        formStatus d' = (λ _, mkStatus genericError "form-status error" "block")
                          <$> formStatus d ∧
        controls <$> theForm this d' = Some (controls f) ∧
        FormReset ∉ issued d d'.
Proof.
  intros Hatt Hf Hp Hb Hfail Hrun (e & Hin & He).
  destruct (dispatch_total this env (atTry this b d)) as [[d2|s] Hd].
  - destruct (sent_fails_run this env d f b Hatt Hf Hp Hb d2 Hd Hfail)
      as (d' & Hrun' & _ & Hctl & Hfs & Hext).
    exists d'. rewrite Hrun in Hrun'. injection Hrun' as ->.
    split; [done|]. split; [done|]. split; [done|]. by apply notReset_issued.
  - destruct (notSent_run this env d f b Hatt Hf Hp Hb s Hd) as (Hrun' & Hext & _).
    rewrite Hrun in Hrun'. injection Hrun' as ->.
    rewrite (notFetch_issued _ _ _ Hext Hin) in He. done.
Qed.

(** ** A page without the token field *)

Lemma samplePage_attached (c : Controls) (token : option string) :
  attached sampleHandler (samplePage c token).
Proof.
  exists "contactForm", (mkForm c blankControls (Some sampleButton)).
  split; [done|]. split; [apply lookup_singleton_eq|]. done.
Qed.

Lemma samplePage_theForm (c : Controls) (token : option string) :
  theForm sampleHandler (samplePage c token)
  = Some (mkForm c blankControls (Some sampleButton)).
Proof. apply lookup_singleton_eq. Qed.

Lemma samplePage_theButton (c : Controls) (token : option string) :
  theButton sampleHandler (samplePage c token) = Some sampleButton.
Proof.
  unfold theButton, sampleHandler, samplePage. cbn [submitButton forms mbind option_bind].
  by rewrite lookup_singleton_eq.
Qed.

Lemma sampleButton_idle : idle sampleButton.
Proof.
  unfold idle, sampleButton. simpl. split; [done|]. split.
  - by intros s [= <-].
  - by intros s [= <-].
Qed.

Lemma sampleControls_passes :
  passes (mkForm (sampleControls (Some false) true) blankControls (Some sampleButton)).
Proof. split; done. Qed.

(** What happens there. *)
Lemma silent_provider_pending :
  ∃ d', handleSubmit sampleHandler silentEnv
          (samplePage (sampleControls (Some false) true) None) = Some (Pending d') ∧
        disabled <$> theButton sampleHandler d' = Some true ∧
        formStatus d' = Some (mkStatus "" "form-status" "none").
Proof. eexists. split; [vm_compute; reflexivity|]. split; vm_compute; reflexivity. Qed.

(** C10, counterexample.  On a page without the token field, with a
    provider that is loaded and never answers, the attempt stays pending
    at its first [await]: no error is shown, the button stays disabled. *)
Lemma noTokenFieldClaim_fails : ¬ noTokenFieldClaim.
Proof.
  intros H.
  destruct (H sampleHandler silentEnv (samplePage (sampleControls (Some false) true) None)
              _ sampleButton
              (samplePage_attached _ _) (samplePage_theForm _ _)
              sampleControls_passes (samplePage_theButton _ _) eq_refl)
    as (d' & b' & Hrun & _).
  destruct silent_provider_pending as (d'' & Hpending & _).
  rewrite Hpending in Hrun. discriminate Hrun.
Qed.

(** ** The theorems above, at the sample page *)

Lemma handleSubmit_invalid_witness :
  ∃ d', handleSubmit sampleHandler neverReady
          (samplePage (sampleControls (Some false) false) (Some "")) = Some (Resolves () d') ∧
        issued (samplePage (sampleControls (Some false) false) (Some "")) d'
        = [PreventDefault; ShowStatus pleaseFill "error"].
Proof.
  destruct (handleSubmit_invalid sampleHandler neverReady
              (samplePage (sampleControls (Some false) false) (Some "")) _
              (samplePage_attached _ _) (samplePage_theForm _ _) eq_refl)
    as (d' & Hrun & Hiss & _).
  exists d'. split; [exact Hrun|exact Hiss].
Defined.

Lemma handleSubmit_honeypot_witness :
  ∃ d', handleSubmit sampleHandler neverReady
          (samplePage (sampleControls (Some true) true) (Some "")) = Some (Resolves () d') ∧
        theForm sampleHandler d'
        = Some (reset (mkForm (sampleControls (Some true) true) blankControls
                              (Some sampleButton))).
Proof.
  destruct (handleSubmit_honeypot sampleHandler neverReady
              (samplePage (sampleControls (Some true) true) (Some "")) _
              (samplePage_attached _ _) (samplePage_theForm _ _) eq_refl eq_refl)
    as (d' & Hrun & _ & Hform & _).
  exists d'. split; [exact Hrun|exact Hform].
Defined.

Lemma failedEnv_run :
  ∃ d', handleSubmit sampleHandler failedEnv
          (samplePage (sampleControls (Some false) true) (Some "")) = Some (Resolves () d') ∧
        Fetch submitUrl "POST"
              [("name", "Ada"); ("email", "ada@example.org"); ("message", "Hello");
               ("recaptchaResponse", "tok")]
        ∈ issued (samplePage (sampleControls (Some false) true) (Some "")) d'.
Proof.
  eexists. split; [vm_compute; reflexivity|].
  vm_compute. repeat first [apply list_elem_of_here | apply list_elem_of_further].
Qed.

Lemma handleSubmit_failure_witness :
  ∃ d', handleSubmit sampleHandler failedEnv
          (samplePage (sampleControls (Some false) true) (Some "")) = Some (Resolves () d') ∧
        formStatus d' = Some (mkStatus genericError "form-status error" "block") ∧
        controls <$> theForm sampleHandler d' = Some (sampleControls (Some false) true).
Proof.
  destruct failedEnv_run as (d' & Hrun & Hin).
  destruct (handleSubmit_failure sampleHandler failedEnv
              (samplePage (sampleControls (Some false) true) (Some "")) _ sampleButton
              (Resolves () d')
              (samplePage_attached _ _) (samplePage_theForm _ _)
              sampleControls_passes (samplePage_theButton _ _) eq_refl Hrun)
    as (d2 & Heq & Hfs & Hctl & _).
  - eexists. split; [exact Hin|reflexivity].
  - injection Heq as <-. exists d'. split; [exact Hrun|]. split; [exact Hfs|exact Hctl].
Defined.

(** ** The constructor *)

(** C7. For a form id that no element of the page has, the constructor
    does nothing: the handler's [form], [submitButton] and [statusDiv] are
    null and the document is unchanged, so no script was added to the
    head and no submit listener registered ([init] did not run). *)
Theorem constructor_no_form (formId key : string) (d : Document) :
  forms d !! formId = None →
  constructor formId key d = (mkHandler None key None None, d) ∧
  headScripts (constructor formId key d).2 = headScripts d ∧
  submitListeners (constructor formId key d).2 = submitListeners d.
Proof. intros Hnone. unfold constructor. simpl. by rewrite Hnone. Qed.

Lemma constructor_no_form_witness :
  constructor "newsletterForm" "site-key"
              (samplePage (sampleControls (Some false) true) (Some ""))
  = (mkHandler None "site-key" None None,
     samplePage (sampleControls (Some false) true) (Some "")).
Proof.
  apply (constructor_no_form "newsletterForm" "site-key"
           (samplePage (sampleControls (Some false) true) (Some ""))).
  vm_compute. reflexivity.
Defined.

(** With the form in the page, [init] runs: one script, one listener,
    and the handler is attached. *)
Lemma constructor_binds (formId key : string) (d : Document) (f : FormEl) :
  forms d !! formId = Some f →
  ∃ this d', constructor formId key d = (this, d') ∧
             attached this d' ∧ recaptchaSiteKey this = key ∧
             headScripts d' = headScripts d ++
               [mkScript ("https://www.google.com/recaptcha/api.js?render=" +:+ key)
                         true true] ∧
             submitListeners d' = submitListeners d ++ [formId].
Proof.
  intros Hf. unfold constructor, init. simpl. rewrite Hf. simpl. rewrite Hf. simpl.
  eexists _, _. split; [done|]. split; [|done].
  exists formId, f. done.
Qed.

(** ** The status region *)

Lemma hideStatus_hidden this d :
  statusDiv this = Some () →
  formStatus (hideStatus this d)
  = (λ s, mkStatus (textContent s) (className s) "none") <$> formStatus d.
Proof. unfold hideStatus. by intros ->. Qed.

Lemma fire_others this x d : forms (fire this x d) = forms d.
Proof. unfold fire. destruct (callback x); [done|apply hideStatus_forms]. Qed.

(** Once a [hideStatus] timer of the batch has fired the region is
    hidden, and the timers after it leave it hidden. *)
Lemma fired_hidden this (l : list Timer) :
  statusDiv this = Some () →
  ∀ d, is_Some (formStatus d) →
       (display <$> formStatus d = Some "none" ∨
        Exists (λ x, callback x = HideStatusCb) l) →
       display <$> formStatus (foldl (λ d x, fire this x d) d l) = Some "none".
Proof.
  intros Hs. induction l as [|x l IH]; intros d [s0 Hd] Hor.
  - destruct Hor as [H|H]; [done|]. by apply Exists_nil in H.
  - cbn [foldl]. unfold fire at 2. destruct (callback x) eqn:Hx.
    + apply IH; [by eexists|]. destruct Hor as [H|H]; [by left|].
      apply Exists_cons in H as [H|H]; [congruence|by right].
    + apply IH.
      * rewrite hideStatus_hidden, Hd by done. by eexists.
      * left. rewrite hideStatus_hidden, Hd by done. done.
Qed.

Lemma setLoadingState_formStatus this isLoading d :
  formStatus (completionDocument (setLoadingState this isLoading d)) = formStatus d.
Proof.
  unfold setLoadingState. rewrite theButton_emit.
  destruct (theButton this d) as [b|]; [|done].
  destruct isLoading; cbn [completionDocument];
    match goal with |- context [storeButton this ?b ?d] =>
      destruct (storeButton_others this b d) as (-> & _) end; done.
Qed.

(** C8. In a page with a status region:
    - [showStatus] with kind "success" writes the message, shows the
      region and sets one timer of 5000 ms that calls [hideStatus]: once
      the clock has reached that time the region is hidden; with no older
      timer waiting, it is shown until then;
    - [showStatus] with kind "error" writes the message, shows the region
      and sets no timer; the other methods ([setLoadingState], the form
      reset, [getRecaptchaToken]) leave the region as it is, and with no
      timer waiting it stays as it is at any later time: only a later
      [showStatus] or [hideStatus] changes it;
    - the region holds one message: a later [showStatus] replaces it. *)
Theorem showStatus_lifetime (this : Handler) (d : Document) (s0 : StatusDiv)
    (msg : string) :
  statusDiv this = Some () → formStatus d = Some s0 →
  (formStatus (showStatus this msg "success" d)
     = Some (mkStatus msg "form-status success" "block") ∧
   timers (showStatus this msg "success" d)
     = timers d ++ [mkTimer (now d + 5000) HideStatusCb] ∧
   (∀ t, (now d + 5000 ≤ t)%N →
         display <$> formStatus (advance this t (showStatus this msg "success" d))
         = Some "none") ∧
   (timers d = [] → ∀ t, (t < now d + 5000)%N →
         formStatus (advance this t (showStatus this msg "success" d))
         = Some (mkStatus msg "form-status success" "block"))) ∧
  (formStatus (showStatus this msg "error" d)
     = Some (mkStatus msg "form-status error" "block") ∧
   timers (showStatus this msg "error" d) = timers d ∧
   (∀ isLoading,
       formStatus (completionDocument
                     (setLoadingState this isLoading (showStatus this msg "error" d)))
       = formStatus (showStatus this msg "error" d)) ∧
   formStatus (resetForm this (showStatus this msg "error" d))
     = formStatus (showStatus this msg "error" d) ∧
   (∀ env r, getRecaptchaToken this env (showStatus this msg "error" d) = Some r →
             formStatus (finalDocument r) = formStatus (showStatus this msg "error" d)) ∧
   (timers d = [] → ∀ t,
         formStatus (advance this t (showStatus this msg "error" d))
         = Some (mkStatus msg "form-status error" "block"))) ∧
  (∀ kind msg' kind',
      formStatus (showStatus this msg' kind' (showStatus this msg kind d))
      = Some (mkStatus msg' ("form-status " +:+ kind') "block")).
Proof.
  intros Hs Hd.
  assert (Hbound : statusDiv this = (_ ← formStatus d; Some ())) by (by rewrite Hs, Hd).
  assert (Hshow : ∀ m k, formStatus (showStatus this m k d)
                         = Some (mkStatus m ("form-status " +:+ k) "block")).
  { intros m k. rewrite showStatus_formStatus by done. by rewrite Hd. }
  assert (Hsuc : timers (showStatus this msg "success" d)
                 = timers d ++ [mkTimer (now d + 5000) HideStatusCb]).
  { by rewrite showStatus_success_timers, Hs. }
  assert (Herr : timers (showStatus this msg "error" d) = timers d)
    by apply showStatus_error_timers.
  split; [|split].
  - split; [apply Hshow|]. split; [exact Hsuc|]. split.
    + intros t Ht. unfold advance. apply fired_hidden; [done| |].
      * cbn [formStatus set_now set_timers]. rewrite Hshow. by eexists.
      * right. rewrite Hsuc, filter_app.
        apply Exists_app. right.
        rewrite filter_cons_True by (cbn [due]; lia).
        apply Exists_cons. by left.
    + intros Hnil t Ht. unfold advance. rewrite Hsuc, Hnil. cbn [app].
      rewrite (filter_cons_False (λ x, (due x ≤ t)%N)) by (cbn [due]; lia).
      cbn [foldl formStatus set_now set_timers]. apply Hshow.
  - split; [apply Hshow|]. split; [exact Herr|].
    split; [intros l; apply setLoadingState_formStatus|].
    split; [apply resetForm_formStatus|]. split.
    + intros env r Hget. by destruct (getRecaptchaToken_frame _ _ _ _ Hget) as (_ & -> & _).
    + intros Hnil t. unfold advance. rewrite Herr, Hnil.
      cbn [foldl formStatus set_now set_timers]. apply Hshow.
  - intros kind msg' kind'. rewrite showStatus_formStatus.
    + by rewrite showStatus_formStatus, Hd.
    + by apply showStatus_statusBound.
Qed.

Lemma showStatus_lifetime_witness :
  formStatus (showStatus sampleHandler thankYou "success"
                (samplePage (sampleControls (Some false) true) (Some "")))
  = Some (mkStatus thankYou "form-status success" "block") ∧
  timers (showStatus sampleHandler thankYou "success"
            (samplePage (sampleControls (Some false) true) (Some "")))
  = [mkTimer 5000 HideStatusCb].
Proof.
  destruct (showStatus_lifetime sampleHandler
              (samplePage (sampleControls (Some false) true) (Some ""))
              (mkStatus "" "form-status" "none") thankYou eq_refl eq_refl)
    as ((Hshown & Htimers & _) & _).
  split; [exact Hshown|exact Htimers].
Defined.

(** ** What the methods never change: which nodes the page has *)

Lemma shape_eq d d' :
  forms d' = forms d → (is_Some (formStatus d') ↔ is_Some (formStatus d)) →
  shape d' = shape d.
Proof.
  intros Hf Hs. unfold shape. rewrite Hf. f_equal. by apply bool_decide_ext.
Qed.

Lemma shape_emit e d : shape (emit e d) = shape d.
Proof. done. Qed.

Lemma shape_set_recaptchaResponse v d : shape (set_recaptchaResponse v d) = shape d.
Proof. done. Qed.

Lemma shape_showStatus this m t d : shape (showStatus this m t d) = shape d.
Proof.
  apply shape_eq; [apply showStatus_forms|].
  unfold showStatus. destruct (statusDiv this); [|done].
  destruct (decide (t = "success")); simpl; by rewrite fmap_is_Some.
Qed.

Lemma shape_hideStatus this d : shape (hideStatus this d) = shape d.
Proof.
  apply shape_eq; [apply hideStatus_forms|].
  unfold hideStatus. destruct (statusDiv this); [|done]. simpl. by rewrite fmap_is_Some.
Qed.

Lemma shape_alter (g : FormEl → FormEl) id d :
  (∀ f, button (g f) = button f) →
  shape (set_forms (alter g id (forms d)) d) = shape d.
Proof.
  intros Hg. unfold shape. cbn [forms formStatus set_forms]. f_equal.
  apply map_eq. intros i. rewrite !lookup_fmap.
  destruct (decide (id = i)) as [->|Hne].
  - rewrite lookup_alter_eq. destruct (forms d !! i); simpl; [|done]. by rewrite Hg.
  - by rewrite lookup_alter_ne.
Qed.

Lemma shape_resetForm this d : shape (resetForm this d) = shape d.
Proof.
  unfold resetForm. destruct (form this); [|done].
  rewrite shape_alter; done.
Qed.

Lemma shape_edit this c d : shape (edit this c d) = shape d.
Proof. unfold edit. destruct (form this); [|done]. by rewrite shape_alter. Qed.

Lemma shape_storeButton this b b0 d :
  theButton this d = Some b0 → shape (storeButton this b d) = shape d.
Proof.
  unfold theButton, storeButton, shape. destruct (submitButton this) as [id|]; [|done].
  simpl. destruct (forms d !! id) as [f|] eqn:E; [|done]. simpl. intros Hb.
  f_equal. apply map_eq. intros i. rewrite !lookup_fmap.
  destruct (decide (id = i)) as [->|Hne].
  - rewrite lookup_insert_eq, E. simpl. by rewrite Hb.
  - by rewrite lookup_insert_ne.
Qed.

Lemma shape_setLoadingState this isLoading d :
  shape (completionDocument (setLoadingState this isLoading d)) = shape d.
Proof.
  destruct (theButton this d) as [b|] eqn:Hb.
  - rewrite (setLoadingState_button _ _ _ b Hb). cbn [completionDocument].
    by rewrite (shape_storeButton _ _ b).
  - by rewrite (setLoadingState_null _ _ _ Hb).
Qed.

Lemma shape_catch this v d : shape (completionDocument (catch this v d)) = shape d.
Proof.
  destruct v as [e| |]; cbn [catch completionDocument];
    [|by rewrite shape_showStatus|done].
  destruct (decide (message e = ""));
    rewrite ?shape_emit, shape_showStatus, !shape_emit; done.
Qed.

Lemma shape_getRecaptchaToken this env d r :
  getRecaptchaToken this env d = Some r → shape (finalDocument r) = shape d.
Proof.
  intros Hget. destruct (getRecaptchaToken_frame _ _ _ _ Hget) as (Hf & Hs & _).
  apply shape_eq; [done|by rewrite Hs].
Qed.

Lemma shape_fired this (l : list Timer) d :
  shape (foldl (λ d x, fire this x d) d l) = shape d.
Proof.
  revert d. induction l as [|x l IH]; intros d; [done|].
  cbn [foldl]. rewrite IH. unfold fire. destruct (callback x); [done|].
  apply shape_hideStatus.
Qed.

Lemma shape_advance this t d : shape (advance this t d) = shape d.
Proof. unfold advance. by rewrite shape_fired. Qed.

(** [attached] only looks at the shape. *)
Lemma attached_shape this d d' :
  shape d' = shape d → attached this d → attached this d'.
Proof.
  unfold shape. intros [= Hforms Hstatus] (id & f & Hform & Hf & Hb & Hs).
  assert (Hl : (λ f, bool_decide (is_Some (button f))) <$> (forms d' !! id)
               = Some (bool_decide (is_Some (button f)))).
  { rewrite <- lookup_fmap, Hforms, lookup_fmap, Hf. done. }
  destruct (forms d' !! id) as [f'|] eqn:Hf'; [|done].
  injection Hl as Hl.
  exists id, f'. split; [done|]. split; [done|]. split.
  - rewrite Hb. clear -Hl.
    destruct (button f) as [b0|], (button f') as [b1|]; try done; exfalso;
      repeat case_bool_decide; try done;
      match goal with H : ¬ is_Some (Some _) |- _ => destruct H; by eexists
                 | H : is_Some None |- _ => by destruct H end.
  - rewrite Hs. clear -Hstatus.
    destruct (formStatus d) as [s0|], (formStatus d') as [s1|]; try done; exfalso;
      repeat case_bool_decide; try done;
      match goal with H : ¬ is_Some (Some _) |- _ => destruct H; by eexists
                 | H : is_Some None |- _ => by destruct H end.
Qed.

(** ** One submission at a time *)

Lemma edit_theButton this c d : theButton this (edit this c d) = theButton this d.
Proof.
  unfold edit, theButton.
  destruct (submitButton this) as [id'|]; [|done]. simpl.
  destruct (form this) as [id|]; [|done]. simpl.
  destruct (decide (id = id')) as [->|Hne].
  - rewrite lookup_alter_eq. by destruct (forms d !! id').
  - by rewrite lookup_alter_ne.
Qed.

Lemma fired_forms this (l : list Timer) d :
  forms (foldl (λ d x, fire this x d) d l) = forms d.
Proof.
  revert d. induction l as [|x l IH]; intros d; [done|].
  cbn [foldl]. rewrite IH. apply fire_others.
Qed.

Lemma advance_forms this t d : forms (advance this t d) = forms d.
Proof. unfold advance. by rewrite fired_forms. Qed.

Lemma shape_conclude this r :
  shape (finalDocument (conclude this r)) = shape (finalDocument r).
Proof.
  destruct r as [[] d|v d|d]; [| |done].
  - cbn [conclude]. by rewrite finally_document, shape_setLoadingState.
  - by rewrite conclude_document, shape_setLoadingState, shape_catch.
Qed.

Lemma shape_receive this env d : shape (finalDocument (receive this env d)) = shape d.
Proof.
  unfold receive. destruct (fetchOutcome env); try done.
  destruct (jsonOutcome env) as [data| |]; try done.
  destruct (success data); [|done].
  destruct (gtag env); cbn [finalDocument];
    rewrite ?shape_emit, shape_resetForm, shape_showStatus, shape_emit; done.
Qed.

Lemma shape_dispatch this env d r :
  dispatch this env d = Some r →
  match r with
  | Sent d2 => shape d2 = shape d ∧ theButton this d2 = theButton this d
  | NotSent s => shape (finalDocument s) = shape d
  end.
Proof.
  intros Hd. pose proof (dispatch_cases _ _ _ _ Hd) as H. destruct r as [d2|s].
  - destruct H as (token & d1 & f & _ & _ & _ & _ & Hf & Hs & _).
    split; [apply shape_eq; [done|by rewrite Hs]|by apply theButton_forms].
  - destruct H as (_ & Hf & Hs & _). apply shape_eq; [done|by rewrite Hs].
Qed.

(** What [begin] leaves behind. *)
Lemma begin_outcome this d :
  match begin this d with
  | Returned r => shape (finalDocument r) = shape d
  | Loading d0 =>
      shape d0 = shape d ∧
      ∃ b, theButton this d0 = Some b ∧ disabled b = true
  end.
Proof.
  unfold begin. rewrite theForm_emit. destruct (theForm this d) as [f|]; [|done].
  destruct (checkValidity (controls f)); cbn [negb]; cycle 1.
  { cbn [finalDocument]. by rewrite shape_showStatus. }
  destruct (match botcheck (controls f) with Some checked => checked | None => false end).
  { cbn [finalDocument]. by rewrite shape_resetForm, shape_showStatus. }
  destruct (theButton this d) as [b|] eqn:Hb.
  - rewrite (setLoadingState_button _ _ _ b) by (by rewrite theButton_emit).
    split.
    + rewrite shape_hideStatus, (shape_storeButton _ _ b) by (by rewrite !theButton_emit).
      done.
    + exists (loadingLook true b). split; [|done]. by apply (atTry_theButton this b d).
  - rewrite setLoadingState_null by (by rewrite theButton_emit). done.
Qed.

Lemma uiCanSubmit_disabled this d b :
  attached this d → theButton this d = Some b → disabled b = true →
  uiCanSubmit this d = false.
Proof.
  intros Hatt Hb Hdis. destruct (attached_theForm _ _ Hatt) as [f Hf].
  unfold uiCanSubmit. rewrite Hf. cbn [mbind option_bind].
  rewrite <- (attached_theButton _ _ _ Hatt Hf), Hb. by rewrite Hdis.
Qed.

Lemma only_attempt (l : list Phase) (i : nat) (p : Phase) :
  length l ≤ 1 → l !! i = Some p → l = [p] ∧ i = 0.
Proof.
  destruct l as [|q [|q' l]]; simpl; intros Hlen Hi; [done| |lia].
  destruct i as [|i]; [|done]. by injection Hi as ->.
Qed.

Lemma retire_oneInFlight this (s : System) (i : nat) (p : Phase) (r : Settle unit) :
  oneInFlight this s → inflight s !! i = Some p →
  shape (finalDocument r) = shape (doc s) →
  oneInFlight this (retire i r s).
Proof.
  intros (Hatt & Hlen & Hbtn) Hi Hshape.
  destruct (only_attempt _ _ _ Hlen Hi) as [Hl ->].
  destruct r as [a d'|e d'|d']; cbn [retire finalDocument] in *; [| |done].
  - split; [by apply (attached_shape this (doc s))|]. rewrite Hl. simpl. split; [lia|done].
  - split; [by apply (attached_shape this (doc s))|]. rewrite Hl. simpl. split; [lia|done].
Qed.

Lemma step_oneInFlight this (s : System) (ev : Event) :
  oneInFlight this s → oneInFlight this (step this s ev).
Proof.
  intros Hinv. pose proof Hinv as (Hatt & Hlen & Hbtn).
  destruct ev as [|c|t|i env|i env]; cbn [step].
  - destruct (uiCanSubmit this (doc s)) eqn:Hui; [|done].
    assert (Hnil : inflight s = []).
    { destruct (inflight s) as [|p l] eqn:E; [done|].
      destruct Hbtn as (b & Hb & Hdis); [done|].
      rewrite (uiCanSubmit_disabled _ _ _ Hatt Hb Hdis) in Hui. done. }
    pose proof (begin_outcome this (doc s)) as Hbegin.
    destruct (begin this (doc s)) as [r|d0].
    + split; [by apply (attached_shape this (doc s))|]. cbn [inflight].
      rewrite Hnil. simpl. split; [lia|done].
    + destruct Hbegin as (Hshape & b & Hb & Hdis).
      split; [by apply (attached_shape this (doc s))|]. cbn [inflight doc].
      rewrite Hnil. simpl. split; [lia|]. intros _. by exists b.
  - split; [apply (attached_shape this (doc s)); [apply shape_edit|done]|].
    cbn [inflight doc]. split; [done|]. rewrite edit_theButton. exact Hbtn.
  - split; [apply (attached_shape this (doc s)); [apply shape_advance|done]|].
    cbn [inflight doc]. split; [done|].
    rewrite (theButton_forms this (doc s)) by apply advance_forms. exact Hbtn.
  - destruct (inflight s !! i) as [[|]|] eqn:Hi; try done.
    destruct (dispatch this env (doc s)) as [[d2|r]|] eqn:Hd; [| |done].
    + destruct (shape_dispatch _ _ _ _ Hd) as [Hshape Hb2].
      split; [by apply (attached_shape this (doc s))|]. cbn [inflight doc].
      rewrite length_insert. split; [done|]. intros _. rewrite Hb2. apply Hbtn.
      intros Hnil. by rewrite Hnil in Hi.
    + apply (retire_oneInFlight this s i AwaitingToken); [done|done|].
      rewrite shape_conclude. apply (shape_dispatch _ _ _ _ Hd).
  - destruct (inflight s !! i) as [[|]|] eqn:Hi; try done.
    apply (retire_oneInFlight this s i AwaitingResponse); [done|done|].
    by rewrite shape_conclude, shape_receive.
Qed.

Lemma run_oneInFlight this (evs : list Event) :
  ∀ s, oneInFlight this s → oneInFlight this (run this s evs).
Proof.
  induction evs as [|ev evs IH]; intros s Hinv; [done|].
  apply IH. by apply step_oneInFlight.
Qed.

(** C9. Whatever the user, the timers and the network do, in whatever
    order: a controller never has more than one submission in flight,
    hence never more than one request awaiting its answer; while a
    submission is in flight (from the loading state to the end of
    [finally]) the submit button is disabled, and a submit through the
    user interface starts nothing. *)
Theorem one_submission_in_flight (this : Handler) (d : Document) (evs : list Event) :
  attached this d →
  length (inflight (run this (mkSystem d []) evs)) ≤ 1 ∧
  openRequests (run this (mkSystem d []) evs) ≤ 1 ∧
  (inflight (run this (mkSystem d []) evs) ≠ [] →
   (∃ b, theButton this (doc (run this (mkSystem d []) evs)) = Some b ∧
         disabled b = true) ∧
   step this (run this (mkSystem d []) evs) UiSubmit = run this (mkSystem d []) evs).
Proof.
  intros Hatt.
  assert (Hinv : oneInFlight this (run this (mkSystem d []) evs)).
  { apply run_oneInFlight. split; [done|]. simpl. split; [lia|done]. }
  destruct Hinv as (Hatt' & Hlen & Hbtn).
  split; [done|]. split.
  - unfold openRequests. etrans; [apply length_filter|done].
  - intros Hne. destruct (Hbtn Hne) as (b & Hb & Hdis).
    split; [by exists b|]. cbn [step].
    by rewrite (uiCanSubmit_disabled _ _ _ Hatt' Hb Hdis).
Qed.

(** *** The button between attempts *)

Lemma begin_returned_button this d r :
  begin this d = Returned r → theButton this (finalDocument r) = theButton this d.
Proof.
  unfold begin. rewrite theForm_emit. destruct (theForm this d) as [f|].
  - destruct (checkValidity (controls f)); cbn [negb]; cycle 1.
    { intros [= <-]. cbn [finalDocument].
      rewrite (theButton_forms this (emit PreventDefault d)) by apply showStatus_forms.
      apply theButton_emit. }
    destruct (match botcheck (controls f) with Some checked => checked | None => false end).
    { intros [= <-]. cbn [finalDocument]. rewrite resetForm_theButton.
      rewrite (theButton_forms this (emit PreventDefault d)) by apply showStatus_forms.
      apply theButton_emit. }
    destruct (theButton this d) as [b|] eqn:Hb.
    + rewrite (setLoadingState_button _ _ _ b) by (by rewrite theButton_emit). done.
    + rewrite setLoadingState_null by (by rewrite theButton_emit).
      intros [= <-]. cbn [finalDocument]. by rewrite !theButton_emit.
  - intros [= <-]. cbn [finalDocument]. apply theButton_emit.
Qed.

(** An attempt that is over leaves the button, if there is one, idle. *)
Lemma conclude_idle this r :
  match conclude this r with
  | Pending _ => True
  | Resolves _ d' | Rejects _ d' => ∀ b, theButton this d' = Some b → idle b
  end.
Proof.
  destruct (theButton this (finalDocument r)) as [b1|] eqn:Hb1.
  - pose proof (conclude_button this r b1 Hb1) as Hc.
    destruct (conclude this r) as [a d'|e d'|d']; [|destruct Hc as [Hc _]|done];
      intros b Hb; rewrite Hc in Hb; injection Hb as <-; apply loadingLook_idle.
  - destruct r as [[] d1|v d1|d1]; cbn [conclude finalDocument] in *; [| |done].
    + unfold finally. rewrite (setLoadingState_null _ _ _ Hb1).
      intros b. by rewrite theButton_emit, Hb1.
    + assert (theButton this (completionDocument (catch this v d1)) = None) as Hc.
      { rewrite <- Hb1. apply theButton_forms, catch_forms. }
      destruct (catch this v d1) as [d2|e2 d2]; cbn [completionDocument] in Hc;
        unfold finally; rewrite (setLoadingState_null _ _ _ Hc);
        intros b; by rewrite theButton_emit, Hc.
Qed.

Lemma retire_idleAtRest this (s : System) (i : nat) (r : Settle unit) :
  idleAtRest this s → idleAtRest this (retire i (conclude this r) s).
Proof.
  intros Hidle. pose proof (conclude_idle this r) as Hc. unfold retire.
  destruct (conclude this r) as [a d'|e d'|d']; [| |done]; intros _; exact Hc.
Qed.

Lemma step_idleAtRest this (s : System) (ev : Event) :
  idleAtRest this s → idleAtRest this (step this s ev).
Proof.
  intros Hidle. destruct ev as [|c|t|i env|i env]; cbn [step].
  - destruct (uiCanSubmit this (doc s)); [|done].
    destruct (begin this (doc s)) as [r|d0] eqn:Hbegin.
    + intros Hnil b. cbn [inflight doc] in *.
      rewrite (begin_returned_button _ _ _ Hbegin). by apply Hidle.
    + intros Hnil. cbn [inflight] in Hnil. by destruct (inflight s).
  - intros Hnil b. cbn [inflight doc] in *. rewrite edit_theButton. by apply Hidle.
  - intros Hnil b. cbn [inflight doc] in *.
    rewrite (theButton_forms this (doc s)) by apply advance_forms. by apply Hidle.
  - destruct (inflight s !! i) as [[|]|] eqn:Hi; try done.
    destruct (dispatch this env (doc s)) as [[d2|r]|]; [| |done].
    + intros Hnil. cbn [inflight] in Hnil.
      apply (f_equal length) in Hnil. rewrite length_insert in Hnil.
      destruct (inflight s); [done|]. done.
    + by apply retire_idleAtRest.
  - destruct (inflight s !! i) as [[|]|] eqn:Hi; try done.
    by apply retire_idleAtRest.
Qed.

(** From a page whose button is idle, whatever happens: whenever no
    attempt is in flight the button is idle. *)
Lemma button_idle_at_rest (this : Handler) (d : Document) (evs : list Event) :
  (∀ b, theButton this d = Some b → idle b) →
  idleAtRest this (run this (mkSystem d []) evs).
Proof.
  intros Hidle.
  assert (H0 : idleAtRest this (mkSystem d [])) by (intros _; exact Hidle).
  revert H0. generalize (mkSystem d []).
  induction evs as [|ev evs IH]; intros s Hs; [done|].
  apply IH. by apply step_idleAtRest.
Qed.

Lemma one_submission_in_flight_witness :
  length (inflight (run sampleHandler
                        (mkSystem (samplePage (sampleControls (Some false) true) (Some "")) [])
                        [UiSubmit; UiSubmit;
                         TokenSettles 0 (readyEnv JsonSilent GtagUndefined); UiSubmit])) ≤ 1.
Proof.
  apply (one_submission_in_flight sampleHandler
           (samplePage (sampleControls (Some false) true) (Some ""))
           [UiSubmit; UiSubmit; TokenSettles 0 (readyEnv JsonSilent GtagUndefined); UiSubmit]).
  apply samplePage_attached.
Defined.

(** The run of the witness: the second and the last submit start
    nothing, one request is open. *)
Lemma one_submission_in_flight_run :
  let s := run sampleHandler
               (mkSystem (samplePage (sampleControls (Some false) true) (Some "")) [])
               [UiSubmit; UiSubmit;
                TokenSettles 0 (readyEnv JsonSilent GtagUndefined); UiSubmit] in
  inflight s = [AwaitingResponse] ∧ openRequests s = 1 ∧
  length (filter (λ e, isFetch e = true) (log (doc s))) = 1.
Proof. vm_compute. done. Qed.

(** ** The answer says [success: true] *)

Lemma theForm_defaults this d d' :
  (∀ id, defaults <$> (forms d' !! id) = defaults <$> (forms d !! id)) →
  defaults <$> theForm this d' = defaults <$> theForm this d.
Proof. intros H. unfold theForm. destruct (form this) as [id|]; [apply H|done]. Qed.

(** A successful answer: the form is reset whatever [gtag] does; the
    message that stays is the success message when [gtag] is absent or
    returns, and the generic error when [gtag] throws (its exception is
    caught by the [catch] of the submission; a thrown null or undefined
    is left aside here). *)
Lemma handleSubmit_answered_success (this : Handler) (env : Env) (d d2 : Document)
    (f : FormEl) (b : Button) (data : Json) :
  attached this d → theForm this d = Some f → passes f → theButton this d = Some b →
  dispatch this env (atTry this b d) = Some (Sent d2) →
  fetchOutcome env = Responds → jsonOutcome env = Parsed data → success data = true →
  gtag env ≠ GtagThrows Nullish →
  ∃ d', handleSubmit this env d = Some (Resolves () d') ∧
        controls <$> theForm this d' = Some (defaults f) ∧
        theButton this d' = Some (loadingLook false (loadingLook true b)) ∧
        formStatus d'
        = (λ _, match gtag env with
                | GtagThrows _ => mkStatus genericError "form-status error" "block"
                | _ => mkStatus thankYou "form-status success" "block"
                end) <$> formStatus d.
Proof.
  intros Hatt Hf Hp Hb Hd Hfetch Hjson Hsucc Hgtag.
  pose proof (attached_statusDiv _ _ Hatt) as Hs.
  pose proof (dispatch_cases _ _ _ _ Hd)
    as (token & d1 & f0 & _ & _ & _ & _ & Hfo & Hst & _).
  set (d3 := resetForm this (showStatus this thankYou "success" (emit ResponseJson d2))).
  assert (Hs2 : statusDiv this = (_ ← formStatus (emit ResponseJson d2); Some ())).
  { rewrite formStatus_emit, Hst. by apply atTry_statusBound. }
  assert (Hst3 : formStatus d3
                 = (λ _, mkStatus thankYou "form-status success" "block") <$> formStatus d).
  { unfold d3. rewrite resetForm_formStatus, showStatus_formStatus by done.
    rewrite formStatus_emit, Hst, atTry_formStatus by done. by destruct (formStatus d). }
  assert (Hs3 : statusDiv this = (_ ← formStatus d3; Some ())).
  { rewrite Hst3, Hs. by destruct (formStatus d). }
  assert (Hb3 : theButton this d3 = Some (loadingLook true b)).
  { unfold d3. rewrite resetForm_theButton.
    rewrite (theButton_forms this (emit ResponseJson d2)) by apply showStatus_forms.
    rewrite theButton_emit, (theButton_forms this (atTry this b d)) by done.
    by apply atTry_theButton. }
  assert (Hc3 : controls <$> theForm this d3 = Some (defaults f)).
  { unfold d3. rewrite resetForm_theForm.
    rewrite (theForm_forms this (emit ResponseJson d2)) by apply showStatus_forms.
    rewrite theForm_emit, (theForm_forms this (atTry this b d)) by done.
    pose proof (theForm_defaults this d (atTry this b d) (atTry_defaults this b d)) as Hdef.
    rewrite Hf in Hdef. destruct (theForm this (atTry this b d)) as [f1|]; [|done].
    simpl in *. unfold reset. simpl. congruence. }
  assert (Hrec : receive this env d2
                 = match gtag env with
                   | GtagUndefined => Resolves () d3
                   | GtagReturns => Resolves () (emit gtagCall d3)
                   | GtagThrows e => Rejects e (emit gtagCall d3)
                   end).
  { unfold receive. rewrite Hfetch, Hjson, Hsucc. done. }
  assert (Hrun : handleSubmit this env d = Some (conclude this (receive this env d2))).
  { rewrite (handleSubmit_tryBlock this env d f b) by done. unfold tryBlock.
    by rewrite Hd. }
  rewrite Hrun, Hrec. clearbody d3. clear Hrun Hrec.
  destruct (gtag env) as [| |e].
  - destruct (conclude_resolves (λ _, True) this d3 _ Hb3 I)
      as (d' & Hc & Hbtn & Hctl & Hfs & _).
    exists d'. split; [by rewrite Hc|].
    split; [by rewrite (theForm_controls this d3)|]. split; [done|]. by rewrite Hfs.
  - destruct (conclude_resolves (λ _, True) this (emit gtagCall d3) (loadingLook true b))
      as (d' & Hc & Hbtn & Hctl & Hfs & _); [by rewrite theButton_emit|done|].
    exists d'. split; [by rewrite Hc|].
    split; [by rewrite (theForm_controls this (emit gtagCall d3))|].
    split; [done|]. by rewrite Hfs, formStatus_emit.
  - destruct (conclude_rejects (λ _, True) this e (emit gtagCall d3) (loadingLook true b))
      as (d' & Hc & Hbtn & Hctl & Hfs & _); try done.
    { intros ->. by apply Hgtag. }
    exists d'. split; [by rewrite Hc|].
    split; [by rewrite (theForm_controls this (emit gtagCall d3))|].
    split; [done|]. rewrite Hfs, formStatus_emit, Hst3. by destruct (formStatus d).
Qed.

(** C3. A successful submission on the sample page, with [gtag] absent,
    returning and throwing.  The form is reset in the three runs; the
    status region ends with the success message in the first two and with
    the generic error message in the third: what [gtag] does changes what
    the user is told. *)
Theorem gtag_failure_changes_outcome :
  let page := samplePage (sampleControls (Some false) true) (Some "") in
  let answer := Parsed (mkJson true None) in
  let outcome g :=
    (λ r, (formStatus (finalDocument r),
           controls <$> theForm sampleHandler (finalDocument r)))
      <$> handleSubmit sampleHandler (readyEnv answer g) page in
  outcome GtagUndefined
    = Some (Some (mkStatus thankYou "form-status success" "block"), Some blankControls) ∧
  outcome GtagReturns
    = Some (Some (mkStatus thankYou "form-status success" "block"), Some blankControls) ∧
  outcome (GtagThrows (mkError "gtag is not a function"))
    = Some (Some (mkStatus genericError "form-status error" "block"), Some blankControls).
Proof. vm_compute. done. Qed.

(** * Further properties of the handler *)

(** ** The poll, whatever the provider does *)

Lemma filter_replicate_timer (P : Effect → Prop) `{∀ e, Decision (P e)} (n : nat) :
  ¬ P (SetTimeout CheckRecaptchaCb 500) →
  filter P (replicate n (SetTimeout CheckRecaptchaCb 500)) = [].
Proof.
  intros HP. induction n as [|n IH]; [done|].
  simpl. by rewrite filter_cons_False.
Qed.

Lemma filter_replicate_timers (n : nat) :
  filter (λ e, isTimer e = true) (replicate n (SetTimeout CheckRecaptchaCb 500))
  = replicate n (SetTimeout CheckRecaptchaCb 500).
Proof.
  induction n as [|n IH]; [done|]. simpl. rewrite filter_cons_True by done.
  by rewrite IH.
Qed.

(** The timers in the log of a poll. *)
Lemma filter_timers_poll (n : nat) (l : list Effect) :
  Forall (λ e, isTimer e = false) l →
  filter (λ e, isTimer e = true)
         (GetRecaptchaToken :: replicate n (SetTimeout CheckRecaptchaCb 500) ++ l)
  = replicate n (SetTimeout CheckRecaptchaCb 500).
Proof.
  intros Hl. rewrite filter_cons_False by (simpl; congruence).
  rewrite filter_app, filter_replicate_timers.
  assert (filter (λ e, isTimer e = true) l = []) as ->; [|by rewrite app_nil_r].
  induction Hl as [|e l He _ IH]; [done|].
  by rewrite filter_cons_False by congruence.
Qed.

Lemma answered_now this env k d : now (finalDocument (answered this env k d)) = now d.
Proof. by destruct (answered_spec this env k d) as (_ & _ & _ & _ & _ & _ & _ & ->). Qed.

(** The log of a poll that found [grecaptcha] after [k] timers: the
    call of [ready]; the call of [execute] if [ready] runs the callback;
    the note that the token is there if [execute] gave one. *)
Lemma found_issued this env d k :
  issued d (finalDocument (answered this env k (polls k (emit GetRecaptchaToken d))))
  = GetRecaptchaToken :: replicate k (SetTimeout CheckRecaptchaCb 500)
    ++ [Console "log" "reCAPTCHA loaded successfully"; GrecaptchaReady]
    ++ (if executes (provider env)
        then [GrecaptchaExecute (recaptchaSiteKey this) "submit"] else [])
    ++ match provider env with
       | TokenIssued _ => [Console "log" "reCAPTCHA token received"]
       | _ => []
       end.
Proof.
  apply issued_app. unfold answered.
  destruct (provider env) as [|v []| | |]; try destruct (decide (k = 0));
    cbn [finalDocument executes]; rewrite ?log_emit, polls_log, log_emit;
    rewrite <- ?app_assoc; reflexivity.
Qed.

(** When the promise stays pending once [grecaptcha] is there. *)
Lemma answered_pending this env k d :
  (∃ d', answered this env k d = Pending d') ↔ leavesPending (provider env) k.
Proof.
  unfold answered, leavesPending.
  destruct (provider env) as [|v ex| | |]; try destruct (decide (k = 0)); split;
    try done; try (intros _; by eexists); try (by intros [d' ?]).
Qed.

Lemma found_timers this env d k :
  filter (λ e, isTimer e = true)
         (issued d (finalDocument (answered this env k (polls k (emit GetRecaptchaToken d)))))
  = replicate k (SetTimeout CheckRecaptchaCb 500).
Proof.
  rewrite found_issued. apply filter_timers_poll.
  destruct (provider env) as [|v []| | |]; by repeat constructor.
Qed.

Lemma found_ready this env d k :
  GrecaptchaReady
  ∈ issued d (finalDocument (answered this env k (polls k (emit GetRecaptchaToken d)))).
Proof.
  rewrite found_issued. apply list_elem_of_further, elem_of_app. right.
  apply list_elem_of_further, list_elem_of_here.
Qed.

Lemma gaveUp_issued d :
  issued d (emit gaveUpWarning (polls 19 (emit GetRecaptchaToken d)))
  = GetRecaptchaToken :: replicate 19 (SetTimeout CheckRecaptchaCb 500) ++ [gaveUpWarning].
Proof.
  apply issued_app. rewrite log_emit, polls_log, log_emit. by rewrite <- !app_assoc.
Qed.

(** X1. The wait of [getRecaptchaToken] for [grecaptcha] is bounded,
    whatever the environment.  The poll sets [n] timers, [n < 20], each
    of 500 ms, and touches nothing in the page (forms, status region,
    token field, timer queue).  Then either [grecaptcha] has shown at the
    check number [n], for the first time, and [grecaptcha.ready] has
    been called; or it has shown at none of the 20 checks, [n] is 19,
    [ready] was not called and the promise is resolved with ''.  The
    promise is left pending only in the first case, and only by a
    provider that does not answer: how long the provider takes is not
    bounded by anything in [getRecaptchaToken]. *)
Theorem getRecaptchaToken_bounded (this : Handler) (env : Env) (d : Document) :
  ∃ r n, getRecaptchaToken this env d = Some r ∧ n < maxAttempts ∧
         filter (λ e, isTimer e = true) (issued d (finalDocument r))
           = replicate n (SetTimeout CheckRecaptchaCb 500) ∧
         forms (finalDocument r) = forms d ∧
         formStatus (finalDocument r) = formStatus d ∧
         recaptchaResponse (finalDocument r) = recaptchaResponse d ∧
         timers (finalDocument r) = timers d ∧
         ((firstDefinedAt env n ∧ GrecaptchaReady ∈ issued d (finalDocument r)) ∨
          ((∀ j, j < maxAttempts → grecaptchaDefined env j = false) ∧ n = 19 ∧
           (GrecaptchaReady ∉ issued d (finalDocument r)) ∧
           ∃ d', r = Resolves "" d')) ∧
         (∀ d', r = Pending d' →
                firstDefinedAt env n ∧ leavesPending (provider env) n).
Proof.
  destruct (getRecaptchaToken_split this env d) as [(k & Hk & Hget)|[Hno Hget]].
  - exists (answered this env k (polls k (emit GetRecaptchaToken d))), k.
    destruct (getRecaptchaToken_frame this env d _ Hget) as (Hf & Hs & Hr & Ht & _).
    split; [done|]. split; [apply Hk|]. split; [apply found_timers|].
    split; [done|]. split; [done|]. split; [done|]. split; [done|]. split.
    + left. split; [done|apply found_ready].
    + intros d' Hp. split; [done|].
      apply (proj1 (answered_pending this env k (polls k (emit GetRecaptchaToken d)))).
      by eexists.
  - exists (Resolves "" (emit gaveUpWarning (polls 19 (emit GetRecaptchaToken d)))), 19.
    destruct (getRecaptchaToken_frame this env d _ Hget) as (Hf & Hs & Hr & Ht & _).
    split; [done|]. split; [unfold maxAttempts; lia|]. cbn [finalDocument] in *.
    rewrite gaveUp_issued.
    split; [apply filter_timers_poll; by repeat constructor|].
    split; [done|]. split; [done|]. split; [done|]. split; [done|]. split; [|done].
    right. split; [done|]. split; [done|]. split; [|by eexists].
    intros Hin. apply elem_of_cons in Hin as [?|Hin]; [done|].
    apply elem_of_app in Hin as [Hin|Hin].
    + by apply elem_of_replicate in Hin as [? _].
    + apply elem_of_cons in Hin as [?|Hin]; [done|]. by apply elem_of_nil in Hin.
Qed.

(** X2. When [grecaptcha] is first defined at the check number [k]
    (after [k] timers of 500 ms), the poll stops there and calls
    [grecaptcha.ready] once.  [grecaptcha.execute] is called only by the
    callback given to [ready]: once, with the handler's site key and the
    action 'submit', if [ready] runs the callback, and not at all if it
    does not.  The promise follows the provider: resolved with the token
    of [execute], rejected with whatever value [execute] rejects with,
    pending while neither happens.  When the call of [ready] throws, the
    promise is rejected if the call was made by the promise's executor
    ([k = 0]) and left pending if it was made by a timer. *)
Theorem getRecaptchaToken_ready (this : Handler) (env : Env) (d : Document) (k : nat) :
  firstDefinedAt env k →
  ∃ r, getRecaptchaToken this env d = Some r ∧
       issued d (finalDocument r)
       = GetRecaptchaToken :: replicate k (SetTimeout CheckRecaptchaCb 500)
         ++ [Console "log" "reCAPTCHA loaded successfully"; GrecaptchaReady]
         ++ (if executes (provider env)
             then [GrecaptchaExecute (recaptchaSiteKey this) "submit"] else [])
         ++ match provider env with
            | TokenIssued _ => [Console "log" "reCAPTCHA token received"]
            | _ => []
            end ∧
       match provider env with
       | TokenIssued token => ∃ d', r = Resolves token d'
       | ProviderFails v => ∃ d', r = Rejects v d'
       | ReadyThrows v _ =>
           if decide (k = 0) then ∃ d', r = Rejects v d' else ∃ d', r = Pending d'
       | ReadySilent | ProviderSilent => ∃ d', r = Pending d'
       end.
Proof.
  intros Hk. eexists. split; [by apply getRecaptchaToken_found|].
  split; [apply found_issued|].
  unfold answered. destruct (provider env) as [|v ex| | |];
    try destruct (decide (k = 0)); by eexists.
Qed.

Lemma getRecaptchaToken_ready_witness :
  ∃ d', getRecaptchaToken sampleHandler (readyEnv JsonSilent GtagUndefined)
          (samplePage (sampleControls (Some false) true) (Some ""))
        = Some (Resolves "tok" d') ∧
        issued (samplePage (sampleControls (Some false) true) (Some "")) d'
        = [GetRecaptchaToken;
           SetTimeout CheckRecaptchaCb 500; SetTimeout CheckRecaptchaCb 500;
           SetTimeout CheckRecaptchaCb 500;
           Console "log" "reCAPTCHA loaded successfully"; GrecaptchaReady;
           GrecaptchaExecute "site-key" "submit";
           Console "log" "reCAPTCHA token received"].
Proof.
  destruct (getRecaptchaToken_ready sampleHandler (readyEnv JsonSilent GtagUndefined)
              (samplePage (sampleControls (Some false) true) (Some "")) 3)
    as (r & Hget & Hiss & d' & ->).
  - split; [unfold maxAttempts; lia|]. split; [reflexivity|].
    intros [|[|[|j]]] Hj; try reflexivity. lia.
  - exists d'. split; [exact Hget|exact Hiss].
Defined.

(** A provider whose [ready] never runs the callback: [execute] is not
    called, and the promise stays pending. *)
Lemma neverCalledBack_run :
  ∃ d', getRecaptchaToken sampleHandler neverCalledBack
          (samplePage (sampleControls (Some false) true) (Some ""))
        = Some (Pending d') ∧
        issued (samplePage (sampleControls (Some false) true) (Some "")) d'
        = [GetRecaptchaToken; Console "log" "reCAPTCHA loaded successfully";
           GrecaptchaReady].
Proof. eexists. split; vm_compute; reflexivity. Qed.

(** ** [setLoadingState] *)

(** X3. With a submit button, [setLoadingState] never throws, and the
    look it leaves depends only on its argument and on which children
    the button has: after any earlier call, [setLoadingState(l)] leaves
    [disabled = l], the label (if any) at 'none' or 'inline' and the
    spinner (if any) at 'inline-block' or 'none'.  What the label's
    [display] was before the first call is not restored.  The form's
    controls, the status region, the token field and the timers are not
    touched. *)
Theorem setLoadingState_last_call (this : Handler) (l1 l2 : bool) (d : Document)
    (b : Button) :
  theButton this d = Some b →
  ∃ d1 d2 b2,
    setLoadingState this l1 d = Normal d1 ∧ setLoadingState this l2 d1 = Normal d2 ∧
    theButton this d2 = Some b2 ∧
    disabled b2 = l2 ∧
    btnText b2 = (λ _, if l2 then "none" else "inline") <$> btnText b ∧
    btnLoader b2 = (λ _, if l2 then "inline-block" else "none") <$> btnLoader b ∧
    (∀ id, controls <$> (forms d2 !! id) = controls <$> (forms d !! id)) ∧
    formStatus d2 = formStatus d ∧ recaptchaResponse d2 = recaptchaResponse d ∧
    timers d2 = timers d ∧
    issued d d2 = [SetLoadingState l1; SetLoadingState l2].
Proof.
  intros Hb.
  set (d1 := storeButton this (loadingLook l1 b) (emit (SetLoadingState l1) d)).
  assert (Hb1 : theButton this d1 = Some (loadingLook l1 b)).
  { apply (storeButton_theButton _ _ b). by rewrite theButton_emit. }
  set (d2 := storeButton this (loadingLook l2 (loadingLook l1 b))
               (emit (SetLoadingState l2) d1)).
  destruct (storeButton_others this (loadingLook l1 b) (emit (SetLoadingState l1) d))
    as (Hs1 & Hr1 & Ht1 & _ & Hl1).
  destruct (storeButton_others this (loadingLook l2 (loadingLook l1 b))
              (emit (SetLoadingState l2) d1))
    as (Hs2 & Hr2 & Ht2 & _ & Hl2).
  exists d1, d2, (loadingLook l2 (loadingLook l1 b)).
  split; [by apply setLoadingState_button|].
  split; [by apply setLoadingState_button|].
  split; [apply (storeButton_theButton _ _ (loadingLook l1 b)); by rewrite theButton_emit|].
  split; [by destruct l1, l2|].
  split; [clear; destruct l1, l2, b as [? [?|] ?]; reflexivity|].
  split; [clear; destruct l1, l2, b as [? ? [?|]]; reflexivity|].
  split.
  { intros id. unfold d2. rewrite storeButton_controls, forms_emit.
    unfold d1. by rewrite storeButton_controls, forms_emit. }
  unfold d2 at 1 2 3. rewrite Hs2, Hr2, Ht2.
  rewrite formStatus_emit, recaptchaResponse_emit, timers_emit.
  unfold d1 at 1 2 3. rewrite Hs1, Hr1, Ht1.
  rewrite formStatus_emit, recaptchaResponse_emit, timers_emit.
  repeat split; try done.
  apply issued_app. unfold d2. rewrite Hl2, log_emit. unfold d1.
  rewrite Hl1, log_emit. by rewrite <- app_assoc.
Qed.

Lemma setLoadingState_last_call_witness :
  ∃ d1 d2 b2,
    setLoadingState sampleHandler true
      (samplePage (sampleControls (Some false) true) (Some "")) = Normal d1 ∧
    setLoadingState sampleHandler false d1 = Normal d2 ∧
    theButton sampleHandler d2 = Some b2 ∧
    disabled b2 = false ∧ btnText b2 = Some "inline" ∧ btnLoader b2 = Some "none".
Proof.
  destruct (setLoadingState_last_call sampleHandler true false
              (samplePage (sampleControls (Some false) true) (Some "")) sampleButton
              (samplePage_theButton _ _))
    as (d1 & d2 & b2 & H1 & H2 & Hb & Hd & Ht & Hl & _).
  exists d1, d2, b2. repeat split; assumption.
Defined.

(** ** A form without a submit button *)

Lemma noButtonPage_attached (c : Controls) : attached noButtonHandler (noButtonPage c).
Proof.
  exists "contactForm", (mkForm c blankControls None).
  split; [done|]. split; [apply lookup_singleton_eq|]. done.
Qed.

Lemma noButtonPage_theForm (c : Controls) :
  theForm noButtonHandler (noButtonPage c) = Some (mkForm c blankControls None).
Proof. apply lookup_singleton_eq. Qed.

Lemma noButtonPage_passes :
  passes (mkForm (sampleControls (Some false) true) blankControls None).
Proof. split; done. Qed.

(** X4. When the form has no [button[type="submit"]], a submission that
    passes validation and the honeypot check dies at
    [setLoadingState(true)], before the [try] block: the promise of
    [handleSubmit] is rejected with the TypeError, the native submission
    has been suppressed, and nothing else happened: no message, no
    token, no request, the form as it was. *)
Theorem handleSubmit_no_button (this : Handler) (env : Env) (d : Document) (f : FormEl) :
  attached this d → theForm this d = Some f → passes f → button f = None →
  ∃ d', handleSubmit this env d = Some (Rejects TypeError d') ∧
        issued d d' = [PreventDefault; SetLoadingState true] ∧
        forms d' = forms d ∧ formStatus d' = formStatus d ∧
        recaptchaResponse d' = recaptchaResponse d ∧ timers d' = timers d.
Proof.
  intros Hatt Hf Hp Hnone.
  assert (Hb : theButton this d = None) by (by rewrite (attached_theButton _ _ f)).
  exists (emit (SetLoadingState true) (emit PreventDefault d)). split.
  - unfold handleSubmit. rewrite (begin_passes this d f Hf Hp).
    rewrite setLoadingState_null by (by rewrite theButton_emit). done.
  - split; [|done]. apply issued_app. rewrite !log_emit. by rewrite <- app_assoc.
Qed.

Lemma handleSubmit_no_button_witness :
  ∃ d', handleSubmit noButtonHandler neverReady
          (noButtonPage (sampleControls (Some false) true))
        = Some (Rejects TypeError d') ∧
        issued (noButtonPage (sampleControls (Some false) true)) d'
        = [PreventDefault; SetLoadingState true].
Proof.
  destruct (handleSubmit_no_button noButtonHandler neverReady
              (noButtonPage (sampleControls (Some false) true)) _
              (noButtonPage_attached _) (noButtonPage_theForm _)
              noButtonPage_passes
              eq_refl)
    as (d' & Hrun & Hiss & _).
  exists d'. split; [exact Hrun|exact Hiss].
Defined.

(** ** Timers that outlive their message *)

Lemma fired_text this (l : list Timer) :
  statusDiv this = Some () →
  ∀ d s, formStatus d = Some s →
         ∃ disp, formStatus (foldl (λ d x, fire this x d) d l)
                 = Some (mkStatus (textContent s) (className s) disp).
Proof.
  intros Hs. induction l as [|x l IH]; intros d s Hd.
  - exists (display s). cbn [foldl]. rewrite Hd. by destruct s.
  - cbn [foldl]. unfold fire at 2. destruct (callback x); [by apply IH|].
    apply (IH _ (mkStatus (textContent s) (className s) "none")).
    by rewrite hideStatus_hidden, Hd.
Qed.

(** X5. The timer of a success message is never cancelled.  If another
    message, of any kind, is shown before the 5 s are over, then at the
    time the first timer is due the region is hidden with the later
    message in it: an error shown within 5 s of a success does not
    stay. *)
Theorem stale_timer_hides (this : Handler) (d : Document) (s0 : StatusDiv)
    (msg msg' kind : string) (t : N) :
  statusDiv this = Some () → formStatus d = Some s0 → (now d + 5000 ≤ t)%N →
  formStatus (advance this t (showStatus this msg' kind (showStatus this msg "success" d)))
  = Some (mkStatus msg' ("form-status " +:+ kind) "none").
Proof.
  intros Hs Hd Ht.
  set (d1 := showStatus this msg "success" d).
  assert (Hb1 : statusDiv this = (_ ← formStatus d1; Some ())).
  { apply showStatus_statusBound. by rewrite Hs, Hd. }
  set (d2 := showStatus this msg' kind d1).
  assert (Hst2 : formStatus d2 = Some (mkStatus msg' ("form-status " +:+ kind) "block")).
  { unfold d2. rewrite showStatus_formStatus by done.
    unfold d1. rewrite showStatus_formStatus by (by rewrite Hs, Hd). by rewrite Hd. }
  assert (Hin : mkTimer (now d + 5000) HideStatusCb ∈ timers d2).
  { assert (mkTimer (now d + 5000) HideStatusCb ∈ timers d1) as H1.
    { unfold d1. rewrite showStatus_success_timers, Hs. set_solver. }
    unfold d2, showStatus. rewrite Hs.
    destruct (decide (kind = "success")); [|exact H1].
    unfold setTimeout. rewrite timers_emit. simpl. set_solver. }
  clearbody d2. unfold advance.
  set (start := set_now (N.max (now d2) t)
                  (set_timers (filter (λ x, ¬ (due x ≤ t)%N) (timers d2)) d2)).
  assert (Hstart : formStatus start = formStatus d2) by done.
  clearbody start.
  destruct (fired_text this (filter (λ x, (due x ≤ t)%N) (timers d2)) Hs start _
              (eq_trans Hstart Hst2)) as (disp & Htext).
  pose proof (fired_hidden this (filter (λ x, (due x ≤ t)%N) (timers d2)) Hs start) as Hhid.
  rewrite Htext in Hhid |- *. simpl in Hhid.
  assert (Some disp = Some "none") as [= ->]; [|done].
  apply Hhid.
  - rewrite Hstart, Hst2. by eexists.
  - right. apply Exists_exists. exists (mkTimer (now d + 5000) HideStatusCb).
    split; [|done]. apply list_elem_of_filter. split; [simpl; lia|done].
Qed.

Lemma stale_timer_hides_witness :
  formStatus (advance sampleHandler 5000
                (showStatus sampleHandler pleaseFill "error"
                   (showStatus sampleHandler thankYouBot "success"
                      (samplePage (sampleControls (Some false) true) (Some "")))))
  = Some (mkStatus pleaseFill "form-status error" "none").
Proof.
  apply (stale_timer_hides sampleHandler
           (samplePage (sampleControls (Some false) true) (Some ""))
           (mkStatus "" "form-status" "none") thankYouBot pleaseFill "error" 5000).
  - reflexivity.
  - reflexivity.
  - vm_compute. discriminate.
Defined.

(** ** The log of a whole attempt *)

Lemma issued_trans (P Q : Effect → Prop) d1 d2 d3 :
  extends P d1 d2 → extends Q d2 d3 → issued d1 d3 = issued d1 d2 ++ issued d2 d3.
Proof.
  intros (l1 & H1 & _) (l2 & H2 & _).
  rewrite (issued_app d1 d2 l1 H1), (issued_app d2 d3 l2 H2).
  apply issued_app. by rewrite H2, H1, app_assoc.
Qed.

Lemma extends_receive (P : Effect → Prop) this env d :
  P ResponseJson → P (ShowStatus thankYou "success") →
  P (SetTimeout HideStatusCb 5000) → P FormReset → P gtagCall →
  extends P d (finalDocument (receive this env d)).
Proof.
  intros H1 H2 H3 H4 H5. unfold receive.
  destruct (fetchOutcome env); try apply extends_refl.
  destruct (jsonOutcome env) as [data| |]; try (by apply extends_emit).
  destruct (success data); [|by apply extends_emit].
  assert (extends P d (resetForm this (showStatus this thankYou "success"
                                         (emit ResponseJson d)))) as H.
  { apply (extends_trans P _ (emit ResponseJson d)); [by apply extends_emit|].
    apply (extends_trans P _ (showStatus this thankYou "success" (emit ResponseJson d)));
      [by apply extends_showStatus|by apply extends_resetForm]. }
  destruct (gtag env); cbn [finalDocument]; [done| |];
    (eapply extends_trans; [exact H|by apply extends_emit]).
Qed.

Lemma extends_begin (P : Effect → Prop) this d :
  P (ShowStatus pleaseFill "error") → P (ShowStatus thankYouBot "success") →
  P (SetTimeout HideStatusCb 5000) → P FormReset →
  P (SetLoadingState true) → P HideStatus →
  match begin this d with
  | Returned r => extends P (emit PreventDefault d) (finalDocument r)
  | Loading d0 => extends P (emit PreventDefault d) d0
  end.
Proof.
  intros H1 H2 H3 H4 H5 H6. unfold begin. rewrite theForm_emit.
  destruct (theForm this d) as [f|]; [|apply extends_refl].
  destruct (checkValidity (controls f)); cbn [negb finalDocument];
    [|by apply extends_showStatus].
  destruct (match botcheck (controls f) with Some checked => checked | None => false end).
  { cbn [finalDocument].
    apply (extends_trans P _ (showStatus this thankYouBot "success" (emit PreventDefault d)));
      [by apply extends_showStatus|by apply extends_resetForm]. }
  pose proof (extends_setLoadingState P this true (emit PreventDefault d) H5) as Hl.
  destruct (setLoadingState this true (emit PreventDefault d)) as [d1|e d1];
    cbn [completionDocument finalDocument] in *; [|done].
  eapply extends_trans; [exact Hl|by apply extends_hideStatus].
Qed.

Lemma filter_notFetch (l : list Effect) :
  Forall notFetch l → filter (λ e, isFetch e = true) l = [].
Proof.
  induction 1 as [|e l He _ IH]; [done|].
  rewrite filter_cons_False by (unfold notFetch in He; congruence). done.
Qed.

(** The run of [handleSubmit] in three parts: [preventDefault], then
    effects that are no request, then nothing more or the one request
    and effects that are no request. *)
Lemma handleSubmit_log this env d r :
  handleSubmit this env d = Some r →
  ∃ l1 l2, issued d (finalDocument r) = PreventDefault :: l1 ++ l2 ∧
           Forall notFetch l1 ∧
           (l2 = [] ∨ ∃ body l3, l2 = Fetch submitUrl "POST" body :: l3 ∧
                                 Forall notFetch l3).
Proof.
  unfold handleSubmit. intros Hrun.
  assert (Hpd : ∀ d' l, log d' = log (emit PreventDefault d) ++ l →
                        issued d d' = PreventDefault :: l).
  { intros d' l Hl. apply issued_app. rewrite Hl, log_emit. by rewrite <- app_assoc. }
  pose proof (extends_begin notFetch this d) as Hbegin.
  destruct (begin this d) as [s|d0].
  - injection Hrun as <-. destruct Hbegin as (l & Hl & HF); [done..|].
    exists l, []. rewrite app_nil_r. split; [by apply Hpd|]. split; [done|by left].
  - destruct Hbegin as (l0 & Hl0 & HF0); [done..|].
    unfold tryBlock in Hrun.
    destruct (dispatch this env d0) as [[d2|s]|] eqn:Hd; [| |done];
      cbn [mbind option_bind fmap option_fmap option_map] in Hrun;
      injection Hrun as <-; pose proof (dispatch_cases _ _ _ _ Hd) as Hcases.
    + destruct Hcases as (token & d1 & f & _ & _ & _ & Hd2 & _ & _ & _ & _ & Hpoll).
      apply (isPollEffect_impl notFetch) in Hpoll; [|done..].
      destruct Hpoll as (l1 & Hl1 & HF1).
      assert (extends notFetch d2
                (finalDocument (conclude this (receive this env d2)))) as (l3 & Hl3 & HF3).
      { apply (extends_trans _ _ (finalDocument (receive this env d2)));
          [by apply extends_receive|by apply extends_conclude]. }
      exists (l0 ++ l1), (Fetch submitUrl "POST"
                            (FormData f (set_recaptchaResponse (Some token) d1)) :: l3).
      split; [|split; [by apply Forall_app|right; by eexists _, _]].
      apply Hpd. rewrite Hl3, Hd2, log_emit, log_set_recaptchaResponse, Hl1, Hl0.
      rewrite <- !app_assoc. done.
    + destruct Hcases as (_ & _ & _ & _ & Hpoll).
      apply (isPollEffect_impl notFetch) in Hpoll; [|done..].
      destruct Hpoll as (l1 & Hl1 & HF1).
      destruct (extends_conclude notFetch this s) as (l3 & Hl3 & HF3); [done..|].
      exists (l0 ++ l1 ++ l3), []. rewrite app_nil_r.
      split; [|split; [rewrite !Forall_app; done|by left]].
      apply Hpd. rewrite Hl3, Hl1, Hl0. by rewrite <- !app_assoc.
Qed.

(** X6. Whatever the page and the environment, one call of
    [handleSubmit] first suppresses the native submission, sends at most
    one request, and that one by POST to the Web3Forms endpoint; and it
    never adds or removes a node of the page (which forms have a submit
    button, whether there is a status region). *)
Theorem handleSubmit_footprint (this : Handler) (env : Env) (d : Document) :
  ∃ r, handleSubmit this env d = Some r ∧
       (∃ l, issued d (finalDocument r) = PreventDefault :: l) ∧
       (filter (λ e, isFetch e = true) (issued d (finalDocument r)) = [] ∨
        ∃ body, filter (λ e, isFetch e = true) (issued d (finalDocument r))
                = [Fetch submitUrl "POST" body]) ∧
       shape (finalDocument r) = shape d.
Proof.
  destruct (handleSubmit_total this env d) as [r Hrun]. exists r. split; [done|].
  destruct (handleSubmit_log this env d r Hrun) as (l1 & l2 & Hiss & HF1 & Hl2).
  split; [by eexists|]. split.
  - rewrite Hiss. rewrite filter_cons_False by (simpl; congruence).
    rewrite filter_app, (filter_notFetch l1 HF1). cbn [app].
    destruct Hl2 as [->|(body & l3 & -> & HF3)]; [by left|right].
    exists body. rewrite filter_cons_True by done. by rewrite (filter_notFetch l3 HF3).
  - revert Hrun. unfold handleSubmit.
    pose proof (begin_outcome this d) as Hbegin.
    destruct (begin this d) as [s|d0]; [by intros [= <-]|].
    destruct Hbegin as [Hshape _]. unfold tryBlock.
    destruct (dispatch this env d0) as [[d2|s]|] eqn:Hd; [| |done];
      cbn [mbind option_bind fmap option_fmap option_map]; intros [= <-];
      pose proof (shape_dispatch _ _ _ _ Hd) as Hsd.
    + destruct Hsd as [Hsd _]. by rewrite shape_conclude, shape_receive, Hsd.
    + by rewrite shape_conclude, Hsd.
Qed.

(** ** Attempts that reach the provider *)

Lemma atTry_theForm this b d f :
  attached this d → theForm this d = Some f → theButton this d = Some b →
  theForm this (atTry this b d)
  = Some (mkForm (controls f) (defaults f) (Some (loadingLook true b))).
Proof.
  intros (id & f' & Hform & Hf' & Hsb & _) Hf Hb.
  assert (f' = f) as ->.
  { unfold theForm in Hf. rewrite Hform in Hf. simpl in Hf. congruence. }
  assert (submitButton this = Some id) as Hsb'.
  { rewrite Hsb. unfold theButton in Hb. rewrite Hsb in Hb.
    destruct (button f); [done|]. done. }
  unfold atTry, theForm. rewrite Hform. cbn [mbind option_bind].
  rewrite hideStatus_forms. unfold storeButton. rewrite Hsb', !forms_emit, Hf'.
  cbn [forms set_forms]. by rewrite lookup_insert_eq.
Qed.

Lemma passes_FormData f0 f d token :
  controls f0 = controls f → passes f → recaptchaResponse d = Some token →
  FormData f0 d = fields (controls f) ++ [("recaptchaResponse", token)].
Proof.
  intros Hc [_ Hbot] Hr. unfold FormData. rewrite Hc, Hr.
  by destruct (botcheck (controls f)) as [[]|].
Qed.

Section Sent.
Variables (this : Handler) (env : Env) (d : Document) (f : FormEl) (b : Button).
Variables (v token : string) (k : nat).
Hypothesis Hatt : attached this d.
Hypothesis Hf : theForm this d = Some f.
Hypothesis Hp : passes f.
Hypothesis Hb : theButton this d = Some b.
Hypothesis Hv : recaptchaResponse d = Some v.
Hypothesis Htok : tokenAfter env k token.

(** The request of an attempt whose token promise resolved. *)
Lemma dispatch_sent :
  ∃ d2 l, dispatch this env (atTry this b d) = Some (Sent d2) ∧
          recaptchaResponse d2 = Some token ∧ timers d2 = timers d ∧
          now d2 = (now d + 500 * N.of_nat k)%N ∧
          forms d2 = forms (atTry this b d) ∧
          formStatus d2 = formStatus (atTry this b d) ∧
          issued d d2 = l ++ [Fetch submitUrl "POST"
                                (fields (controls f) ++ [("recaptchaResponse", token)])].
Proof.
  destruct (tokenAfter_resolves this env (atTry this b d) k token Htok) as (d1 & Hget & Hnow).
  destruct (getRecaptchaToken_frame _ _ _ _ Hget) as (Hfo & Hst & Hrr & Htm & Hext).
  cbn [finalDocument] in *.
  destruct (atTry_others this b d) as (Hrr0 & Htm0 & Hnow0).
  pose proof (atTry_theForm this b d f Hatt Hf Hb) as Hf0.
  assert (Hd : dispatch this env (atTry this b d)
               = Some (Sent (emit (Fetch submitUrl "POST"
                                     (fields (controls f) ++ [("recaptchaResponse", token)]))
                                  (set_recaptchaResponse (Some token) d1)))).
  { rewrite (dispatch_resolved this env _ token d1
               (mkForm (controls f) (defaults f) (Some (loadingLook true b))) v Hget).
    - rewrite (passes_FormData _ f _ token); done.
    - by rewrite Hrr, Hrr0.
    - by rewrite (theForm_forms this (atTry this b d)). }
  destruct (extends_trans (λ _, True) d (atTry this b d) d1) as (l & Hl & _).
  { by apply extends_atTry. }
  { by apply isPollEffect_impl. }
  eexists _, l. split; [exact Hd|].
  rewrite recaptchaResponse_emit, recaptchaResponse_set, timers_emit,
    timers_set_recaptchaResponse, now_emit, now_set_recaptchaResponse,
    forms_emit, formStatus_emit, formStatus_set_recaptchaResponse.
  change (forms (set_recaptchaResponse (Some token) d1)) with (forms d1).
  rewrite Htm, Htm0, Hnow, Hnow0, Hfo, Hst.
  repeat split; try done.
  apply issued_app. by rewrite log_emit, log_set_recaptchaResponse, Hl, app_assoc.
Qed.
End Sent.

Lemma elem_of_issued_trans (P Q : Effect → Prop) d1 d2 d3 e :
  extends P d1 d2 → extends Q d2 d3 → e ∈ issued d1 d2 → e ∈ issued d1 d3.
Proof.
  intros H1 H2 Hin. rewrite (issued_trans P Q d1 d2 d3 H1 H2). set_solver.
Qed.

(** X7. A submission that passes the checks, gets its token (issued by
    the provider, or the empty one after the poll gave up) and is
    answered [success: true], with [gtag] absent or returning: the
    promise resolves; the request went by POST to the endpoint with the
    form's fields and the token; the token is in the field
    [recaptchaResponse]; the success message is shown with its hide timer
    due 5 s after the answer; the form is reset to its defaults; the
    button is idle again. *)
Theorem handleSubmit_success (this : Handler) (env : Env) (d : Document)
    (f : FormEl) (b : Button) (v token : string) (k : nat) (data : Json) :
  attached this d → theForm this d = Some f → passes f → theButton this d = Some b →
  recaptchaResponse d = Some v → tokenAfter env k token →
  fetchOutcome env = Responds → jsonOutcome env = Parsed data → success data = true →
  (∀ e, gtag env ≠ GtagThrows e) →
  ∃ d' b', handleSubmit this env d = Some (Resolves () d') ∧
           formStatus d' = (λ _, mkStatus thankYou "form-status success" "block")
                             <$> formStatus d ∧
           controls <$> theForm this d' = Some (defaults f) ∧
           theButton this d' = Some b' ∧ idle b' ∧
           recaptchaResponse d' = Some token ∧
           timers d' = timers d ++
                       match formStatus d with
                       | Some _ => [mkTimer (now d + 500 * N.of_nat k + 5000) HideStatusCb]
                       | None => []
                       end ∧
           Fetch submitUrl "POST" (fields (controls f) ++ [("recaptchaResponse", token)])
             ∈ issued d d'.
Proof.
  intros Hatt Hf Hp Hb Hv Htok Hfetch Hjson Hsucc Hgtag.
  pose proof (attached_statusDiv _ _ Hatt) as Hs.
  destruct (dispatch_sent this env d f b v token k Hatt Hf Hp Hb Hv Htok)
    as (d2 & l & Hd & Hrr2 & Htm2 & Hnow2 & Hfo2 & Hst2 & Hiss2).
  set (d3 := resetForm this (showStatus this thankYou "success" (emit ResponseJson d2))).
  assert (Hbound2 : statusDiv this = (_ ← formStatus (emit ResponseJson d2); Some ())).
  { rewrite formStatus_emit, Hst2. by apply atTry_statusBound. }
  assert (Hst3 : formStatus d3
                 = (λ _, mkStatus thankYou "form-status success" "block") <$> formStatus d).
  { unfold d3. rewrite resetForm_formStatus, showStatus_formStatus by done.
    rewrite formStatus_emit, Hst2, atTry_formStatus by done. by destruct (formStatus d). }
  assert (Hb3 : theButton this d3 = Some (loadingLook true b)).
  { unfold d3. rewrite resetForm_theButton.
    rewrite (theButton_forms this (emit ResponseJson d2)) by apply showStatus_forms.
    rewrite theButton_emit, (theButton_forms this (atTry this b d)) by done.
    by apply atTry_theButton. }
  assert (Hc3 : controls <$> theForm this d3 = Some (defaults f)).
  { unfold d3. rewrite resetForm_theForm.
    rewrite (theForm_forms this (emit ResponseJson d2)) by apply showStatus_forms.
    rewrite theForm_emit, (theForm_forms this (atTry this b d)) by done.
    by rewrite (atTry_theForm this b d f). }
  assert (Hrr3 : recaptchaResponse d3 = Some token).
  { unfold d3. by rewrite resetForm_recaptchaResponse, showStatus_recaptchaResponse,
      recaptchaResponse_emit. }
  assert (Htm3 : timers d3 = timers d ++
                   match formStatus d with
                   | Some _ => [mkTimer (now d + 500 * N.of_nat k + 5000) HideStatusCb]
                   | None => []
                   end).
  { unfold d3. rewrite resetForm_timers, showStatus_success_timers, timers_emit,
      now_emit, Htm2, Hnow2, Hs. by destruct (formStatus d). }
  assert (Hext3 : extends (λ _, True) d2 d3).
  { unfold d3.
    apply (extends_trans _ _ (emit ResponseJson d2)); [by apply extends_emit|].
    apply (extends_trans _ _ (showStatus this thankYou "success" (emit ResponseJson d2)));
      [by apply extends_showStatus|by apply extends_resetForm]. }
  assert (Hext2 : extends (λ _, True) d d2).
  { destruct (dispatch_cases _ _ _ _ Hd) as (t & d1 & f0 & _ & _ & _ & Hd2 & _ & _ & _ & _ & Hpoll).
    apply (extends_trans _ _ (atTry this b d)); [by apply extends_atTry|].
    apply (extends_trans _ _ d1); [by apply isPollEffect_impl|].
    rewrite Hd2. exists [Fetch submitUrl "POST"
                           (FormData f0 (set_recaptchaResponse (Some t) d1))].
    split; [by rewrite log_emit, log_set_recaptchaResponse|by repeat constructor]. }
  assert (Hin2 : Fetch submitUrl "POST"
                   (fields (controls f) ++ [("recaptchaResponse", token)])
                 ∈ issued d d2).
  { rewrite Hiss2. set_solver. }
  assert (Hrun : handleSubmit this env d = Some (conclude this (receive this env d2))).
  { rewrite (handleSubmit_tryBlock this env d f b) by done. unfold tryBlock.
    by rewrite Hd. }
  assert (Hrec : ∃ d4, receive this env d2 = Resolves () d4 ∧
                       theButton this d4 = theButton this d3 ∧
                       (∀ id, controls <$> (forms d4 !! id) = controls <$> (forms d3 !! id)) ∧
                       formStatus d4 = formStatus d3 ∧
                       recaptchaResponse d4 = recaptchaResponse d3 ∧
                       timers d4 = timers d3 ∧ extends (λ _, True) d3 d4).
  { unfold receive. rewrite Hfetch, Hjson, Hsucc. fold d3.
    destruct (gtag env) as [| |e].
    - exists d3. repeat split; try done. apply extends_refl.
    - exists (emit gtagCall d3). repeat split; try done. by apply extends_emit.
    - by destruct (Hgtag e). }
  destruct Hrec as (d4 & Hrec & Hb4 & Hc4 & Hst4 & Hrr4 & Htm4 & Hext4).
  clearbody d3.
  destruct (conclude_resolves (λ _, True) this d4 (loadingLook true b))
    as (d' & Hc & Hbtn & Hctl & Hfs & Hrr & Htm & Hext); [by rewrite Hb4|done|].
  exists d', (loadingLook false (loadingLook true b)).
  split; [by rewrite Hrun, Hrec, Hc|].
  split; [by rewrite Hfs, Hst4|].
  split; [by rewrite (theForm_controls this d4), (theForm_controls this d3)|].
  split; [done|]. split; [apply loadingLook_idle|].
  split; [by rewrite Hrr, Hrr4|]. split; [by rewrite Htm, Htm4|].
  apply (elem_of_issued_trans (λ _, True) (λ _, True) d d2 d'); [done| |done].
  apply (extends_trans _ _ d3); [done|]. by apply (extends_trans _ _ d4).
Qed.

Lemma readyEnv_tokenAfter (j : JsonOutcome) (g : GtagGlobal) :
  tokenAfter (readyEnv j g) 3 "tok".
Proof.
  left. split; [|done]. split; [unfold maxAttempts; lia|]. split; [done|].
  intros [|[|[|i]]] Hi; try done. lia.
Qed.

Lemma handleSubmit_success_witness :
  ∃ d', handleSubmit sampleHandler (readyEnv (Parsed (mkJson true None)) GtagReturns)
          (samplePage (sampleControls (Some false) true) (Some ""))
        = Some (Resolves () d') ∧
        controls <$> theForm sampleHandler d' = Some blankControls ∧
        timers d' = [mkTimer 6500 HideStatusCb].
Proof.
  destruct (handleSubmit_success sampleHandler
              (readyEnv (Parsed (mkJson true None)) GtagReturns)
              (samplePage (sampleControls (Some false) true) (Some ""))
              _ sampleButton "" "tok" 3 (mkJson true None)
              (samplePage_attached _ _) (samplePage_theForm _ _) sampleControls_passes
              (samplePage_theButton _ _) eq_refl (readyEnv_tokenAfter _ _)
              eq_refl eq_refl eq_refl)
    as (d' & b' & Hrun & _ & Hctl & _ & _ & _ & Htm & _).
  - intros e. discriminate.
  - exists d'. split; [exact Hrun|]. split; [exact Hctl|exact Htm].
Defined.

(** ** What [catch] tells the console *)

Lemma elem_of_issued_suffix (P Q : Effect → Prop) d1 d2 d3 e :
  extends P d1 d2 → extends Q d2 d3 → e ∈ issued d2 d3 → e ∈ issued d1 d3.
Proof.
  intros H1 H2 Hin. rewrite (issued_trans P Q d1 d2 d3 H1 H2). set_solver.
Qed.

Lemma setLoadingState_log this isLoading d :
  log (completionDocument (setLoadingState this isLoading d))
  = log d ++ [SetLoadingState isLoading].
Proof.
  destruct (theButton this d) as [b|] eqn:Hb.
  - rewrite (setLoadingState_button _ _ _ b Hb). cbn [completionDocument].
    destruct (storeButton_others this (loadingLook isLoading b)
                (emit (SetLoadingState isLoading) d)) as (_ & _ & _ & _ & ->).
    apply log_emit.
  - rewrite (setLoadingState_null _ _ _ Hb). apply log_emit.
Qed.

(** What [catch] and [finally] do after an [Error] object was thrown. *)
Lemma conclude_caught_issued this (e : Error) d :
  issued d (finalDocument (conclude this (Rejects e d)))
  = [Console "error" "Form submission error:";
     Console "error" ("Error details: " +:+ message e);
     ShowStatus genericError "error"]
    ++ (if decide (message e = "") then []
        else [Console "error" ("Error message: " +:+ message e)])
    ++ [SetLoadingState false].
Proof.
  apply issued_app. rewrite conclude_document, catch_raised. cbn [completionDocument].
  rewrite setLoadingState_log, catch_log. by rewrite <- !app_assoc.
Qed.

(** An exception in the [try] block reaches the console with its
    message, or with 'undefined' when the value thrown has none. *)
Lemma conclude_details this (v : Thrown) d :
  v ≠ Nullish →
  Console "error" ("Error details: " +:+ errorDetails v)
  ∈ issued d (finalDocument (conclude this (Rejects v d))).
Proof.
  intros Hv. rewrite conclude_document.
  apply (elem_of_issued_trans (λ _, True) (λ _, True) d (completionDocument (catch this v d))).
  - by apply extends_catch.
  - by apply extends_setLoadingState.
  - destruct v as [e| |]; cbn [catch completionDocument errorDetails]; [| |done].
    + fold (caught this e d).
      rewrite (issued_app d (caught this e d) _ (catch_log this e d)). set_solver.
    + erewrite issued_app;
        [|rewrite showStatus_error_log, !log_emit, <- !app_assoc; reflexivity].
      set_solver.
Qed.

Lemma conclude_console this (e : Error) d :
  Console "error" ("Error details: " +:+ message e)
  ∈ issued d (finalDocument (conclude this (Rejects e d))).
Proof. by apply (conclude_details this e d). Qed.

(** ** Attempts that come to an end *)

Lemma begin_not_pending this d r d' : begin this d = Returned r → r ≠ Pending d'.
Proof.
  unfold begin. destruct (theForm this (emit PreventDefault d)) as [f|];
    [|by intros [= <-]].
  destruct (negb (checkValidity (controls f))); [by intros [= <-]|].
  destruct (match botcheck (controls f) with Some checked => checked | None => false end);
    [by intros [= <-]|].
  destruct (setLoadingState this true (emit PreventDefault d)); [done|by intros [= <-]].
Qed.

Lemma conclude_pending this r d' : conclude this r = Pending d' → r = Pending d'.
Proof.
  destruct r as [[] d|v d|d]; cbn [conclude]; [| |by intros [= ->]].
  - unfold finally. by destruct (setLoadingState this false d).
  - destruct (catch this v d) as [d1|e1 d1]; unfold finally;
      by destruct (setLoadingState this false d1).
Qed.

Lemma getRecaptchaToken_settles this env d r :
  settles env → getRecaptchaToken this env d = Some r → ∀ d', r ≠ Pending d'.
Proof.
  intros (Hprov & _) Hget d' ->.
  destruct (getRecaptchaToken_split this env d) as [(k & Hk & Hget')|[_ Hget']];
    rewrite Hget' in Hget; [|done].
  injection Hget as Hp. apply (Hprov k Hk).
  apply (proj1 (answered_pending this env k (polls k (emit GetRecaptchaToken d)))).
  by eexists.
Qed.

Lemma receive_settles this env d : settles env → ∀ d', receive this env d ≠ Pending d'.
Proof.
  intros (_ & Hfetch & Hjson) d'. unfold receive.
  destruct (fetchOutcome env); [|done|done].
  destruct (jsonOutcome env) as [data| |]; [|done|done].
  destruct (success data); [|done]. by destruct (gtag env).
Qed.

(** With every awaited promise settled, the attempt comes to an end. *)
Lemma handleSubmit_settles this env d r :
  settles env → handleSubmit this env d = Some r → ∀ d', r ≠ Pending d'.
Proof.
  intros Hs. unfold handleSubmit. destruct (begin this d) as [s|d0] eqn:Hbegin.
  - intros [= <-] d'. by apply (begin_not_pending this d).
  - unfold tryBlock, dispatch.
    destruct (getRecaptchaToken this env d0) as [r0|] eqn:Hget; [|done].
    cbn [mbind option_bind fmap option_fmap option_map]. intros [= <-] d' Hp.
    apply conclude_pending in Hp.
    pose proof (getRecaptchaToken_settles _ _ _ _ Hs Hget) as Hr0.
    destruct r0 as [token d1|v d1|d1]; [|done|by destruct (Hr0 d1)].
    destruct (recaptchaResponse d1); [|done].
    destruct (theForm this (set_recaptchaResponse (Some token) d1)); [|done].
    by apply (receive_settles this env _ Hs d') in Hp.
Qed.

Lemma loadingLook_restored (b : Button) :
  disabled (loadingLook false (loadingLook true b)) = false ∧
  btnText (loadingLook false (loadingLook true b)) = (λ _, "inline") <$> btnText b ∧
  btnLoader (loadingLook false (loadingLook true b)) = (λ _, "none") <$> btnLoader b.
Proof. by destruct b as [? [?|] [?|]]. Qed.

(** C5, amended.  [handleSubmit] always has an outcome, and the attempt
    comes to an end whenever each promise it waits for settles (the
    provider's, the request's, the reading of the answer).  An attempt
    that has come to an end, fulfilled or rejected, and that had passed
    validation and the honeypot check, has been through
    [setLoadingState(false)]: the button is enabled, its label shown and
    its spinner hidden, whatever the button looked like before; also when
    [catch] itself threw.  The two early returns (validation failure,
    honeypot) never touch the button, which is as it was.  So from an
    enabled, non-loading button every attempt that ends leaves an
    enabled, non-loading button.  An attempt that never comes to an end
    leaves the button disabled. *)
Theorem handleSubmit_restores (this : Handler) (env : Env) (d : Document)
    (f : FormEl) (b : Button) :
  attached this d → theForm this d = Some f → theButton this d = Some b →
  ∃ r, handleSubmit this env d = Some r ∧
       (settles env → ∀ d', r ≠ Pending d') ∧
       ((∀ d', r ≠ Pending d') →
        ∃ b', theButton this (finalDocument r) = Some b' ∧
              (passes f → disabled b' = false ∧
                          btnText b' = (λ _, "inline") <$> btnText b ∧
                          btnLoader b' = (λ _, "none") <$> btnLoader b) ∧
              (¬ passes f → b' = b) ∧
              (idle b → idle b')) ∧
       (∀ d', r = Pending d' →
              ∃ b', theButton this d' = Some b' ∧ disabled b' = true).
Proof.
  intros Hatt Hf Hb.
  destruct (handleSubmit_total this env d) as [r Hr]. exists r. split; [done|].
  split; [intros Hs; by apply (handleSubmit_settles this env d)|].
  revert Hr. unfold handleSubmit.
  destruct (checkValidity (controls f)) eqn:Hval; cycle 1.
  { (* validation failure: the button is not touched *)
    unfold begin. rewrite theForm_emit, Hf, Hval. cbn [negb]. intros [= <-].
    split; [|done]. intros _.
    exists b. split.
    { cbn [finalDocument].
      rewrite (theButton_forms this (emit PreventDefault d)) by apply showStatus_forms.
      by rewrite theButton_emit. }
    split; [intros [Hv _]; congruence|done]. }
  destruct (decide (botcheck (controls f) = Some true)) as [Hbot|Hbot].
  { (* honeypot: the button is not touched *)
    unfold begin. rewrite theForm_emit, Hf, Hval, Hbot. cbn [negb]. intros [= <-].
    split; [|done]. intros _.
    exists b. split.
    { cbn [finalDocument]. rewrite resetForm_theButton.
      rewrite (theButton_forms this (emit PreventDefault d)) by apply showStatus_forms.
      by rewrite theButton_emit. }
    split; [by intros [_ Hn]|done]. }
  rewrite (begin_loading this d f b Hf (conj Hval Hbot) Hb).
  destruct (tryBlock this env (atTry this b d)) as [r0|] eqn:Htry; [|done].
  cbn [fmap option_fmap option_map]. intros [= <-].
  pose proof (tryBlock_theButton _ _ _ _ Htry) as Hb0.
  rewrite (atTry_theButton _ _ _ Hb) in Hb0.
  pose proof (conclude_button this r0 _ Hb0) as Hc.
  assert (Hlook : ∀ d', theButton this d' = Some (loadingLook false (loadingLook true b)) →
            ∃ b', theButton this d' = Some b' ∧
                  (passes f → disabled b' = false ∧
                              btnText b' = (λ _, "inline") <$> btnText b ∧
                              btnLoader b' = (λ _, "none") <$> btnLoader b) ∧
                  (¬ passes f → b' = b) ∧
                  (idle b → idle b')).
  { intros d' Hd'. exists (loadingLook false (loadingLook true b)).
    split; [done|]. split; [intros _; apply loadingLook_restored|].
    split; [by intros []|]. intros _. apply loadingLook_idle. }
  destruct (conclude this r0) as [[] d'|e d'|d']; cbn [finalDocument].
  - split; [intros _; by apply Hlook|done].
  - split; [intros _; apply Hlook, Hc|done].
  - split; [intros Hterm; by destruct (Hterm d')|].
    intros d'' [= <-]. subst r0. cbn [finalDocument] in Hb0.
    by exists (loadingLook true b).
Qed.

Lemma busyPage_attached (c : Controls) (token : option string) :
  attached sampleHandler (busyPage c token).
Proof.
  exists "contactForm", (mkForm c blankControls (Some busyButton)).
  split; [done|]. split; [apply lookup_singleton_eq|]. done.
Qed.

Lemma busyPage_theForm (c : Controls) (token : option string) :
  theForm sampleHandler (busyPage c token)
  = Some (mkForm c blankControls (Some busyButton)).
Proof. apply lookup_singleton_eq. Qed.

Lemma busyPage_theButton (c : Controls) (token : option string) :
  theButton sampleHandler (busyPage c token) = Some busyButton.
Proof.
  unfold theButton, sampleHandler, busyPage. cbn [submitButton forms mbind option_bind].
  by rewrite lookup_singleton_eq.
Qed.

Lemma busyPage_passes :
  passes (mkForm (sampleControls (Some false) true) blankControls (Some busyButton)).
Proof. split; done. Qed.

Lemma failedEnv_settles : settles failedEnv.
Proof. split; [by intros k _ []|]. split; done. Qed.

Lemma handleSubmit_restores_witness :
  ∃ r b', handleSubmit sampleHandler failedEnv
            (busyPage (sampleControls (Some false) true) (Some "")) = Some r ∧
          (∀ d', r ≠ Pending d') ∧
          theButton sampleHandler (finalDocument r) = Some b' ∧
          disabled b' = false ∧ btnText b' = Some "inline" ∧ btnLoader b' = Some "none".
Proof.
  destruct (handleSubmit_restores sampleHandler failedEnv
              (busyPage (sampleControls (Some false) true) (Some "")) _ busyButton
              (busyPage_attached _ _) (busyPage_theForm _ _) (busyPage_theButton _ _))
    as (r & Hrun & Hset & Hend & _).
  destruct (Hend (Hset failedEnv_settles)) as (b' & Hb' & Hpass & _).
  destruct (Hpass busyPage_passes) as (H1 & H2 & H3).
  exists r, b'. split; [exact Hrun|]. split; [exact (Hset failedEnv_settles)|].
  split; [exact Hb'|]. split; [exact H1|]. split; [exact H2|exact H3].
Defined.

(** A provider that is there and never answers, on a page that lacks
    nothing: the attempt stays in the loading state. *)
Lemma silent_provider_stuck :
  ∃ d', handleSubmit sampleHandler silentEnv
          (samplePage (sampleControls (Some false) true) (Some "")) = Some (Pending d') ∧
        theButton sampleHandler d' = Some (mkButton true (Some "none") (Some "inline-block")).
Proof. eexists. split; vm_compute; reflexivity. Qed.

(** C5, counterexample.  With a provider that is loaded and whose
    [execute] never settles, the attempt never comes to an end: the
    [await] of the token does not resume, [finally] does not run, and
    the button stays disabled with its spinner shown. *)
Lemma restoresClaim_fails : ¬ restoresClaim.
Proof.
  intros H.
  destruct (H sampleHandler silentEnv (samplePage (sampleControls (Some false) true) (Some ""))
              sampleButton (samplePage_attached _ _) (samplePage_theButton _ _)
              sampleButton_idle)
    as (r & Hrun & _ & b' & Hb' & Hdis).
  destruct silent_provider_stuck as (d'' & Hpending & Hstuck).
  rewrite Hpending in Hrun. injection Hrun as <-. cbn [finalDocument] in Hb'.
  rewrite Hstuck in Hb'. injection Hb' as <-. discriminate Hdis.
Qed.

(** ** A page without the token field, once the token is there *)

(** C10, amended.  Without an element [recaptchaResponse], a submission
    that passes validation and the honeypot check never calls [fetch].
    When the token promise resolves (with the provider's token, or with
    '' after the poll gave up), the token-injection step throws: the
    [try] block is left with a TypeError in the very state in which the
    token arrived, before the form data is collected; [catch] shows the
    generic error, [finally] restores the button, and nothing else is
    done. *)
Theorem handleSubmit_no_token_field (this : Handler) (env : Env) (d : Document)
    (f : FormEl) (b : Button) :
  attached this d → theForm this d = Some f → passes f →
  theButton this d = Some b → recaptchaResponse d = None →
  ∃ r, handleSubmit this env d = Some r ∧
       (∀ e, e ∈ issued d (finalDocument r) → isFetch e = false) ∧
       (∀ k token, tokenAfter env k token →
          ∃ d1 d' b',
            getRecaptchaToken this env (atTry this b d) = Some (Resolves token d1) ∧
            tryBlock this env (atTry this b d) = Some (Rejects TypeError d1) ∧
            r = Resolves () d' ∧
            formStatus d' = (λ _, mkStatus genericError "form-status error" "block")
                              <$> formStatus d ∧
            theButton this d' = Some b' ∧ idle b' ∧
            issued d1 d' = [Console "error" "Form submission error:";
                            Console "error" ("Error details: " +:+ message TypeError);
                            ShowStatus genericError "error";
                            Console "error" ("Error message: " +:+ message TypeError);
                            SetLoadingState false]).
Proof.
  intros Hatt Hf Hp Hb Hnone.
  destruct (dispatch_total this env (atTry this b d)) as [r0 Hd].
  assert (Hnone0 : recaptchaResponse (atTry this b d) = None).
  { destruct (atTry_others this b d) as (-> & _). done. }
  destruct (dispatch_no_token_field this env (atTry this b d) r0) as [s ->]; [done..|].
  destruct (notSent_run this env d f b Hatt Hf Hp Hb s Hd) as (Hrun & Hext & Hend).
  exists (conclude this s). split; [done|].
  split; [intros e; by apply notFetch_issued|].
  intros k token Htok.
  destruct (tokenAfter_resolves this env (atTry this b d) k token Htok) as (d1 & Hget & _).
  destruct (getRecaptchaToken_frame _ _ _ _ Hget) as (_ & _ & Hrr & _).
  cbn [finalDocument] in Hrr. rewrite Hnone0 in Hrr.
  assert (Hd' : dispatch this env (atTry this b d) = Some (NotSent (Rejects TypeError d1))).
  { unfold dispatch. rewrite Hget. cbn [mbind option_bind]. by rewrite Hrr. }
  rewrite Hd' in Hd. injection Hd as <-.
  destruct Hend as (d' & Hc & Hbtn & _ & Hfs); [done..|].
  exists d1, d', (loadingLook false (loadingLook true b)).
  split; [done|]. split; [unfold tryBlock; by rewrite Hd'|].
  split; [done|]. split; [done|]. split; [done|]. split; [apply loadingLook_idle|].
  pose proof (conclude_caught_issued this TypeError d1) as Hiss.
  by rewrite Hc in Hiss.
Qed.

Lemma handleSubmit_no_token_field_witness :
  ∃ d', handleSubmit sampleHandler (readyEnv (Parsed (mkJson true None)) GtagUndefined)
          (samplePage (sampleControls (Some false) true) None) = Some (Resolves () d') ∧
        formStatus d' = Some (mkStatus genericError "form-status error" "block") ∧
        (∀ e, e ∈ issued (samplePage (sampleControls (Some false) true) None) d'
              → isFetch e = false).
Proof.
  destruct (handleSubmit_no_token_field sampleHandler
              (readyEnv (Parsed (mkJson true None)) GtagUndefined)
              (samplePage (sampleControls (Some false) true) None) _ sampleButton
              (samplePage_attached _ _) (samplePage_theForm _ _)
              sampleControls_passes (samplePage_theButton _ _) eq_refl)
    as (r & Hrun & Hno & Hend).
  destruct (Hend 3 "tok" (readyEnv_tokenAfter _ _)) as (d1 & d' & b' & _ & _ & Hr & Hfs & _).
  rewrite Hr in Hrun, Hno.
  exists d'. split; [exact Hrun|]. split; [exact Hfs|exact Hno].
Defined.

(** ** The provider rejects *)

(** X8. When the provider is there and [execute] rejects, the value it
    rejects with reaches the [catch] of the submission as it is.  In
    every case no request is sent, the form keeps its entries and the
    button is idle again.  For a value that is not null or undefined the
    promise of [handleSubmit] resolves, the user sees the generic error
    and the value's message goes to the console ('undefined' when it has
    none).  For null or undefined, [catch] throws when it reads the
    message: no message is shown in the whole attempt, the status region
    stays hidden, and the promise is rejected with the TypeError. *)
Theorem handleSubmit_provider_error (this : Handler) (env : Env) (d : Document)
    (f : FormEl) (b : Button) (k : nat) (v : Thrown) :
  attached this d → theForm this d = Some f → passes f → theButton this d = Some b →
  firstDefinedAt env k → provider env = ProviderFails v →
  ∃ r b', handleSubmit this env d = Some r ∧
          controls <$> theForm this (finalDocument r) = Some (controls f) ∧
          theButton this (finalDocument r) = Some b' ∧ idle b' ∧
          (∀ e', e' ∈ issued d (finalDocument r) → isFetch e' = false) ∧
          (v ≠ Nullish →
           (∃ d', r = Resolves () d') ∧
           formStatus (finalDocument r)
           = (λ _, mkStatus genericError "form-status error" "block") <$> formStatus d ∧
           Console "error" ("Error details: " +:+ errorDetails v)
           ∈ issued d (finalDocument r)) ∧
          (v = Nullish →
           (∃ d', r = Rejects TypeError d') ∧
           formStatus (finalDocument r)
           = (λ s, mkStatus (textContent s) (className s) "none") <$> formStatus d ∧
           ∀ m kind, ShowStatus m kind ∉ issued d (finalDocument r)).
Proof.
  intros Hatt Hf Hp Hb Hk Hprov.
  pose proof (attached_statusDiv _ _ Hatt) as Hs.
  set (d1 := emit (GrecaptchaExecute (recaptchaSiteKey this) "submit")
               (emit GrecaptchaReady
                  (emit (Console "log" "reCAPTCHA loaded successfully")
                     (polls k (emit GetRecaptchaToken (atTry this b d)))))).
  assert (Hd : dispatch this env (atTry this b d) = Some (NotSent (Rejects v d1))).
  { unfold dispatch. rewrite (getRecaptchaToken_found this env _ k Hk).
    unfold answered. by rewrite Hprov. }
  clearbody d1.
  destruct (notSent_run this env d f b Hatt Hf Hp Hb _ Hd) as (Hrun & Hext & Hend).
  destruct (dispatch_cases _ _ _ _ Hd) as (_ & Hfo & Hst & _ & Hpoll).
  cbn [finalDocument] in Hfo, Hst, Hpoll.
  assert (Hb1 : theButton this d1 = Some (loadingLook true b)).
  { rewrite (theButton_forms this (atTry this b d)) by done. by apply atTry_theButton. }
  assert (Hc1 : controls <$> theForm this d1 = Some (controls f)).
  { rewrite (theForm_controls this (atTry this b d)) by (by apply forms_controls).
    rewrite (theForm_controls this d) by apply atTry_controls. by rewrite Hf. }
  assert (Hpre : ∀ P : Effect → Prop,
            P PreventDefault → P (SetLoadingState true) → P HideStatus →
            P GetRecaptchaToken → P (SetTimeout CheckRecaptchaCb 500) →
            P GrecaptchaReady → (∀ k a, P (GrecaptchaExecute k a)) →
            (∀ l t, P (Console l t)) → extends P d d1).
  { intros P ? ? ? ? ? ? ? ?.
    apply (extends_trans P d (atTry this b d)); [by apply extends_atTry|].
    by apply isPollEffect_impl. }
  exists (conclude this (Rejects v d1)), (loadingLook false (loadingLook true b)).
  split; [done|].
  assert (v = Nullish ∨ v ≠ Nullish) as [->|Hv]
    by (destruct v; [right|right|left]; done).
  - destruct (conclude_nullish (λ e, ∀ m kind, e ≠ ShowStatus m kind) this d1 _ Hb1)
      as (d' & Hc & Hbtn & Hctl & Hfs & _ & _ & Hex & _); [done..|].
    rewrite Hc in *. cbn [finalDocument] in *.
    split; [by rewrite (theForm_controls this d1)|].
    split; [done|]. split; [apply loadingLook_idle|].
    split; [intros e'; by apply notFetch_issued|].
    split; [done|]. intros _. split; [by eexists|].
    split; [by rewrite Hfs, Hst, atTry_formStatus|].
    intros m kind Hin.
    assert (extends (λ e, ∀ m kind, e ≠ ShowStatus m kind) d d') as Hall.
    { apply (extends_trans _ d d1 d'); [by apply Hpre|done]. }
    apply extends_issued in Hall.
    by apply (proj1 (Forall_forall _ _) Hall _ Hin m kind).
  - destruct Hend as (d' & Hc & Hbtn & Hctl & Hfs); [done|congruence|].
    pose proof (conclude_details this v d1 Hv) as Hin.
    pose proof (extends_conclude (λ _, True) this (Rejects v d1)) as Hx.
    rewrite Hc in *. cbn [finalDocument] in *.
    split; [done|]. split; [done|]. split; [apply loadingLook_idle|].
    split; [intros e'; by apply notFetch_issued|].
    split; [|done]. intros _. split; [by eexists|]. split; [done|].
    apply (elem_of_issued_suffix (λ _, True) (λ _, True) d d1 d'); [by apply Hpre| |done].
    by apply Hx.
Qed.

Lemma handleSubmit_provider_error_witness :
  ∃ d', handleSubmit sampleHandler failingProvider
          (samplePage (sampleControls (Some false) true) (Some ""))
        = Some (Resolves () d') ∧
        formStatus d' = Some (mkStatus genericError "form-status error" "block") ∧
        Console "error" "Error details: Invalid site key"
        ∈ issued (samplePage (sampleControls (Some false) true) (Some "")) d'.
Proof.
  destruct (handleSubmit_provider_error sampleHandler failingProvider
              (samplePage (sampleControls (Some false) true) (Some ""))
              _ sampleButton 0 (mkError "Invalid site key")
              (samplePage_attached _ _) (samplePage_theForm _ _) sampleControls_passes
              (samplePage_theButton _ _))
    as (r & b' & Hrun & _ & _ & _ & _ & Hobj & _).
  - split; [unfold maxAttempts; lia|]. split; [reflexivity|]. intros j Hj. lia.
  - reflexivity.
  - destruct Hobj as ([d' Hr] & Hfs & Hin); [discriminate|].
    rewrite Hr in Hrun, Hfs, Hin.
    exists d'. split; [exact Hrun|]. split; [exact Hfs|exact Hin].
Defined.

(** The run with a provider that rejects with null: one line on the
    console, no message to the user, the promise rejected, the button
    restored. *)
Lemma nullRejection_run :
  ∃ d', handleSubmit sampleHandler nullRejection
          (samplePage (sampleControls (Some false) true) (Some ""))
        = Some (Rejects TypeError d') ∧
        issued (samplePage (sampleControls (Some false) true) (Some "")) d'
        = [PreventDefault; SetLoadingState true; HideStatus; GetRecaptchaToken;
           Console "log" "reCAPTCHA loaded successfully"; GrecaptchaReady;
           GrecaptchaExecute "site-key" "submit";
           Console "error" "Form submission error:"; SetLoadingState false] ∧
        formStatus d' = Some (mkStatus "" "form-status" "none") ∧
        theButton sampleHandler d' = Some (mkButton false (Some "inline") (Some "none")).
Proof. eexists. split; [vm_compute; reflexivity|]. repeat split; vm_compute; reflexivity. Qed.

(** X9. When the API answers [success: false], the text the user sees
    is the generic error whatever the answer says; the answer's
    [message] goes to the console, and 'Submission failed' stands in for
    a missing or empty one. *)
Theorem handleSubmit_api_message (this : Handler) (env : Env) (d : Document)
    (f : FormEl) (b : Button) (v token : string) (k : nat) (data : Json) :
  attached this d → theForm this d = Some f → passes f → theButton this d = Some b →
  recaptchaResponse d = Some v → tokenAfter env k token →
  fetchOutcome env = Responds → jsonOutcome env = Parsed data → success data = false →
  ∃ d', handleSubmit this env d = Some (Resolves () d') ∧
        formStatus d' = (λ _, mkStatus genericError "form-status error" "block")
                          <$> formStatus d ∧
        Console "error" ("Error details: " +:+ failureMessage data) ∈ issued d d' ∧
        (∀ m kind, ShowStatus m kind ∈ issued d d' → m = genericError).
Proof.
  intros Hatt Hf Hp Hb Hv Htok Hfetch Hjson Hsucc.
  destruct (dispatch_sent this env d f b v token k Hatt Hf Hp Hb Hv Htok)
    as (d2 & l & Hd & _).
  assert (Hfail : submissionFails env).
  { unfold submissionFails. by rewrite Hfetch, Hjson. }
  destruct (sent_fails_run this env d f b Hatt Hf Hp Hb d2 Hd Hfail)
    as (d' & Hrun & _ & _ & Hfs & _).
  exists d'. split; [done|]. split; [done|].
  assert (Hrec : receive this env d2
                 = Rejects (mkError (failureMessage data)) (emit ResponseJson d2)).
  { unfold receive, failureMessage. by rewrite Hfetch, Hjson, Hsucc. }
  assert (Hrun' : handleSubmit this env d
                  = Some (conclude this (Rejects (mkError (failureMessage data))
                                                 (emit ResponseJson d2)))).
  { rewrite (handleSubmit_tryBlock this env d f b) by done. unfold tryBlock.
    rewrite Hd. cbn [mbind option_bind fmap option_fmap option_map]. by rewrite Hrec. }
  assert (Hd' : conclude this (Rejects (mkError (failureMessage data))
                                       (emit ResponseJson d2)) = Resolves () d')
    by congruence.
  pose proof (conclude_console this (mkError (failureMessage data)) (emit ResponseJson d2))
    as Hin.
  rewrite Hd' in Hin. cbn [finalDocument message] in Hin.
  set (quiet := λ e : Effect, ∀ m kind, e = ShowStatus m kind → m = genericError).
  assert (Hq2 : extends quiet d (emit ResponseJson d2)).
  { destruct (dispatch_cases _ _ _ _ Hd)
      as (t & d1 & f0 & _ & _ & _ & Hd2 & _ & _ & _ & _ & Hpoll).
    apply (extends_trans _ _ (atTry this b d)); [by apply extends_atTry|].
    apply (extends_trans _ _ d1); [by apply isPollEffect_impl|].
    apply (extends_trans _ _ d2); [|by apply extends_emit].
    rewrite Hd2. exists [Fetch submitUrl "POST"
                           (FormData f0 (set_recaptchaResponse (Some t) d1))].
    split; [by rewrite log_emit, log_set_recaptchaResponse|by repeat constructor]. }
  assert (Hq3 : extends quiet (emit ResponseJson d2) d').
  { pose proof (extends_conclude quiet this
                  (Rejects (mkError (failureMessage data)) (emit ResponseJson d2))) as Hx.
    rewrite Hd' in Hx. apply Hx; [done| |done]. by intros m kind [= <- _]. }
  split.
  - by apply (elem_of_issued_suffix quiet quiet d (emit ResponseJson d2) d').
  - intros m kind Hm.
    pose proof (extends_issued quiet d d' (extends_trans _ _ _ _ Hq2 Hq3)) as HF.
    by apply (proj1 (Forall_forall _ _) HF (ShowStatus m kind) Hm m kind).
Qed.

Lemma handleSubmit_api_message_witness :
  ∃ d', handleSubmit sampleHandler failedEnv
          (samplePage (sampleControls (Some false) true) (Some ""))
        = Some (Resolves () d') ∧
        Console "error" "Error details: Invalid access key"
        ∈ issued (samplePage (sampleControls (Some false) true) (Some "")) d'.
Proof.
  destruct (handleSubmit_api_message sampleHandler failedEnv
              (samplePage (sampleControls (Some false) true) (Some ""))
              _ sampleButton "" "tok" 3 (mkJson false (Some "Invalid access key"))
              (samplePage_attached _ _) (samplePage_theForm _ _) sampleControls_passes
              (samplePage_theButton _ _) eq_refl (readyEnv_tokenAfter _ _)
              eq_refl eq_refl eq_refl)
    as (d' & Hrun & _ & Hin & _).
  exists d'. split; [exact Hrun|exact Hin].
Defined.

(** ** Attempts that never end *)

Lemma receive_pending this env d d' :
  receive this env d = Pending d' →
  forms d' = forms d ∧ formStatus d' = formStatus d ∧ extends stillLoading d d'.
Proof.
  unfold receive. destruct (fetchOutcome env); try done.
  - destruct (jsonOutcome env) as [data| |]; try done.
    + destruct (success data); [|done]. by destruct (gtag env).
    + intros [= <-]. repeat split; try done. by apply extends_emit.
  - intros [= <-]. repeat split; try done. apply extends_refl.
Qed.

(** X10. There is no timeout on the provider's callback, on [fetch] or
    on reading the answer.  An attempt that is pending forever stays as
    [setLoadingState(true)] and [hideStatus] left it: button disabled,
    label hidden, spinner shown, status region hidden; no message was
    shown and [finally] has not run. *)
Theorem handleSubmit_pending (this : Handler) (env : Env) (d d' : Document) (b : Button) :
  attached this d → theButton this d = Some b →
  handleSubmit this env d = Some (Pending d') →
  ∃ b', theButton this d' = Some b' ∧ disabled b' = true ∧
        btnText b' = (λ _, "none") <$> btnText b ∧
        btnLoader b' = (λ _, "inline-block") <$> btnLoader b ∧
        formStatus d' = (λ s, mkStatus (textContent s) (className s) "none")
                          <$> formStatus d ∧
        Forall stillLoading (issued d d').
Proof.
  intros Hatt Hb. destruct (attached_theForm _ _ Hatt) as [f Hf].
  pose proof (attached_statusDiv _ _ Hatt) as Hs.
  unfold handleSubmit.
  destruct (checkValidity (controls f)) eqn:Hval; cycle 1.
  { unfold begin. rewrite theForm_emit, Hf, Hval. done. }
  destruct (decide (botcheck (controls f) = Some true)) as [Hbot|Hbot].
  { unfold begin. rewrite theForm_emit, Hf, Hval, Hbot. done. }
  rewrite (begin_loading this d f b Hf (conj Hval Hbot) Hb).
  unfold tryBlock.
  destruct (dispatch this env (atTry this b d)) as [[d2|s]|] eqn:Hd; [| |done];
    cbn [mbind option_bind fmap option_fmap option_map]; intros Hrun;
    pose proof (dispatch_cases _ _ _ _ Hd) as Hcases.
  - destruct Hcases as (t & d1 & f0 & _ & _ & _ & Hd2 & Hfo & Hst & _ & _ & Hpoll).
    pose proof (conclude_button this (receive this env d2) (loadingLook true b)) as Hc.
    rewrite receive_theButton, (theButton_forms this (atTry this b d)) in Hc by done.
    specialize (Hc (atTry_theButton _ _ _ Hb)).
    destruct (conclude this (receive this env d2)) as [a dx|e dx|dx]; try done.
    injection Hrun as ->.
    destruct (receive_pending _ _ _ _ Hc) as (Hfo' & Hst' & Hext').
    exists (loadingLook true b).
    split; [rewrite (theButton_forms this d2) by done;
            rewrite (theButton_forms this (atTry this b d)) by done;
            by apply atTry_theButton|].
    split; [done|]. split; [done|]. split; [done|].
    split; [by rewrite Hst', Hst, atTry_formStatus|].
    apply extends_issued.
    apply (extends_trans _ _ (atTry this b d)); [by apply extends_atTry|].
    apply (extends_trans _ _ d1); [by apply isPollEffect_impl|].
    apply (extends_trans _ _ d2); [|done].
    rewrite Hd2. exists [Fetch submitUrl "POST"
                           (FormData f0 (set_recaptchaResponse (Some t) d1))].
    split; [by rewrite log_emit, log_set_recaptchaResponse|by repeat constructor].
  - destruct Hcases as (_ & Hfo & Hst & _ & Hpoll).
    injection Hrun as Hrun. apply conclude_pending in Hrun. subst s.
    cbn [finalDocument] in *. exists (loadingLook true b).
    split; [rewrite (theButton_forms this (atTry this b d)) by done;
            by apply atTry_theButton|].
    split; [done|]. split; [done|]. split; [done|].
    split; [by rewrite Hst, atTry_formStatus|].
    apply extends_issued.
    apply (extends_trans _ _ (atTry this b d)); [by apply extends_atTry|].
    by apply isPollEffect_impl.
Qed.

Lemma handleSubmit_pending_witness :
  ∃ d' b', handleSubmit sampleHandler silentEnv
             (samplePage (sampleControls (Some false) true) None) = Some (Pending d') ∧
           theButton sampleHandler d' = Some b' ∧ disabled b' = true.
Proof.
  destruct silent_provider_pending as (d' & Hrun & _).
  destruct (handleSubmit_pending sampleHandler silentEnv
              (samplePage (sampleControls (Some false) true) None) d' sampleButton
              (samplePage_attached _ _) (samplePage_theButton _ _) Hrun)
    as (b' & Hb & Hdis & _).
  exists d', b'. split; [exact Hrun|]. split; [exact Hb|exact Hdis].
Defined.

(** ** The event loop, once more *)

(** X11. From a page whose button is idle, after any sequence of
    submits, edits, timers and settlements: whenever no attempt is in
    flight the browser lets the user submit again. *)
Theorem form_usable_at_rest (this : Handler) (d : Document) (evs : list Event) :
  attached this d → (∀ b, theButton this d = Some b → idle b) →
  inflight (run this (mkSystem d []) evs) = [] →
  uiCanSubmit this (doc (run this (mkSystem d []) evs)) = true.
Proof.
  intros Hatt Hidle Hrest.
  assert (Hinv : oneInFlight this (run this (mkSystem d []) evs)).
  { apply run_oneInFlight. split; [done|]. simpl. split; [lia|done]. }
  destruct Hinv as (Hatt' & _).
  pose proof (button_idle_at_rest this d evs Hidle Hrest) as Hidle'.
  destruct (attached_theForm _ _ Hatt') as [f Hf].
  unfold uiCanSubmit. rewrite Hf. cbn [mbind option_bind].
  rewrite <- (attached_theButton _ _ _ Hatt' Hf).
  destruct (theButton this (doc (run this (mkSystem d []) evs))) as [b|] eqn:Hb; [|done].
  destruct (Hidle' b eq_refl) as (-> & _). done.
Qed.

Lemma form_usable_at_rest_witness :
  uiCanSubmit sampleHandler
    (doc (run sampleHandler
              (mkSystem (samplePage (sampleControls (Some false) true) (Some "")) [])
              [UiSubmit; TokenSettles 0 failedEnv; ResponseSettles 0 failedEnv]))
  = true.
Proof.
  apply (form_usable_at_rest sampleHandler
           (samplePage (sampleControls (Some false) true) (Some ""))
           [UiSubmit; TokenSettles 0 failedEnv; ResponseSettles 0 failedEnv]).
  - apply samplePage_attached.
  - intros b. rewrite samplePage_theButton. intros [= <-]. apply sampleButton_idle.
  - vm_compute. reflexivity.
Defined.

Lemma edit_theForm this c d f :
  theForm this d = Some f →
  theForm this (edit this c d) = Some (mkForm c (defaults f) (button f)).
Proof.
  unfold theForm, edit. destruct (form this) as [id|]; [|done].
  cbn [mbind option_bind forms set_forms]. intros Hf.
  by rewrite lookup_alter_eq, Hf.
Qed.

Lemma edit_recaptchaResponse this c d :
  recaptchaResponse (edit this c d) = recaptchaResponse d.
Proof. unfold edit. by destruct (form this). Qed.

(** X12. The request carries the form as it is when the token arrives,
    not as it was at the click: [new FormData] runs after the [await].
    Controls the user changes while the token is awaited are sent as
    changed, and neither validation nor the honeypot check is run on
    them again. *)
Theorem edits_in_flight_are_sent (this : Handler) (env : Env) (d : Document)
    (f : FormEl) (b : Button) (v token : string) (k : nat) (c : Controls) :
  attached this d → theForm this d = Some f → passes f →
  theButton this d = Some b → disabled b = false →
  recaptchaResponse d = Some v → tokenAfter env k token →
  inflight (run this (mkSystem d []) [UiSubmit; UserEdit c; TokenSettles 0 env])
  = [AwaitingResponse] ∧
  last (log (doc (run this (mkSystem d []) [UiSubmit; UserEdit c; TokenSettles 0 env])))
  = Some (Fetch submitUrl "POST"
                (fields c
                 ++ (if default false (botcheck c) then [("botcheck", "on")] else [])
                 ++ [("recaptchaResponse", token)])).
Proof.
  intros Hatt Hf Hp Hb Hdis Hv Htok.
  assert (Hui : uiCanSubmit this d = true).
  { unfold uiCanSubmit. rewrite Hf. cbn [mbind option_bind].
    rewrite <- (attached_theButton _ _ _ Hatt Hf), Hb. by rewrite Hdis. }
  set (d0 := edit this c (atTry this b d)).
  assert (Hf0 : theForm this d0 = Some (mkForm c (defaults f) (Some (loadingLook true b)))).
  { unfold d0. rewrite (edit_theForm this c _ _ (atTry_theForm this b d f Hatt Hf Hb)).
    done. }
  assert (Hv0 : recaptchaResponse d0 = Some v).
  { unfold d0. rewrite edit_recaptchaResponse.
    destruct (atTry_others this b d) as (-> & _). done. }
  assert (Hd0 : edit this c (atTry this b d) = d0) by done.
  clearbody d0.
  destruct (tokenAfter_resolves this env d0 k token Htok) as (d1 & Hget & _).
  destruct (getRecaptchaToken_frame _ _ _ _ Hget) as (Hfo & _ & Hrr & _).
  cbn [finalDocument] in *.
  assert (Hd : dispatch this env d0
               = Some (Sent (emit (Fetch submitUrl "POST"
                                     (FormData (mkForm c (defaults f)
                                                       (Some (loadingLook true b)))
                                               (set_recaptchaResponse (Some token) d1)))
                                  (set_recaptchaResponse (Some token) d1)))).
  { apply (dispatch_resolved this env d0 token d1 _ v Hget).
    - by rewrite Hrr.
    - by rewrite (theForm_forms this d0). }
  unfold run. cbn [foldl step inflight doc].
  rewrite Hui, (begin_loading this d f b Hf Hp Hb). cbn [inflight doc app].
  change ([AwaitingToken] !! 0) with (Some AwaitingToken).
  rewrite Hd0, Hd. cbn [inflight doc]. split; [done|].
  rewrite log_emit, last_snoc. unfold FormData.
  by rewrite recaptchaResponse_set.
Qed.

Lemma edits_in_flight_are_sent_witness :
  last (log (doc (run sampleHandler
                      (mkSystem (samplePage (sampleControls (Some false) true) (Some "")) [])
                      [UiSubmit; UserEdit blankControls;
                       TokenSettles 0 (readyEnv JsonSilent GtagUndefined)])))
  = Some (Fetch submitUrl "POST"
                [("name", ""); ("email", ""); ("message", ""); ("recaptchaResponse", "tok")]).
Proof.
  apply (edits_in_flight_are_sent sampleHandler (readyEnv JsonSilent GtagUndefined)
           (samplePage (sampleControls (Some false) true) (Some ""))
           _ sampleButton "" "tok" 3 blankControls
           (samplePage_attached _ _) (samplePage_theForm _ _) sampleControls_passes
           (samplePage_theButton _ _) eq_refl eq_refl (readyEnv_tokenAfter _ _)).
Defined.

(** ** Construction and start-up *)

(** X13. For a form that exists, the constructor binds the handler and
    does not throw, whether or not the form has a submit button and the
    page a status region (the missing ones are null in the handler): it
    adds one script, [api.js?render=<site key>] with [async] and [defer],
    registers one submit listener on the form, changes nothing else, and
    the handler it returns is attached to the page. *)
Theorem constructor_with_form (formId key : string) (d : Document) (f : FormEl) :
  forms d !! formId = Some f →
  ∃ this d', constructor formId key d = (this, d') ∧
             form this = Some formId ∧ recaptchaSiteKey this = key ∧
             submitButton this = (_ ← button f; Some formId) ∧
             statusDiv this = (_ ← formStatus d; Some ()) ∧
             attached this d' ∧
             headScripts d' = headScripts d ++ [recaptchaScript key] ∧
             submitListeners d' = submitListeners d ++ [formId] ∧
             forms d' = forms d ∧ formStatus d' = formStatus d ∧
             recaptchaResponse d' = recaptchaResponse d ∧
             timers d' = timers d ∧ log d' = log d.
Proof.
  intros Hf. unfold constructor, init. simpl. rewrite Hf. simpl. rewrite Hf. simpl.
  eexists _, _. split; [reflexivity|]. repeat split; try done.
  exists formId, f. done.
Qed.

Lemma constructor_with_form_witness :
  ∃ this d', constructor "contactForm" "site-key"
               (noButtonPage (sampleControls (Some false) true)) = (this, d') ∧
             submitButton this = None ∧ attached this d' ∧
             headScripts d' = [recaptchaScript "site-key"].
Proof.
  destruct (constructor_with_form "contactForm" "site-key"
              (noButtonPage (sampleControls (Some false) true))
              (mkForm (sampleControls (Some false) true) blankControls None))
    as (this & d' & Hc & _ & _ & Hsb & _ & Hatt & Hh & _).
  - vm_compute. reflexivity.
  - exists this, d'. split; [exact Hc|]. split; [exact Hsb|]. split; [exact Hatt|exact Hh].
Defined.

Lemma callInitWeb3Forms_fields (w : Window) :
  readyState (callInitWeb3Forms w) = readyState w ∧
  RECAPTCHA_SITE_KEY (callInitWeb3Forms w) = RECAPTCHA_SITE_KEY w ∧
  domContentLoadedListeners (callInitWeb3Forms w) = domContentLoadedListeners w ∧
  document (callInitWeb3Forms w) = (initWeb3Forms (RECAPTCHA_SITE_KEY w) (document w)).2 ∧
  handlers (callInitWeb3Forms w)
  = handlers w ++ [(initWeb3Forms (RECAPTCHA_SITE_KEY w) (document w)).1].
Proof.
  unfold callInitWeb3Forms.
  by destruct (initWeb3Forms (RECAPTCHA_SITE_KEY w) (document w)).
Qed.

(** X14. The script binds the form once, whenever it runs.  Evaluated
    while the page is still loading, it only registers [initWeb3Forms]
    for [DOMContentLoaded]; evaluated later, it calls it at once.  Either
    way, after [DOMContentLoaded] there is the one handler and the
    document that one call of [initWeb3Forms] gives. *)
Theorem boot_once (w : Window) :
  readyState w = RsLoading → domContentLoadedListeners w = 0 →
  document (web3formsScript w) = document w ∧
  handlers (web3formsScript w) = handlers w ∧
  document (fireDOMContentLoaded (web3formsScript w))
  = (initWeb3Forms (RECAPTCHA_SITE_KEY w) (document w)).2 ∧
  handlers (fireDOMContentLoaded (web3formsScript w))
  = handlers w ++ [(initWeb3Forms (RECAPTCHA_SITE_KEY w) (document w)).1] ∧
  document (web3formsScript (fireDOMContentLoaded w))
  = document (fireDOMContentLoaded (web3formsScript w)) ∧
  handlers (web3formsScript (fireDOMContentLoaded w))
  = handlers (fireDOMContentLoaded (web3formsScript w)).
Proof.
  intros Hloading Hzero.
  assert (H1 : web3formsScript w
               = mkWindow RsLoading (RECAPTCHA_SITE_KEY w) 1 (document w) (handlers w)).
  { unfold web3formsScript. by rewrite Hloading, Hzero. }
  assert (H2 : fireDOMContentLoaded w
               = mkWindow RsInteractive (RECAPTCHA_SITE_KEY w) 0 (document w) (handlers w)).
  { unfold fireDOMContentLoaded. by rewrite Hzero. }
  rewrite H1, H2. unfold fireDOMContentLoaded, web3formsScript.
  cbn [readyState domContentLoadedListeners Nat.iter nat_rect RECAPTCHA_SITE_KEY
       document handlers].
  split; [done|]. split; [done|].
  set (w1 := mkWindow RsInteractive (RECAPTCHA_SITE_KEY w) 1 (document w) (handlers w)).
  set (w2 := mkWindow RsInteractive (RECAPTCHA_SITE_KEY w) 0 (document w) (handlers w)).
  destruct (callInitWeb3Forms_fields w1) as (_ & _ & _ & -> & ->).
  destruct (callInitWeb3Forms_fields w2) as (_ & _ & _ & -> & ->).
  done.
Qed.

Lemma boot_once_witness :
  handlers (fireDOMContentLoaded
              (web3formsScript
                 (mkWindow RsLoading None 0
                    (samplePage (sampleControls (Some false) true) (Some "")) [])))
  = [mkHandler (Some "contactForm") defaultSiteKey (Some "contactForm") (Some ())].
Proof.
  destruct (boot_once (mkWindow RsLoading None 0
                         (samplePage (sampleControls (Some false) true) (Some "")) [])
              eq_refl eq_refl) as (_ & _ & _ & H & _).
  rewrite H. vm_compute. reflexivity.
Defined.

Lemma constructor_null (formId key : string) (d : Document) :
  forms d !! formId = None → constructor formId key d = (mkHandler None key None None, d).
Proof. intros Hnone. unfold constructor. simpl. by rewrite Hnone. Qed.

(** X15. The site key of the page: [window.RECAPTCHA_SITE_KEY] when it
    is a non-empty string, else the built-in key (an empty override
    counts as none).  It is the key in the URL of the script
    [initWeb3Forms] loads and the key the handler asks tokens for; and on
    a page without the form 'contactForm' nothing is loaded. *)
Theorem initWeb3Forms_site_key (override : option string) (d : Document) :
  (forms d !! "contactForm" = None → initWeb3Forms override d
                                     = (mkHandler None
                                          (match override with
                                           | Some k => if decide (k = "") then defaultSiteKey else k
                                           | None => defaultSiteKey
                                           end) None None, d)) ∧
  (is_Some (forms d !! "contactForm") →
   (override = None ∨ override = Some "" →
    recaptchaSiteKey (initWeb3Forms override d).1 = defaultSiteKey ∧
    headScripts (initWeb3Forms override d).2
    = headScripts d ++ [recaptchaScript defaultSiteKey]) ∧
   (∀ k, override = Some k → k ≠ "" →
         recaptchaSiteKey (initWeb3Forms override d).1 = k ∧
         headScripts (initWeb3Forms override d).2 = headScripts d ++ [recaptchaScript k])).
Proof.
  split.
  - intros Hnone. unfold initWeb3Forms. by apply constructor_null.
  - intros [f Hf]. split.
    + intros Ho. unfold initWeb3Forms.
      destruct (constructor_binds "contactForm" defaultSiteKey d f Hf)
        as (this & d' & Hc & _ & Hk & Hh & _).
      destruct Ho as [-> | ->]; [|rewrite decide_True by done];
        change "6Lf_dvwpAAAAAFmtH33BiSaA2Iu6XKM64Fz9qv5w" with defaultSiteKey;
        by rewrite Hc.
    + intros k -> Hk. unfold initWeb3Forms. rewrite decide_False by done.
      destruct (constructor_binds "contactForm" k d f Hf)
        as (this & d' & Hc & _ & Hk' & Hh & _).
      by rewrite Hc.
Qed.

Lemma initWeb3Forms_site_key_witness :
  recaptchaSiteKey
    (initWeb3Forms (Some "") (samplePage (sampleControls (Some false) true) (Some ""))).1
  = defaultSiteKey.
Proof.
  destruct (initWeb3Forms_site_key (Some "")
              (samplePage (sampleControls (Some false) true) (Some ""))) as [_ H].
  destruct H as [H _].
  - exists (mkForm (sampleControls (Some false) true) blankControls (Some sampleButton)).
    apply lookup_singleton_eq.
  - destruct (H (or_intror eq_refl)) as [Hk _]. exact Hk.
Defined.
